(** * mcp-datetimeday: a shallow embedding of [server.py]

    The five tools of [src/mcp_datetimeday/server.py] ([get_datetime],
    [relative_time], [days_in_month], [convert_time], [get_week_year]) are
    embedded as Rocq functions.  The parts of the Python standard library
    they call ([datetime], [timedelta], [calendar.monthrange],
    [datetime.strptime], [strftime], [zoneinfo.ZoneInfo]) are embedded next
    to them, following the library's pure-Python definitions.

    Conventions.
    - Python [int] is [Z]; [//] and [%] are [Z.div] and [Z.modulo] (both
      round toward minus infinity, as in Python).
    - Python [float] is an IEEE 754 double, kept as the integer multiple of
      [2^-1074] it is; an operation on floats rounds its exact result to
      the nearest double, and [int(float)] truncates ([Z.quot]).
    - Python [str] is [string]; a character is a code point below 256.
    - A raised exception is a value of [exn]; reading the process clock is an
      explicit event of the [py] monad.
    - The time-zone database is a variable of the section that holds the
      tools that use it. *)

From Stdlib Require Import ZArith String Ascii List Bool Lia DecimalString.
Import ListNotations.
Local Open Scope string_scope.
Local Open Scope Z_scope.

Set Implicit Arguments.

(* ================================================================= *)
(** ** Calendar arithmetic of [datetime] *)

Module Calendar.

Definition MINYEAR : Z := 1.
Definition MAXYEAR : Z := 9999.
(** [date(9999, 12, 31).toordinal()] *)
Definition MAXORDINAL : Z := 3652059.

(** [year % 4 == 0 and (year % 100 != 0 or year % 400 == 0)] *)
Definition is_leap (year : Z) : bool :=
  (year mod 4 =? 0) && (negb (year mod 100 =? 0) || (year mod 400 =? 0)).

(** [_DAYS_IN_MONTH = [-1, 31, 28, 31, 30, 31, 30, 31, 31, 30, 31, 30, 31]] *)
Definition DAYS_IN_MONTH : list Z :=
  [-1; 31; 28; 31; 30; 31; 30; 31; 31; 30; 31; 30; 31].

(** [_DAYS_BEFORE_MONTH], the running sum of the table above. *)
Definition DAYS_BEFORE_MONTH : list Z :=
  [-1; 0; 31; 59; 90; 120; 151; 181; 212; 243; 273; 304; 334].

Definition index (l : list Z) (i : Z) : Z := nth (Z.to_nat i) l 0.

Definition days_before_year (year : Z) : Z :=
  let y := year - 1 in y * 365 + y / 4 - y / 100 + y / 400.

Definition days_in_month (year month : Z) : Z :=
  if (month =? 2) && is_leap year then 29 else index DAYS_IN_MONTH month.

Definition days_before_month (year month : Z) : Z :=
  index DAYS_BEFORE_MONTH month
  + (if (2 <? month) && is_leap year then 1 else 0).

Definition ymd2ord (year month day : Z) : Z :=
  days_before_year year + days_before_month year month + day.

Definition DI400Y : Z := 146097.
Definition DI100Y : Z := 36524.
Definition DI4Y : Z := 1461.

(** The tail of [_ord2ymd]: month and day from the zero-based day of the
    year [n], by the [(n + 50) >> 5] estimate and one correction. *)
Definition ord2ymd_month (leapyear : bool) (n : Z) : Z * Z :=
  let month := Z.shiftr (n + 50) 5 in
  let preceding :=
    index DAYS_BEFORE_MONTH month
    + (if (2 <? month) && leapyear then 1 else 0) in
  if n <? preceding then
    let month := month - 1 in
    let preceding :=
      preceding
      - (index DAYS_IN_MONTH month
         + (if (month =? 2) && leapyear then 1 else 0)) in
    (month, n - preceding + 1)
  else (month, n - preceding + 1).

(** [_ord2ymd]: the inverse of [ymd2ord], by the 400/100/4/1-year cycles. *)
Definition ord2ymd (ordinal : Z) : Z * Z * Z :=
  let n := ordinal - 1 in
  let n400 := n / DI400Y in
  let n := n mod DI400Y in
  let year := n400 * 400 + 1 in
  let n100 := n / DI100Y in
  let n := n mod DI100Y in
  let n4 := n / DI4Y in
  let n := n mod DI4Y in
  let n1 := n / 365 in
  let n := n mod 365 in
  let year := year + n100 * 100 + n4 * 4 + n1 in
  if (n1 =? 4) || (n100 =? 4) then (year - 1, 12, 31)
  else
    let leapyear := (n1 =? 3) && (negb (n4 =? 24) || (n100 =? 3)) in
    let '(month, day) := ord2ymd_month leapyear n in
    (year, month, day).

(** [_check_date_fields] *)
Definition check_date_fields (year month day : Z) : bool :=
  (MINYEAR <=? year) && (year <=? MAXYEAR)
  && (1 <=? month) && (month <=? 12)
  && (1 <=? day) && (day <=? days_in_month year month).

(** [_check_time_fields] *)
Definition check_time_fields (hour minute second microsecond : Z) : bool :=
  (0 <=? hour) && (hour <=? 23) && (0 <=? minute) && (minute <=? 59)
  && (0 <=? second) && (second <=? 59)
  && (0 <=? microsecond) && (microsecond <=? 999999).

End Calendar.
Import Calendar.

(* ================================================================= *)
(** ** [datetime] and [timedelta] objects *)

(** A naive [datetime]: the broken-down wall-clock fields.  The attribute
    [fold] lives in the aware datetimes below. *)
Record datetime : Type := mkdatetime {
  year : Z; month : Z; day : Z;
  hour : Z; minute : Z; second : Z; microsecond : Z
}.

(** The constructor [datetime(year, month, day, hour, minute, second,
    microsecond)]; [None] stands for the [ValueError] it raises on fields
    out of range. *)
Definition new_datetime (y m d hh mm ss us : Z) : option datetime :=
  if check_date_fields y m d && check_time_fields hh mm ss us
  then Some (mkdatetime y m d hh mm ss us) else None.

(** The fields of a datetime object are always in range. *)
Definition valid_datetime (dt : datetime) : bool :=
  check_date_fields (year dt) (month dt) (day dt)
  && check_time_fields (hour dt) (minute dt) (second dt) (microsecond dt).

Definition toordinal (dt : datetime) : Z := ymd2ord (year dt) (month dt) (day dt).

(** [date.weekday()]: Monday is 0. *)
Definition weekday (dt : datetime) : Z := (toordinal dt + 6) mod 7.

(** [date.isoweekday()]: [self.toordinal() % 7 or 7], Monday is 1. *)
Definition isoweekday (dt : datetime) : Z :=
  let w := toordinal dt mod 7 in if w =? 0 then 7 else w.

(** [timetuple().tm_yday]: [_days_before_month(y, m) + d]. *)
Definition tm_yday (dt : datetime) : Z :=
  days_before_month (year dt) (month dt) + day dt.

(** [_isoweek1monday] *)
Definition isoweek1monday (y : Z) : Z :=
  let firstday := ymd2ord y 1 1 in
  let firstweekday := (firstday + 6) mod 7 in
  let week1monday := firstday - firstweekday in
  if 3 <? firstweekday then week1monday + 7 else week1monday.

(** [date.isocalendar()], as the triple (ISO year, ISO week, ISO weekday). *)
Definition isocalendar (dt : datetime) : Z * Z * Z :=
  let y := year dt in
  let week1monday := isoweek1monday y in
  let today := toordinal dt in
  let week := (today - week1monday) / 7 in
  let wday := (today - week1monday) mod 7 in
  if week <? 0 then
    let y := y - 1 in
    let week1monday := isoweek1monday y in
    (y, (today - week1monday) / 7 + 1, (today - week1monday) mod 7 + 1)
  else if (52 <=? week) && (isoweek1monday (y + 1) <=? today) then
    (y + 1, 1, wday + 1)
  else (y, week + 1, wday + 1).

(** A [timedelta], always normalised by its constructor:
    [0 <= seconds < 86400] and [0 <= microseconds < 1000000], the sign
    lives in [days] alone. *)
Record timedelta : Type := mktimedelta {
  days : Z; seconds : Z; microseconds : Z
}.

(** [timedelta(days, seconds, microseconds)] on integer arguments: the
    carries are [divmod], which rounds toward minus infinity. *)
Definition new_timedelta (d s us : Z) : timedelta :=
  let s := s + us / 1000000 in
  let us := us mod 1000000 in
  let d := d + s / 86400 in
  let s := s mod 86400 in
  mktimedelta d s us.

(** [datetime.__sub__] on two naive datetimes. *)
Definition datetime_sub (a b : datetime) : timedelta :=
  let secs1 := second a + minute a * 60 + hour a * 3600 in
  let secs2 := second b + minute b * 60 + hour b * 3600 in
  new_timedelta (toordinal a - toordinal b) (secs1 - secs2)
                (microsecond a - microsecond b).

(** Seconds from the start of ordinal day 0 to the wall-clock time. *)
Definition wall_seconds (dt : datetime) : Z :=
  toordinal dt * 86400 + hour dt * 3600 + minute dt * 60 + second dt.

(** The datetime at [total] seconds from the start of ordinal day 0: the
    date of the day count, the time of the second of the day.  [None]
    stands for the [OverflowError] of a day count outside 1..MAXORDINAL. *)
Definition datetime_of_seconds (total us : Z) : option datetime :=
  let d := total / 86400 in
  let s := total mod 86400 in
  if (0 <? d) && (d <=? MAXORDINAL) then
    let '(y, m, dd) := ord2ymd d in
    Some (mkdatetime y m dd (s / 3600) ((s mod 3600) / 60) ((s mod 3600) mod 60) us)
  else None.

(** [datetime.__add__] with a whole number of seconds ([offset] may be
    negative): the sum is normalised into days and seconds of the day and
    the fields are rebuilt from them. *)
Definition datetime_add_seconds (dt : datetime) (offset : Z) : option datetime :=
  datetime_of_seconds (wall_seconds dt + offset) (microsecond dt).

(** A Python [float] is an IEEE 754 double.  Every finite double is an
    integer multiple of [2^-1074], the smallest positive one, and is kept
    here as that integer: the double of value [v] is [v * 2^1074].  The
    floats of the tools are counts of seconds within the range of
    [timedelta], far below the largest double, so nothing overflows; the
    sign of a zero is not kept, no operation of the tools tells [-0.0]
    from [0.0]. *)
Definition pyfloat : Type := Z.

(** The double [1.0]. *)
Definition ONE : Z := 2 ^ 1074.

(** The spacing of the doubles at a magnitude [q] (in units of [2^-1074]):
    a double has 53 significant bits. *)
Definition ulp (q : Z) : Z := if q <? 2 ^ 53 then 1 else 2 ^ (Z.log2 q - 52).

(** A value that is a double: a multiple of the spacing at its magnitude. *)
Definition representable (m : Z) : Prop := (ulp (Z.abs m) | m).

(** The double nearest to the rational [a / b] (a value in units of
    [2^-1074]), a tie going to the even significand: the rounding of every
    arithmetic operation on doubles. *)
Definition round_ratio (a b : Z) : pyfloat :=
  let m := Z.abs a in
  let n := Z.abs b in
  let u := ulp (m / n) in
  let d := n * u in
  let k := m / d in
  let r := m mod d in
  let k := if 2 * r <? d then k
           else if d <? 2 * r then k + 1
           else if Z.even k then k else k + 1 in
  Z.sgn a * Z.sgn b * (k * u).

(** [float(n)] for an [int]. *)
Definition float_of_int (n : Z) : pyfloat := round_ratio (n * ONE) 1.
(** [a / b] for two [int]s: the quotient, rounded once. *)
Definition int_truediv (a b : Z) : pyfloat := round_ratio (a * ONE) b.
Definition float_add (x y : pyfloat) : pyfloat := round_ratio (x + y) 1.
Definition float_sub (x y : pyfloat) : pyfloat := round_ratio (x - y) 1.
Definition float_div (x y : pyfloat) : pyfloat := round_ratio (x * ONE) y.
(** C [fmod]: exact, with the sign of [x]. *)
Definition fmod (x y : pyfloat) : pyfloat := Z.rem x y.
(** C [floor] *)
Definition float_floor (x : pyfloat) : pyfloat := x / ONE * ONE.
(** [int(x)]: truncation toward zero. *)
Definition float_int (x : pyfloat) : Z := Z.quot x ONE.

(** [_float_div_mod] of [floatobject.c], which [x // w] and [x % w] follow
    for a non-zero [w]. *)
Definition float_divmod (x w : pyfloat) : pyfloat * pyfloat :=
  let mod0 := fmod x w in
  let div := float_div (float_sub x mod0) w in
  let adjust := negb (mod0 =? 0) && xorb (w <? 0) (mod0 <? 0) in
  let mod1 := if adjust then float_add mod0 w else mod0 in
  let div := if adjust then float_sub div ONE else div in
  let floordiv :=
    if div =? 0 then 0
    else
      let f := float_floor div in
      if ONE <? 2 * float_sub div f then float_add f ONE else f in
  (floordiv, mod1).

(** [int(x // k)] and [x % k] for a float [x] and an [int] [k]: the [int]
    is converted to a float first. *)
Definition float_floordiv (x : pyfloat) (k : Z) : Z :=
  float_int (fst (float_divmod x (float_of_int k))).
Definition float_mod (x : pyfloat) (k : Z) : pyfloat :=
  snd (float_divmod x (float_of_int k)).

(** [timedelta.total_seconds()]:
    [((self.days * 86400 + self.seconds) * 10**6 + self.microseconds) / 10**6],
    a division of two [int]s. *)
Definition total_seconds (td : timedelta) : pyfloat :=
  int_truediv ((days td * 86400 + seconds td) * 1000000 + microseconds td)
              1000000.

(* ================================================================= *)
(** ** Text: [str(int)], zero padding, day and month names *)

(** [str(n)] for an [int]. *)
Definition str (n : Z) : string := NilZero.string_of_int (Z.to_int n).

(** The character of a decimal digit [0 <= k <= 9]. *)
Definition digit_char (k : Z) : ascii := ascii_of_nat (48 + Z.to_nat k).

(** [rjust]-style zero filling of a text to [width] characters. *)
Fixpoint zeros (n : nat) : string :=
  match n with O => "" | S n' => String "0" (zeros n') end.

Definition zfill (width : nat) (s : string) : string :=
  zeros (width - String.length s) ++ s.

(** ["%02d" % n] and ["%04d" % n] for [n >= 0] (the only use here). *)
Definition pad2 (n : Z) : string := zfill 2 (str n).
Definition pad4 (n : Z) : string := zfill 4 (str n).
Definition pad6 (n : Z) : string := zfill 6 (str n).

Definition DAY_NAMES : list string :=
  ["Monday"; "Tuesday"; "Wednesday"; "Thursday"; "Friday"; "Saturday"; "Sunday"].

Definition MONTH_NAMES : list string :=
  [""; "January"; "February"; "March"; "April"; "May"; "June"; "July";
   "August"; "September"; "October"; "November"; "December"].

(** [strftime("%A")] and [strftime("%B")] in the C locale. *)
Definition strftime_A (dt : datetime) : string :=
  nth (Z.to_nat (weekday dt)) DAY_NAMES "".
Definition strftime_B (dt : datetime) : string :=
  nth (Z.to_nat (month dt)) MONTH_NAMES "".

(** [strftime("%Y")]: the C library prints the year as a plain decimal
    number, so a year below 1000 has fewer than four digits (year 999 is
    ["999"]); [%m], [%d], [%H], [%M] and [%S] are zero padded to two. *)
Definition strftime_Y (dt : datetime) : string := str (year dt).

(** [strftime("%Y-%m-%d")] *)
Definition strftime_date (dt : datetime) : string :=
  strftime_Y dt ++ "-" ++ pad2 (month dt) ++ "-" ++ pad2 (day dt).

(** [strftime("%H:%M:%S")] *)
Definition strftime_time (dt : datetime) : string :=
  pad2 (hour dt) ++ ":" ++ pad2 (minute dt) ++ ":" ++ pad2 (second dt).

(** [strftime("%Y-%m-%d %H:%M:%S")] *)
Definition strftime_datetime (dt : datetime) : string :=
  strftime_date dt ++ " " ++ strftime_time dt.

(** [strftime("%A, %B %d, %Y at %I:%M %p")] *)
Definition strftime_human (dt : datetime) : string :=
  let h12 := let h := hour dt mod 12 in if h =? 0 then 12 else h in
  strftime_A dt ++ ", " ++ strftime_B dt ++ " " ++ pad2 (day dt) ++ ", "
  ++ strftime_Y dt ++ " at " ++ pad2 h12 ++ ":" ++ pad2 (minute dt) ++ " "
  ++ (if hour dt <? 12 then "AM" else "PM").

(** The sign and the hour/minute/second split of a UTC offset in seconds,
    shared by [%z] and [isoformat]. *)
Definition offset_parts (off : Z) : string * Z * Z * Z :=
  let sign := if off <? 0 then "-" else "+" in
  let a := Z.abs off in
  (sign, a / 3600, (a mod 3600) / 60, a mod 60).

(** [strftime("%z")] of an aware datetime: [+HHMM], or [+HHMMSS] when the
    offset has seconds. *)
Definition strftime_z (off : Z) : string :=
  let '(sign, h, m, s) := offset_parts off in
  sign ++ pad2 h ++ pad2 m ++ (if s =? 0 then "" else pad2 s).

(** [isoformat()] of an aware datetime; it formats the year itself, with
    ["%04d"]. *)
Definition isoformat (dt : datetime) (off : Z) : string :=
  let '(sign, h, m, s) := offset_parts off in
  pad4 (year dt) ++ "-" ++ pad2 (month dt) ++ "-" ++ pad2 (day dt)
  ++ "T" ++ strftime_time dt
  ++ (if microsecond dt =? 0 then "" else "." ++ pad6 (microsecond dt))
  ++ sign ++ pad2 h ++ ":" ++ pad2 m ++ (if s =? 0 then "" else ":" ++ pad2 s).

(* ================================================================= *)
(** ** [datetime.strptime]

    [_strptime] turns the format into a regular expression, takes the
    first match that the backtracking matcher finds from the start of the
    text ([re.match], compiled with [IGNORECASE]), raises [ValueError]
    when text is left over, and builds the datetime from the groups. *)

Module Strptime.

(** A character class of the directive table. *)
Inductive cclass : Type :=
| Digit                          (* \d *)
| Range (lo hi : ascii)          (* [lo-hi] *)
| Char (c : ascii).

Inductive directive : Type := DY | Dm | Dd | DH | DM | DS.

Inductive item : Type :=
| Directive (d : directive)
| Literal (c : ascii)            (* matched without regard to case *)
| Spaces.                        (* \s+ *)

Definition is_digit (c : ascii) : bool :=
  (48 <=? nat_of_ascii c)%nat && (nat_of_ascii c <=? 57)%nat.

(** [\s] on code points below 256. *)
Definition is_space (c : ascii) : bool :=
  let n := nat_of_ascii c in
  ((9 <=? n) && (n <=? 13) || (28 <=? n) && (n <=? 32)
   || (n =? 133) || (n =? 160))%nat.

Definition lower (c : ascii) : ascii :=
  let n := nat_of_ascii c in
  if ((65 <=? n) && (n <=? 90))%nat then ascii_of_nat (n + 32) else c.

Definition in_class (k : cclass) (c : ascii) : bool :=
  match k with
  | Digit => is_digit c
  | Range lo hi =>
      ((nat_of_ascii lo <=? nat_of_ascii c)
       && (nat_of_ascii c <=? nat_of_ascii hi))%nat
  | Char x => Ascii.eqb x c
  end.

(** The alternatives of each directive, in the order of the table of
    [TimeRE]. *)
Definition alternatives (d : directive) : list (list cclass) :=
  match d with
  | DY => [[Digit; Digit; Digit; Digit]]
  | Dm => [[Char "1"; Range "0" "2"]; [Char "0"; Range "1" "9"]; [Range "1" "9"]]
  | Dd => [[Char "3"; Range "0" "1"]; [Range "1" "2"; Digit];
           [Char "0"; Range "1" "9"]; [Range "1" "9"]; [Char " "; Range "1" "9"]]
  | DH => [[Char "2"; Range "0" "3"]; [Range "0" "1"; Digit]; [Digit]]
  | DM => [[Range "0" "5"; Digit]; [Digit]]
  | DS => [[Char "6"; Range "0" "1"]; [Range "0" "5"; Digit]; [Digit]]
  end.

(** One alternative against the start of the text: the matched text and
    the rest. *)
Fixpoint match_alt (alt : list cclass) (s : string) : option (string * string) :=
  match alt with
  | [] => Some ("", s)
  | k :: alt' =>
      match s with
      | String c s' =>
          if in_class k c then
            match match_alt alt' s' with
            | Some (t, r) => Some (String c t, r)
            | None => None
            end
          else None
      | EmptyString => None
      end
  end.

(** [int(text)] for the text of a group: decimal digits, possibly after
    blanks. *)
Fixpoint int_digits (acc : Z) (s : string) : Z :=
  match s with
  | EmptyString => acc
  | String c s' =>
      if is_digit c then int_digits (acc * 10 + (Z.of_nat (nat_of_ascii c) - 48)) s'
      else int_digits acc s'
  end.
Definition int (s : string) : Z := int_digits 0 s.

(** The groups found so far; the defaults are those of [_strptime]. *)
Record groups : Type := mkgroups {
  gY : Z; gm : Z; gd : Z; gH : Z; gM : Z; gS : Z
}.
Definition no_groups : groups := mkgroups 1900 1 1 0 0 0.

Definition set_group (d : directive) (v : Z) (g : groups) : groups :=
  match d with
  | DY => mkgroups v (gm g) (gd g) (gH g) (gM g) (gS g)
  | Dm => mkgroups (gY g) v (gd g) (gH g) (gM g) (gS g)
  | Dd => mkgroups (gY g) (gm g) v (gH g) (gM g) (gS g)
  | DH => mkgroups (gY g) (gm g) (gd g) v (gM g) (gS g)
  | DM => mkgroups (gY g) (gm g) (gd g) (gH g) v (gS g)
  | DS => mkgroups (gY g) (gm g) (gd g) (gH g) (gM g) v
  end.

(** The first [Some] of a list of attempts: the matcher backtracks into
    the next attempt only when the rest of the pattern failed. *)
Fixpoint first_success {A B : Type} (f : A -> option B) (l : list A) : option B :=
  match l with
  | [] => None
  | a :: l' => match f a with Some b => Some b | None => first_success f l' end
  end.

(** All the ways [\s+] can match at the start of the text, longest first
    (the quantifier is greedy): the rests after each non-empty run. *)
Fixpoint space_rests (s : string) : list string :=
  match s with
  | String c s' => if is_space c then (space_rests s' ++ [s'])%list else []
  | EmptyString => []
  end.

(** The backtracking match of a pattern from the start of the text: the
    groups and the text left over by the first successful match. *)
Fixpoint match_items (items : list item) (s : string) (g : groups)
  : option (groups * string) :=
  match items with
  | [] => Some (g, s)
  | Directive d :: items' =>
      first_success
        (fun alt =>
           match match_alt alt s with
           | Some (t, r) => match_items items' r (set_group d (int t) g)
           | None => None
           end)
        (alternatives d)
  | Literal c :: items' =>
      match s with
      | String x r =>
          if Ascii.eqb (lower c) (lower x) then match_items items' r g else None
      | EmptyString => None
      end
  | Spaces :: items' =>
      first_success (fun r => match_items items' r g) (space_rests s)
  end.

Definition directive_of (c : ascii) : option directive :=
  if Ascii.eqb c "Y" then Some DY else
  if Ascii.eqb c "m" then Some Dm else
  if Ascii.eqb c "d" then Some Dd else
  if Ascii.eqb c "H" then Some DH else
  if Ascii.eqb c "M" then Some DM else
  if Ascii.eqb c "S" then Some DS else None.

(** [TimeRE.pattern]: a run of blanks in the format becomes [\s+], [%x]
    becomes the expression of the directive, any other character stands
    for itself.  Only the six directives the tools use are tabulated; an
    unknown or stray [%] is [None], the [ValueError] of [_strptime]. *)
Fixpoint pattern (after_space : bool) (format : string) : option (list item) :=
  match format with
  | EmptyString => Some []
  | String c rest =>
      if is_space c then
        match pattern true rest with
        | Some p => Some (if after_space then p else Spaces :: p)
        | None => None
        end
      else if Ascii.eqb c "%" then
        match rest with
        | String x rest' =>
            match directive_of x, pattern false rest' with
            | Some d, Some p => Some (Directive d :: p)
            | _, _ => None
            end
        | EmptyString => None
        end
      else
        match pattern false rest with
        | Some p => Some (Literal c :: p)
        | None => None
        end
  end.

(** [datetime.strptime(data_string, format)]; [None] is the [ValueError]
    raised when the text does not match, when text remains after the
    match, or when the fields are not a date and time. *)
Definition strptime (data_string format : string) : option datetime :=
  match pattern false format with
  | None => None
  | Some p =>
      match match_items p data_string no_groups with
      | Some (g, EmptyString) =>
          new_datetime (gY g) (gm g) (gd g) (gH g) (gM g) (gS g) 0
      | _ => None
      end
  end.

End Strptime.
Import Strptime.

(* ================================================================= *)
(** ** Time zones: [timezone] and [zoneinfo.ZoneInfo] *)

(** The data of one zone of the IANA database: the UTC offset (seconds)
    in force before the first transition, and the transitions in
    increasing order, each the POSIX timestamp (UTC) at which a new offset
    starts.  The rule a zone file gives for the time after its last
    listed transition is taken as already unfolded into this list up to
    the end of year 9999, where [datetime] ends. *)
Record zonedata : Type := mkzonedata {
  utcoff_before : Z;
  transitions : list (Z * Z)
}.

Inductive tzinfo : Type :=
| timezone_utc                                 (* the singleton [timezone.utc] *)
| timezone_fixed (offset : Z) (name : string)  (* [timezone(timedelta(seconds=offset), name)] *)
| ZoneInfoObj (key : string) (z : zonedata).   (* the cached [ZoneInfo(key)] *)

(** An aware datetime: wall-clock fields, the [fold] attribute and the
    attached [tzinfo]. *)
Record aware : Type := mkaware {
  naive : datetime; fold : bool; tz : tzinfo
}.

Definition EPOCHORDINAL : Z := 719163.

(** [ZoneInfo._get_local_timestamp] *)
Definition local_timestamp (dt : datetime) : Z :=
  (toordinal dt - EPOCHORDINAL) * 86400
  + hour dt * 3600 + minute dt * 60 + second dt.

(** [ZoneInfo._find_trans]: the offset at a wall-clock time.  The list of
    transitions in local time, [_trans_local[fold]], shifts each UTC
    transition by the larger of the offsets around it for [fold = 0] and
    by the smaller for [fold = 1]; the bisection returns the offset of the
    last transition at or before the timestamp. *)
Fixpoint find_trans_local (fd : bool) (ts : Z) (cur : Z) (trans : list (Z * Z)) : Z :=
  match trans with
  | [] => cur
  | (t, off) :: rest =>
      let shift := if fd then Z.min cur off else Z.max cur off in
      if t + shift <=? ts then find_trans_local fd ts off rest else cur
  end.

(** The bisection of [ZoneInfo.fromutc] over the UTC transitions: the
    offset in force, the one before it, and the last transition passed. *)
Fixpoint find_trans_utc (ts : Z) (prev cur : Z) (last : option Z)
         (trans : list (Z * Z)) : Z * Z * option Z :=
  match trans with
  | [] => (prev, cur, last)
  | (t, off) :: rest =>
      if t <=? ts then find_trans_utc ts cur off (Some t) rest
      else (prev, cur, last)
  end.

(** [tzinfo.utcoffset(dt)], in seconds. *)
Definition utcoffset (a : aware) : Z :=
  match tz a with
  | timezone_utc => 0
  | timezone_fixed off _ => off
  | ZoneInfoObj _ z =>
      find_trans_local (fold a) (local_timestamp (naive a))
                       (utcoff_before z) (transitions z)
  end.

(** The offset that [tzinfo.fromutc] adds to a datetime holding UTC
    fields, and the [fold] that [ZoneInfo.fromutc] sets on the later of two
    equal wall-clock times. *)
Definition fromutc_offset (t : tzinfo) (utc : datetime) : Z :=
  match t with
  | timezone_utc => 0
  | timezone_fixed off _ => off
  | ZoneInfoObj _ z =>
      let '(_, cur, _) :=
        find_trans_utc (local_timestamp utc) (utcoff_before z) (utcoff_before z)
                       None (transitions z) in
      cur
  end.

Definition fromutc_fold (t : tzinfo) (utc : datetime) : bool :=
  match t with
  | ZoneInfoObj _ z =>
      let ts := local_timestamp utc in
      let '(prev, cur, last) :=
        find_trans_utc ts (utcoff_before z) (utcoff_before z) None (transitions z) in
      match last with
      | Some t0 => ts - t0 <? prev - cur
      | None => false
      end
  | _ => false
  end.

(** [tzinfo.fromutc(dt)]: [dt + offset], with the fold; [None] is the
    [OverflowError] of the addition. *)
Definition fromutc (t : tzinfo) (utc : datetime) : option aware :=
  option_map (fun d => mkaware d (fromutc_fold t utc) t)
             (datetime_add_seconds utc (fromutc_offset t utc)).

(** [tz is mytz]: [timezone.utc] is a singleton and [ZoneInfo] returns the
    cached object of a key. *)
Definition same_object (a b : tzinfo) : bool :=
  match a, b with
  | timezone_utc, timezone_utc => true
  | ZoneInfoObj k1 _, ZoneInfoObj k2 _ => String.eqb k1 k2
  | _, _ => false
  end.

(** [datetime.astimezone(tz)]: a no-op on the object's own zone, else
    through UTC; [None] is [OverflowError]. *)
Definition astimezone (a : aware) (t : tzinfo) : option aware :=
  if same_object t (tz a) then Some a
  else
    match datetime_add_seconds (naive a) (- utcoffset a) with
    | Some utc => fromutc t utc
    | None => None
    end.

(** [str(tzinfo)] *)
Definition tzname (t : tzinfo) : string :=
  match t with
  | timezone_utc => "UTC"
  | timezone_fixed _ name => name
  | ZoneInfoObj k _ => k
  end.

(** [aware.timestamp()]: [(self - _EPOCH).total_seconds()], the delta to
    the epoch being exact. *)
Definition timestamp (a : aware) : pyfloat :=
  int_truediv ((local_timestamp (naive a) - utcoffset a) * 1000000
               + microsecond (naive a)) 1000000.

(* ================================================================= *)
(** ** Exceptions, the clock, and the monad of a tool body *)

Inductive exn_type : Type :=
| ValueError | OverflowError | ZoneInfoNotFoundError | OtherError.

(** A raised exception: its class and [str(e)]. *)
Record exn : Type := mkexn { exn_class : exn_type; exn_text : string }.

(** One reading of the process clock: the local wall-clock time that
    [datetime.now()] returns, and the offset and name the system reports
    for the local zone at that time. *)
Record clock : Type := mkclock {
  now_local : datetime; local_gmtoff : Z; local_zone : string
}.

(** A tool body: it returns, raises, or reads the clock and goes on. *)
Inductive py (A : Type) : Type :=
| ret (a : A)
| raise (e : exn)
| read_clock (k : clock -> py A).
Arguments raise {A} e.

Fixpoint bind {A B : Type} (p : py A) (f : A -> py B) : py B :=
  match p with
  | ret a => f a
  | raise e => raise e
  | read_clock k => read_clock (fun c => bind (k c) f)
  end.

Notation "x <- p ;; q" := (bind p (fun x => q))
  (at level 61, p at next level, right associativity).

(** [try: p  except ...: handler]: [handler e] is [None] when no clause
    catches [e]. *)
Fixpoint try_except {A : Type} (p : py A) (handler : exn -> option (py A)) : py A :=
  match p with
  | ret a => ret a
  | raise e => match handler e with Some q => q | None => raise e end
  | read_clock k => read_clock (fun c => try_except (k c) handler)
  end.

(** What the caller of a tool observes. *)
Inductive outcome (A : Type) : Type :=
| Returned (a : A)
| Raised (e : exn).
Arguments Raised {A} e.

Fixpoint run {A : Type} (c : clock) (p : py A) : outcome A :=
  match p with
  | ret a => Returned a
  | raise e => Raised e
  | read_clock k => run c (k c)
  end.

(** How often a body reads the clock when it runs against [c]. *)
Fixpoint clock_reads {A : Type} (c : clock) (p : py A) : nat :=
  match p with
  | ret _ | raise _ => O
  | read_clock k => S (clock_reads c (k c))
  end.

(** An [option] whose [None] is a raised exception. *)
Definition or_raise {A : Type} (o : option A) (e : exn) : py A :=
  match o with Some a => ret a | None => raise e end.

(** [datetime.now()] *)
Definition datetime_now : py datetime := read_clock (fun c => ret (now_local c)).

(* ================================================================= *)
(** ** Result mappings *)

#[warnings="-register-all"] Inductive value : Type :=
| VStr (s : string)
| VInt (n : Z)
| VBool (b : bool)
| VDict (d : list (string * value)).

Definition dict : Type := list (string * value).

(** [d.get(k)] *)
Fixpoint get (k : string) (d : dict) : option value :=
  match d with
  | [] => None
  | (k', v) :: d' => if String.eqb k k' then Some v else get k d'
  end.

Definition keys (d : dict) : list string := map fst d.

(** [k in d] *)
Definition has_key (k : string) (d : dict) : bool :=
  existsb (String.eqb k) (keys d).

(** Truth value of an optional text argument: [None] and [""] are false. *)
Definition truthy (s : option string) : bool :=
  match s with
  | Some s => negb (String.eqb s "")
  | None => false
  end.

(** [x or default] for an optional integer: [None] and [0] are false. *)
Definition int_or (x : option Z) (default : Z) : Z :=
  match x with
  | Some n => if n =? 0 then default else n
  | None => default
  end.

(* ================================================================= *)
(** ** The tools of [server.py] *)

Definition overflow_error : exn := mkexn OverflowError "date value out of range".

(** The loop [for fmt in formats: try: x = datetime.strptime(s, fmt); break
    except ValueError: continue], starting from [x = None]. *)
Fixpoint parse_formats (s : string) (formats : list string) : option datetime :=
  match formats with
  | [] => None
  | fmt :: rest =>
      match strptime s fmt with
      | Some dt => Some dt
      | None => parse_formats s rest
      end
  end.

(** The single-field mapping of a failure. *)
Definition error_mapping (message : string) : dict := [("error", VStr message)].

(** *** [relative_time] *)

Definition relative_time_formats : list string :=
  ["%Y-%m-%d"; "%Y-%m-%dT%H:%M:%S"; "%Y-%m-%d %H:%M:%S"].

(** Lines 111-134: the description from the components of the magnitude. *)
Definition describe (days hours minutes seconds : Z) : string :=
  if 365 <=? days then
    let years := days / 365 in
    let unit := if years =? 1 then "year" else "years" in
    str years ++ " " ++ unit
  else if 30 <=? days then
    let months := days / 30 in
    let unit := if months =? 1 then "month" else "months" in
    str months ++ " " ++ unit
  else if 7 <=? days then
    let weeks := days / 7 in
    let unit := if weeks =? 1 then "week" else "weeks" in
    str weeks ++ " " ++ unit
  else if 0 <? days then
    let unit := if days =? 1 then "day" else "days" in
    str days ++ " " ++ unit
  else if 0 <? hours then
    let unit := if hours =? 1 then "hour" else "hours" in
    str hours ++ " " ++ unit
  else if 0 <? minutes then
    let unit := if minutes =? 1 then "minute" else "minutes" in
    str minutes ++ " " ++ unit
  else
    let unit := if seconds =? 1 then "second" else "seconds" in
    str seconds ++ " " ++ unit.

(** Lines 99-147, once [target] and [ref] are known. *)
Definition relative_result (date_str : string) (reference : option string)
           (target ref : datetime) : dict :=
  let delta := datetime_sub target ref in
  let delta_days := days delta in
  let total_seconds := total_seconds delta in
  let is_future := 0 <? total_seconds in
  let abs_seconds := Z.abs total_seconds in
  let days := float_floordiv abs_seconds 86400 in
  let hours := float_floordiv (float_mod abs_seconds 86400) 3600 in
  let minutes := float_floordiv (float_mod abs_seconds 3600) 60 in
  let seconds := float_int (float_mod abs_seconds 60) in
  let desc := describe days hours minutes seconds in
  let relative := if is_future then "in " ++ desc else desc ++ " ago" in
  let relative := if abs_seconds <? ONE then "now" else relative in
  [ ("target", VStr date_str);
    ("target_day_of_week", VStr (strftime_A target));
    ("reference", VStr (match reference with
                        | Some r => if String.eqb r "" then "now" else r
                        | None => "now"
                        end));
    ("relative", VStr relative);
    ("days_difference", VInt delta_days);
    ("total_seconds", VInt (float_int total_seconds)) ].

(** A datetime object is always true, so [if not target] and [if not ref]
    test for the [None] the loop started from. *)
Definition relative_time (date_str : string) (reference : option string) : py dict :=
  let formats := relative_time_formats in
  match parse_formats date_str formats with
  | None =>
      ret (error_mapping ("Invalid date format: " ++ date_str
                          ++ ". Use YYYY-MM-DD or YYYY-MM-DDTHH:MM:SS."))
  | Some target =>
      match reference with
      | Some r =>
          if truthy reference then
            match parse_formats r formats with
            | None => ret (error_mapping ("Invalid reference date format: " ++ r))
            | Some ref => ret (relative_result date_str reference target ref)
            end
          else
            ref <- datetime_now ;;
            ret (relative_result date_str reference target ref)
      | None =>
          ref <- datetime_now ;;
          ret (relative_result date_str reference target ref)
      end
  end.

(** *** [days_in_month] *)

(** [calendar.monthrange(year, month)] for a month already known to lie in
    1..12: the weekday of the first day (years outside [datetime]'s range
    are brought into it by [2000 + year % 400]) and the number of days,
    [mdays[month] + (month == February and isleap(year))]. *)
Definition monthrange (year month : Z) : Z * Z :=
  let y := if (MINYEAR <=? year) && (year <=? MAXYEAR) then year
           else 2000 + year mod 400 in
  ((ymd2ord y month 1 + 6) mod 7,
   index DAYS_IN_MONTH month + (if (month =? 2) && is_leap year then 1 else 0)).

(** The exception of [datetime(year, month, day)] for a year outside
    1..9999.  The constructor takes the year as a C [int]: a year that fits
    one is refused by the range check with [ValueError]; a larger one is
    refused before that, by the conversion of the argument, with
    [OverflowError] (the texts are those of a C [long] of 64 bits). *)
Definition year_error (year : Z) : exn :=
  if (year <? - 9223372036854775808) || (9223372036854775807 <? year) then
    mkexn OverflowError "Python int too large to convert to C long"
  else if 2147483647 <? year then
    mkexn OverflowError "signed integer is greater than maximum"
  else if year <? - 2147483648 then
    mkexn OverflowError "signed integer is less than minimum"
  else mkexn ValueError ("year " ++ str year ++ " is out of range").

Definition days_in_month (year month : option Z) : py dict :=
  now <- datetime_now ;;
  let 'mkdatetime now_year now_month _ _ _ _ _ := now in
  let year := int_or year now_year in
  let month := int_or month now_month in
  if negb ((1 <=? month) && (month <=? 12)) then
    ret (error_mapping ("Invalid month: " ++ str month ++ ". Must be 1-12."))
  else
    let '(first_weekday, num_days) := monthrange year month in
    first_day <- or_raise (new_datetime year month 1 0 0 0 0) (year_error year) ;;
    last_day <- or_raise (new_datetime year month num_days 0 0 0 0) (year_error year) ;;
    ret [ ("year", VInt year);
          ("month", VInt month);
          ("month_name", VStr (strftime_B first_day));
          ("days_in_month", VInt num_days);
          ("first_day", VDict [ ("date", VStr (strftime_date first_day));
                                ("day_of_week", VStr (strftime_A first_day)) ]);
          ("last_day", VDict [ ("date", VStr (strftime_date last_day));
                               ("day_of_week", VStr (strftime_A last_day)) ]);
          ("is_leap_year",
           VBool ((year mod 4 =? 0)
                  && (negb (year mod 100 =? 0) || (year mod 400 =? 0)))) ].

(** *** [get_week_year] *)

Definition week_year_result (dt : datetime) : dict :=
  let iso_cal := isocalendar dt in
  [ ("date", VStr (strftime_date dt));
    ("day_of_week", VStr (strftime_A dt));
    ("day_of_week_number", VInt (isoweekday dt));
    ("week_number", VInt ((tm_yday dt - 1) / 7 + 1));
    ("iso_week", VInt (snd (fst iso_cal)));
    ("iso_year", VInt (fst (fst iso_cal)));
    ("day_of_year", VInt (tm_yday dt));
    ("days_remaining_in_year",
     VInt (days (datetime_sub (mkdatetime (year dt) 12 31 0 0 0 0) dt)));
    ("is_weekend", VBool (6 <=? isoweekday dt));
    ("quarter", VInt ((month dt - 1) / 3 + 1)) ].

Definition get_week_year (date_str : option string) : py dict :=
  match date_str with
  | Some s =>
      if truthy date_str then
        match strptime s "%Y-%m-%d" with
        | Some dt => ret (week_year_result dt)
        | None => ret (error_mapping ("Invalid date format: " ++ s ++ ". Use YYYY-MM-DD."))
        end
      else dt <- datetime_now ;; ret (week_year_result dt)
  | None => dt <- datetime_now ;; ret (week_year_result dt)
  end.

(** *** The tools that resolve time zones *)

Section TimeZones.

(** The time-zone database: the data of a key, or the exception that
    [ZoneInfo(key)] raises for it. *)
Variable tzdata : string -> zonedata + exn.

Definition ZoneInfo (key : string) : py tzinfo :=
  match tzdata key with
  | inl z => ret (ZoneInfoObj key z)
  | inr e => raise e
  end.

(** [ZoneInfo(name) if name != "UTC" else timezone.utc] *)
Definition zone_of (name : string) : py tzinfo :=
  if negb (String.eqb name "UTC") then ZoneInfo name else ret timezone_utc.

(** [datetime.now(zone)]: the UTC fields of the clock, then [zone.fromutc]. *)
Definition datetime_now_in (zone : tzinfo) : py aware :=
  read_clock (fun c =>
    utc <- or_raise (datetime_add_seconds (now_local c) (- local_gmtoff c))
                    overflow_error ;;
    or_raise (fromutc zone utc) overflow_error).

(** [datetime.now().astimezone()]: the local time, made aware with the
    fixed-offset zone the system reports, through UTC. *)
Definition datetime_now_astimezone : py aware :=
  read_clock (fun c =>
    let local := timezone_fixed (local_gmtoff c) (local_zone c) in
    utc <- or_raise (datetime_add_seconds (now_local c) (- local_gmtoff c))
                    overflow_error ;;
    or_raise (fromutc local utc) overflow_error).

(** Lines 36-58 of [get_datetime], once [now] is known. *)
Definition datetime_result (now : aware) (format : option string) : dict :=
  let day_of_week := strftime_A (naive now) in
  let format_is (s : string) :=
    match format with Some f => String.eqb f s | None => false end in
  if format_is "iso8601" then
    [ ("day_of_week", VStr day_of_week);
      ("iso8601", VStr (isoformat (naive now) (utcoffset now))) ]
  else if format_is "unix" then
    [ ("day_of_week", VStr day_of_week);
      ("unix_timestamp", VInt (float_int (timestamp now))) ]
  else if format_is "human" then
    [ ("day_of_week", VStr day_of_week);
      ("human_readable", VStr (strftime_human (naive now))) ]
  else
    [ ("day_of_week", VStr day_of_week);
      ("date", VStr (strftime_date (naive now)));
      ("time", VStr (strftime_time (naive now)));
      ("timezone", VStr (tzname (tz now)));
      ("utc_offset", VStr (strftime_z (utcoffset now)));
      ("iso8601", VStr (isoformat (naive now) (utcoffset now)));
      ("unix_timestamp", VInt (float_int (timestamp now)));
      ("human_readable", VStr (strftime_human (naive now))) ].

Definition get_datetime (tz format : option string) : py dict :=
  match tz with
  | Some name =>
      if truthy tz then
        now <- try_except
                 (zone <- zone_of name ;;
                  now <- datetime_now_in zone ;;
                  ret (inl now))
                 (fun _ => Some (ret (inr (error_mapping
                                             ("Invalid timezone: " ++ name))))) ;;
        match now with
        | inr err => ret err
        | inl now => ret (datetime_result now format)
        end
      else now <- datetime_now_astimezone ;; ret (datetime_result now format)
  | None => now <- datetime_now_astimezone ;; ret (datetime_result now format)
  end.

(** *** [convert_time] *)

Definition convert_time_formats : list string :=
  ["%Y-%m-%d %H:%M:%S"; "%Y-%m-%dT%H:%M:%S"; "%Y-%m-%d"].

Definition zone_mapping (a : aware) (name : string) : value :=
  VDict [ ("day_of_week", VStr (strftime_A (naive a)));
          ("datetime", VStr (strftime_datetime (naive a)));
          ("timezone", VStr name);
          ("utc_offset", VStr (strftime_z (utcoffset a))) ].

Definition convert_time (time_str from_tz to_tz : string) : py dict :=
  match parse_formats time_str convert_time_formats with
  | None => ret (error_mapping ("Invalid time format: " ++ time_str))
  | Some dt =>
      zones <- try_except
                 (source_zone <- zone_of from_tz ;;
                  target_zone <- zone_of to_tz ;;
                  ret (inl (source_zone, target_zone)))
                 (fun e => Some (ret (inr (error_mapping
                                             ("Invalid timezone: " ++ exn_text e))))) ;;
      match zones with
      | inr err => ret err
      | inl (source_zone, target_zone) =>
          let source_dt := mkaware dt false source_zone in
          target_dt <- or_raise (astimezone source_dt target_zone) overflow_error ;;
          ret [ ("from", zone_mapping source_dt from_tz);
                ("to", zone_mapping target_dt to_tz) ]
      end
  end.

End TimeZones.

(* ================================================================= *)
(** ** Definitions that follow the words of the specification

    These are compared below with the definitions taken from the code. *)

(** The signed delta, target minus reference, in whole seconds. *)
Definition delta_seconds (target ref : datetime) : Z :=
  wall_seconds target - wall_seconds ref.

(** "Sign-preserving truncation toward zero" of the delta to whole days. *)
Definition truncated_days (delta : Z) : Z := Z.quot delta 86400.

(** Section 4.4, step 6, as worded: for a parseable target and reference
    the field [days_difference] is the truncated whole-day count. *)
Definition days_difference_truncates (date_str reference : string) : Prop :=
  forall target ref,
    parse_formats date_str relative_time_formats = Some target ->
    parse_formats reference relative_time_formats = Some ref ->
    exists d,
      relative_time date_str (Some reference) = ret d
      /\ get "days_difference" d
         = Some (VInt (truncated_days (delta_seconds target ref))).

(** The tiers of the relative phrase, largest first. *)
Inductive tier : Type := Years | Months | Weeks | Days | Hours | Minutes | Seconds.

(** Section 4.4, steps 2 and 3: the components of the magnitude under the
    24h/60m/60s model and the single tier chosen from them, with its value. *)
Definition spec_tier (magnitude : Z) : tier * Z :=
  let whole_days := magnitude / 86400 in
  let hour_part := (magnitude mod 86400) / 3600 in
  let minute_part := (magnitude mod 3600) / 60 in
  let second_part := magnitude mod 60 in
  if 365 <=? whole_days then (Years, whole_days / 365)
  else if 30 <=? whole_days then (Months, whole_days / 30)
  else if 7 <=? whole_days then (Weeks, whole_days / 7)
  else if 1 <=? whole_days then (Days, whole_days)
  else if 0 <? hour_part then (Hours, hour_part)
  else if 0 <? minute_part then (Minutes, minute_part)
  else (Seconds, second_part).

Definition singular (t : tier) : string :=
  match t with
  | Years => "year" | Months => "month" | Weeks => "week" | Days => "day"
  | Hours => "hour" | Minutes => "minute" | Seconds => "second"
  end.

Definition plural (t : tier) : string := singular t ++ "s".

(** Step 4: the singular name for a value of exactly 1, else the plural. *)
Definition unit_name (t : tier) (value : Z) : string :=
  if value =? 1 then singular t else plural t.

(** Step 5: the phrase of a signed delta in whole seconds. *)
Definition spec_phrase (delta : Z) : string :=
  if Z.abs delta <? 1 then "now"
  else
    let '(t, value) := spec_tier (Z.abs delta) in
    if 0 <? delta then "in " ++ str value ++ " " ++ unit_name t value
    else str value ++ " " ++ unit_name t value ++ " ago".

(** The Gregorian calendar table: a year is leap when divisible by 4,
    except a century, which is leap only when divisible by 400. *)
Definition gregorian_leap (y : Z) : bool :=
  if y mod 400 =? 0 then true
  else if y mod 100 =? 0 then false
  else y mod 4 =? 0.

Definition gregorian_days (y m : Z) : Z :=
  match m with
  | 1 | 3 | 5 | 7 | 8 | 10 | 12 => 31
  | 4 | 6 | 9 | 11 => 30
  | 2 => if gregorian_leap y then 29 else 28
  | _ => 0
  end.

(** Section 8, first property, as worded for every year: the call returns,
    the count is the one of the table, the flag obeys the leap rule, and
    February has 29 days exactly when the flag is set. *)
Definition days_in_month_reports (c : clock) (y m : Z) : Prop :=
  exists d leap,
    run c (days_in_month (Some y) (Some m)) = Returned d
    /\ get "days_in_month" d = Some (VInt (gregorian_days y m))
    /\ get "is_leap_year" d = Some (VBool leap)
    /\ (leap = true <-> y mod 4 = 0 /\ (y mod 100 <> 0 \/ y mod 400 = 0))
    /\ (m = 2 -> (gregorian_days y m = 29 <-> leap = true)).

(** The uniform contract of section 6 on a returned mapping: a failure is
    the single field ["error"] with a text, a success has no such key. *)
Definition error_only (d : dict) : Prop := exists message, d = [("error", VStr message)].

Definition uniform_mapping (d : dict) : Prop :=
  error_only d \/ has_key "error" d = false.

(** The contract as stated for a whole call: the call returns, and what it
    returns is a uniform mapping. *)
Definition uniform_contract (o : outcome dict) : Prop :=
  exists d, o = Returned d /\ uniform_mapping d.

(** A call that either keeps the contract on what it returns or raises
    an exception of one of the listed classes. *)
Definition uniform_or_raises (classes : list exn_type) (o : outcome dict) : Prop :=
  match o with
  | Returned d => uniform_mapping d
  | Raised e => In (exn_class e) classes
  end.

(** "The text carries the offending input". *)
Definition carries (message input : string) : Prop :=
  exists before after, message = before ++ input ++ after.

(** A text of one alternative: one character of each class, in order. *)
Inductive in_alt : list cclass -> string -> Prop :=
| in_alt_nil : in_alt [] ""
| in_alt_cons k alt c t :
    in_class k c = true -> in_alt alt t -> in_alt (k :: alt) (String c t).

(** A non-empty run of blanks. *)
Inductive all_space : string -> Prop :=
| all_space_one c : is_space c = true -> all_space (String c "")
| all_space_more c s : is_space c = true -> all_space s -> all_space (String c s).

(** A pattern matches an entire text: the text is the concatenation, in
    order, of one text per item, and nothing is left when the pattern ends.
    The groups collect the value of each directive. *)
Inductive matches_entirely : list item -> string -> groups -> groups -> Prop :=
| matches_end g : matches_entirely [] "" g g
| matches_directive d alt t items r g g' :
    In alt (alternatives d) -> in_alt alt t ->
    matches_entirely items r (set_group d (int t) g) g' ->
    matches_entirely (Directive d :: items) (t ++ r) g g'
| matches_literal c x items r g g' :
    lower c = lower x ->
    matches_entirely items r g g' ->
    matches_entirely (Literal c :: items) (String x r) g g'
| matches_spaces sp items r g g' :
    all_space sp ->
    matches_entirely items r g g' ->
    matches_entirely (Spaces :: items) (sp ++ r) g g'.

(** *** Patterns whose fields are kept apart

    In the formats of the tools every directive is followed by a
    separator that no digit can match, or ends the pattern; this is what
    makes the first match of the backtracking matcher the entire one. *)

(** A class that only holds decimal digits. *)
Definition digit_class (k : cclass) : bool :=
  match k with
  | Digit => true
  | Range lo hi => is_digit lo && is_digit hi
  | Char c => is_digit c
  end.

(** No character is in both classes. *)
Definition disjoint_classes (k1 k2 : cclass) : bool :=
  forallb (fun n => negb (in_class k1 (ascii_of_nat n) && in_class k2 (ascii_of_nat n)))
          (seq 0 256).

Definition disjoint_first (a b : list cclass) : bool :=
  match a, b with
  | k1 :: _, k2 :: _ => disjoint_classes k1 k2
  | _, _ => false
  end.

(** A longer alternative never comes after a shorter one that could
    match the same text. *)
Fixpoint ordered_alternatives (l : list (list cclass)) : bool :=
  match l with
  | [] => true
  | a :: rest =>
      forallb (fun b => (length b <=? length a)%nat || disjoint_first a b) rest
      && ordered_alternatives rest
  end.

(** Every alternative is non-empty and holds digits after its first
    character. *)
Definition digits_after_first (l : list (list cclass)) : bool :=
  forallb (fun alt => match alt with
                      | [] => false
                      | _ :: later => forallb digit_class later
                      end) l.

(** Every alternative starts with a digit. *)
Definition digit_first (l : list (list cclass)) : bool :=
  forallb (fun alt => match alt with
                      | k :: _ => digit_class k
                      | [] => false
                      end) l.

(** What may follow a directive: the end of the pattern, a literal that
    is no digit, or blanks. *)
Definition follow_ok (q : list item) : bool :=
  match q with
  | [] => true
  | Literal c :: _ => negb (is_digit (lower c))
  | Spaces :: _ => true
  | Directive _ :: _ => false
  end.

Fixpoint well_separated (p : list item) : bool :=
  match p with
  | [] => true
  | Directive d :: q =>
      digits_after_first (alternatives d) && ordered_alternatives (alternatives d)
      && follow_ok q && well_separated q
  | Literal _ :: q => well_separated q
  | Spaces :: q =>
      match q with
      | Directive d :: _ => digit_first (alternatives d)
      | _ => false
      end && well_separated q
  end.

(** The items of a pattern that cannot set a time group. *)
Definition date_directive (d : directive) : bool :=
  match d with DY | Dm | Dd => true | _ => false end.

Definition date_only_item (i : item) : bool :=
  match i with Directive d => date_directive d | _ => true end.

(** Reading the wall-clock fields of one side of a [convert_time] result:
    the date-and-time text and the weekday name. *)
Definition wall_clock (side : string) (d : dict) : option (string * string) :=
  match get side d with
  | Some (VDict z) =>
      match get "datetime" z, get "day_of_week" z with
      | Some (VStr text), Some (VStr name) => Some (text, name)
      | _, _ => None
      end
  | _ => None
  end.

(** The round trip of section 8: convert from zone [A] to zone [B], feed
    the resulting wall-clock text back from [B] to [A], and find the
    original wall-clock fields. *)
Definition round_trip (tzdata : string -> zonedata + exn)
           (time_str A B : string) : Prop :=
  exists d1 d2 text name,
    convert_time tzdata time_str A B = ret d1
    /\ wall_clock "to" d1 = Some (text, name)
    /\ convert_time tzdata text B A = ret d2
    /\ wall_clock "from" d1 <> None
    /\ wall_clock "to" d2 = wall_clock "from" d1.

(* ================================================================= *)
(** ** Definitions for the further properties *)

(** The wall-clock times of the transitions of a zone increase: the local
    time at which one offset ends, under either of the two offsets around
    it, is not after the local time at which the next one starts.  The
    zones of the IANA database are of this kind (their transitions are
    months apart and their offsets differ by hours). *)
Fixpoint ordered_transitions (cur : Z) (trans : list (Z * Z)) : bool :=
  match trans with
  | [] => true
  | (t, off) :: rest =>
      match rest with
      | [] => true
      | (t', off') :: _ => t + Z.max cur off <=? t' + Z.min off off'
      end && ordered_transitions off rest
  end.

Definition ordered_zone (z : zonedata) : bool :=
  ordered_transitions (utcoff_before z) (transitions z).

Definition ordered_tzinfo (t : tzinfo) : bool :=
  match t with
  | ZoneInfoObj _ z => ordered_zone z
  | _ => true
  end.

(** A database all of whose zones have ordered transitions. *)
Definition ordered_tzdata (tzdata : string -> zonedata + exn) : Prop :=
  forall key z, tzdata key = inl z -> ordered_zone z = true.

(** The pattern of ["%Y-%m-%d"], with which the three formats start. *)
Definition date_pattern : list item :=
  [Directive DY; Literal "-"; Directive Dm; Literal "-"; Directive Dd].

(** What follows it in ["%Y-%m-%dT%H:%M:%S"] and in ["%Y-%m-%d %H:%M:%S"]. *)
Definition time_pattern (separator : item) : list item :=
  [separator; Directive DH; Literal ":"; Directive DM; Literal ":"; Directive DS].

(** The number of days that [days_in_month] reports for a month of a year
    (0 when the call reports none). *)
Definition reported_days (c : clock) (y m : Z) : Z :=
  match run c (days_in_month (Some y) (Some m)) with
  | Returned d =>
      match get "days_in_month" d with
      | Some (VInt n) => n
      | _ => 0
      end
  | Raised _ => 0
  end.

(* ================================================================= *)
(** ** Concrete data for the examples *)

(** America/New_York around 2024: standard time (UTC-5) until
    2024-03-10 07:00:00 UTC, daylight time (UTC-4) until
    2024-11-03 06:00:00 UTC, standard time after. *)
Definition America_New_York : zonedata :=
  mkzonedata (-18000) [(1710054000, -14400); (1730613600, -18000)].

Definition example_tzdata (key : string) : zonedata + exn :=
  if String.eqb key "America/New_York" then inl America_New_York
  else inr (mkexn ZoneInfoNotFoundError
                  ("'No time zone found with key " ++ key ++ "'")).

(** 2026-11-04 09:30:15.123456 local time, five hours behind UTC. *)
Definition example_clock : clock :=
  mkclock (mkdatetime 2026 11 4 9 30 15 123456) (-18000) "EST".

(** The same day one hour later. *)
Definition later_clock : clock :=
  mkclock (mkdatetime 2026 11 4 10 30 15 123456) (-18000) "EST".

(* ================================================================= *)
(** * Properties *)

Unset Implicit Arguments.

(** Linear arithmetic with division and remainder by constants. *)
Ltac divlia := Z.to_euclidean_division_equations; lia.

(** ** Text *)

Lemma append_assoc (a b c : string) : (a ++ b) ++ c = a ++ b ++ c.
Proof.
  induction a as [ | x a IH]; simpl; [ reflexivity | now rewrite IH ].
Qed.

Lemma append_nil_r (a : string) : a ++ "" = a.
Proof.
  induction a as [ | x a IH]; simpl; [ reflexivity | now rewrite IH ].
Qed.

(** ** What [strptime] returns *)

Lemma new_datetime_valid y m d hh mm ss us dt :
  new_datetime y m d hh mm ss us = Some dt ->
  dt = mkdatetime y m d hh mm ss us /\ valid_datetime dt = true.
Proof.
  unfold new_datetime.
  destruct (check_date_fields y m d && check_time_fields hh mm ss us) eqn:E;
    [ | discriminate ].
  intros [= <-]. split; [ reflexivity | exact E ].
Qed.

Lemma strptime_valid s fmt dt :
  strptime s fmt = Some dt -> valid_datetime dt = true /\ microsecond dt = 0.
Proof.
  unfold strptime.
  destruct (pattern false fmt) as [p | ]; [ | discriminate ].
  destruct (match_items p s no_groups) as [[g r] | ]; [ | discriminate ].
  destruct r; [ | discriminate ].
  intros H. apply new_datetime_valid in H. destruct H as [-> H].
  split; [ exact H | reflexivity ].
Qed.

Lemma parse_formats_valid s formats dt :
  parse_formats s formats = Some dt ->
  valid_datetime dt = true /\ microsecond dt = 0.
Proof.
  induction formats as [ | fmt rest IH]; simpl; [ discriminate | ].
  destruct (strptime s fmt) eqn:E.
  - intros [= <-]. eapply strptime_valid; eassumption.
  - exact IH.
Qed.

(** ** Floats *)

Lemma ONE_pos : 0 < ONE.
Proof. unfold ONE. apply Z.pow_pos_nonneg; lia. Qed.

Lemma ulp_pos q : 0 < ulp q.
Proof.
  unfold ulp. destruct (Z.ltb_spec q (2 ^ 53)) as [H | H]; [ lia | ].
  apply Z.pow_pos_nonneg; [ lia | ].
  assert (53 <= Z.log2 q)
    by (rewrite <- (Z.log2_pow2 53) by lia; apply Z.log2_le_mono; exact H).
  lia.
Qed.

(** A quotient that is a double is not changed by the rounding. *)
Lemma round_ratio_exact m b :
  0 < b -> representable m -> round_ratio (m * b) b = m.
Proof.
  intros Hb (c & Hc). unfold round_ratio.
  rewrite Z.abs_mul, (Z.abs_eq b) by lia.
  rewrite Z.div_mul by lia.
  pose proof (ulp_pos (Z.abs m)) as Hu.
  set (u := ulp (Z.abs m)) in *.
  assert (E : Z.abs m * b = Z.abs c * (b * u)).
  { rewrite Hc, Z.abs_mul, (Z.abs_eq u) by lia. ring. }
  rewrite E, Z.div_mul, Z.mod_mul by lia.
  destruct (Z.ltb_spec (2 * 0) (b * u)) as [_ | H]; [ | nia ].
  rewrite Z.sgn_mul, (Z.sgn_pos b) by lia.
  rewrite !Z.mul_1_r.
  replace (Z.abs c * u) with (Z.abs m)
    by (rewrite Hc, Z.abs_mul, (Z.abs_eq u) by lia; reflexivity).
  clear. destruct m; reflexivity.
Qed.

Lemma representable_int n : Z.abs n < 2 ^ 53 -> representable (n * ONE).
Proof.
  intros Hn. unfold representable, ulp.
  destruct (Z.ltb_spec (Z.abs (n * ONE)) (2 ^ 53)) as [_ | H];
    [ apply Z.divide_1_l | ].
  assert (Hn0 : 0 < Z.abs n).
  { destruct (Z.eq_dec n 0) as [-> | ]; [ | lia ].
    cbn in H. lia. }
  rewrite Z.abs_mul, (Z.abs_eq ONE) by (pose proof ONE_pos; lia).
  unfold ONE. rewrite Z.log2_mul_pow2 by lia.
  assert (HL : 0 <= Z.log2 (Z.abs n) < 53).
  { split; [ apply Z.log2_nonneg | ]. apply Z.log2_lt_pow2; lia. }
  exists (n * 2 ^ (52 - Z.log2 (Z.abs n))).
  rewrite <- Z.mul_assoc, <- Z.pow_add_r by lia.
  do 2 f_equal. lia.
Qed.

Lemma float_of_int_exact n : Z.abs n < 2 ^ 53 -> float_of_int n = n * ONE.
Proof.
  intros Hn. unfold float_of_int.
  rewrite <- (Z.mul_1_r (n * ONE)) at 1.
  apply round_ratio_exact; [ lia | apply representable_int; exact Hn ].
Qed.

(** The quotient of two [int]s that is a whole number below [2^53]. *)
Lemma int_truediv_exact n b :
  0 < b -> Z.abs n < 2 ^ 53 -> int_truediv (n * b) b = n * ONE.
Proof.
  intros Hb Hn. unfold int_truediv.
  replace (n * b * ONE) with (n * ONE * b) by ring.
  apply round_ratio_exact; [ exact Hb | apply representable_int; exact Hn ].
Qed.

Lemma round_ratio_zero b : round_ratio 0 b = 0.
Proof. reflexivity. Qed.

Lemma float_int_exact n : float_int (n * ONE) = n.
Proof. unfold float_int. apply Z.quot_mul. pose proof ONE_pos. lia. Qed.

(** On whole numbers below [2^53] the float operations are exact, so
    [x // k] and [x % k] are the quotient and the remainder. *)
Lemma float_divmod_int n k :
  0 <= n < 2 ^ 53 -> 0 < k < 2 ^ 53 ->
  float_divmod (n * ONE) (float_of_int k) = (n / k * ONE, n mod k * ONE).
Proof.
  intros Hn Hk. pose proof ONE_pos as H1.
  rewrite (float_of_int_exact k) by lia.
  unfold float_divmod, fmod.
  assert (Hmod : Z.rem (n * ONE) (k * ONE) = n mod k * ONE).
  { rewrite Z.rem_mod_nonneg by nia. apply Z.mul_mod_distr_r; lia. }
  rewrite Hmod.
  pose proof (Z.mod_pos_bound n k ltac:(lia)) as Hr.
  pose proof (Z.div_mod n k ltac:(lia)) as Hdm.
  assert (Hq : 0 <= n / k <= n).
  { split; [ apply Z.div_pos; lia | ].
    apply Z.div_le_upper_bound; [ lia | nia ]. }
  assert (Hsub : float_sub (n * ONE) (n mod k * ONE) = (n - n mod k) * ONE).
  { unfold float_sub.
    replace (n * ONE - n mod k * ONE) with ((n - n mod k) * ONE * 1) by ring.
    apply round_ratio_exact; [ lia | apply representable_int; lia ]. }
  rewrite Hsub.
  assert (Hdiv : float_div ((n - n mod k) * ONE) (k * ONE) = n / k * ONE).
  { unfold float_div.
    replace ((n - n mod k) * ONE * ONE) with (n / k * ONE * (k * ONE))
      by (replace (n - n mod k) with (k * (n / k)) by lia; ring).
    apply round_ratio_exact; [ nia | apply representable_int; lia ]. }
  rewrite Hdiv.
  assert (Hadj : negb (n mod k * ONE =? 0)
                 && xorb (k * ONE <? 0) (n mod k * ONE <? 0) = false).
  { destruct (Z.ltb_spec (k * ONE) 0); [ nia | ].
    destruct (Z.ltb_spec (n mod k * ONE) 0); [ nia | ].
    apply andb_false_r. }
  rewrite Hadj. f_equal.
  destruct (Z.eqb_spec (n / k * ONE) 0) as [E | E]; [ symmetry; exact E | ].
  unfold float_floor. rewrite Z.div_mul by lia.
  unfold float_sub. rewrite Z.sub_diag, round_ratio_zero.
  destruct (Z.ltb_spec ONE (2 * 0)); [ lia | reflexivity ].
Qed.

Lemma float_floordiv_int n k :
  0 <= n < 2 ^ 53 -> 0 < k < 2 ^ 53 -> float_floordiv (n * ONE) k = n / k.
Proof.
  intros Hn Hk. unfold float_floordiv.
  rewrite (float_divmod_int n k Hn Hk). apply float_int_exact.
Qed.

Lemma float_mod_int n k :
  0 <= n < 2 ^ 53 -> 0 < k < 2 ^ 53 -> float_mod (n * ONE) k = n mod k * ONE.
Proof.
  intros Hn Hk. unfold float_mod.
  rewrite (float_divmod_int n k Hn Hk). reflexivity.
Qed.

(** A quotient of magnitude below 0.999999 is rounded to a double below
    [1.0]. *)
Lemma int_truediv_small t :
  Z.abs t < 1000000 -> Z.abs (int_truediv t 1000000) < ONE.
Proof.
  intros Ht. unfold int_truediv, round_ratio.
  assert (Em : Z.abs (t * ONE) = Z.abs t * ONE)
    by (rewrite Z.abs_mul, (Z.abs_eq ONE) by (pose proof ONE_pos; lia); reflexivity).
  rewrite Em. change (Z.abs 1000000) with 1000000.
  set (m := Z.abs t * ONE).
  set (q := m / 1000000).
  pose proof (ulp_pos q) as Hu.
  assert (Hq : 0 <= q /\ 1000000 * q <= 999999 * ONE).
  { pose proof ONE_pos. subst q m. split; [ apply Z.div_pos; nia | ].
    pose proof (Z.mul_div_le (Z.abs t * ONE) 1000000 ltac:(lia)). nia. }
  assert (Hub : 1000000 * ulp q < ONE).
  { unfold ulp. destruct (Z.ltb_spec q (2 ^ 53)) as [_ | H53].
    - unfold ONE. change (2 ^ 1074) with (2 ^ 53 * 2 ^ 1021).
      pose proof (Z.pow_pos_nonneg 2 1021 ltac:(lia) ltac:(lia)). nia.
    - assert (HL : Z.log2 q < 1074).
      { apply Z.log2_lt_pow2; [ lia | ]. fold ONE. lia. }
      assert (HL53 : 53 <= Z.log2 q)
        by (rewrite <- (Z.log2_pow2 53) by lia; apply Z.log2_le_mono; exact H53).
      assert (Hle : 2 ^ (Z.log2 q - 52) <= 2 ^ 1021)
        by (apply Z.pow_le_mono_r; lia).
      unfold ONE. change (2 ^ 1074) with (2 ^ 53 * 2 ^ 1021).
      pose proof (Z.pow_pos_nonneg 2 1021 ltac:(lia) ltac:(lia)). nia. }
  set (u := ulp q) in *.
  set (d := 1000000 * u).
  assert (Hd : 0 < d) by (subst d; lia).
  pose proof (Z.div_mod m d ltac:(lia)) as Hdm.
  pose proof (Z.mod_pos_bound m d Hd) as Hr.
  assert (Hm : 0 <= m) by (subst m; pose proof ONE_pos; nia).
  assert (Hk : 0 <= m / d) by (apply Z.div_pos; lia).
  assert (Hku : 1000000 * (m / d * u) <= 999999 * ONE).
  { assert (m / d * d <= m) by (rewrite Z.mul_comm; apply Z.mul_div_le; lia).
    assert (m <= 999999 * ONE) by (subst m; pose proof ONE_pos; nia).
    subst d. nia. }
  set (k := m / d) in *.
  assert (Hk' : forall k', k <= k' <= k + 1 ->
                           Z.abs (Z.sgn (t * ONE) * Z.sgn 1000000 * (k' * u)) < ONE).
  { intros k' Hk'.
    rewrite !Z.abs_mul, (Z.abs_eq k'), (Z.abs_eq u) by lia.
    change (Z.abs (Z.sgn 1000000)) with 1.
    assert (Z.abs (Z.sgn (t * ONE)) <= 1) by (destruct (t * ONE); cbn; lia).
    assert (0 <= Z.abs (Z.sgn (t * ONE))) by apply Z.abs_nonneg.
    assert (k' * u <= k * u + u) by nia.
    assert (0 <= k' * u) by nia.
    nia. }
  destruct (2 * (m mod d) <? d); [ apply Hk'; lia | ].
  destruct (d <? 2 * (m mod d)); [ apply Hk'; lia | ].
  destruct (Z.even k); apply Hk'; lia.
Qed.

(** ** The delta of two parsed datetimes *)

Lemma wall_seconds_bound dt :
  valid_datetime dt = true -> 0 <= wall_seconds dt < 2 ^ 39.
Proof.
  unfold valid_datetime, check_date_fields, check_time_fields, MINYEAR, MAXYEAR.
  rewrite !andb_true_iff, !Z.leb_le.
  intros Hv.
  assert (Hbefore : 0 <= days_before_month (year dt) (month dt) <= 335
                    /\ Calendar.days_in_month (year dt) (month dt) <= 31).
  { unfold days_before_month, Calendar.days_in_month.
    assert (Hm : month dt = 1 \/ month dt = 2 \/ month dt = 3 \/ month dt = 4
                 \/ month dt = 5 \/ month dt = 6 \/ month dt = 7
                 \/ month dt = 8 \/ month dt = 9 \/ month dt = 10
                 \/ month dt = 11 \/ month dt = 12) by lia.
    destruct Hm as [-> | [-> | [-> | [-> | [-> | [-> | [-> | [-> | [-> | [-> | [-> | ->]]]]]]]]]]];
      destruct (is_leap (year dt)); vm_compute; repeat split; discriminate. }
  change (2 ^ 39) with 549755813888.
  unfold wall_seconds, toordinal, ymd2ord, days_before_year. divlia.
Qed.

Lemma datetime_sub_whole_seconds a b :
  microsecond a = 0 -> microsecond b = 0 ->
  datetime_sub a b
  = mktimedelta (delta_seconds a b / 86400) (delta_seconds a b mod 86400) 0.
Proof.
  intros Ha Hb. unfold datetime_sub, new_timedelta, delta_seconds, wall_seconds.
  rewrite Ha, Hb.
  set (D := toordinal a - toordinal b).
  set (S := second a + minute a * 60 + hour a * 3600
            - (second b + minute b * 60 + hour b * 3600)).
  replace (toordinal a * 86400 + hour a * 3600 + minute a * 60 + second a
           - (toordinal b * 86400 + hour b * 3600 + minute b * 60 + second b))
    with (D * 86400 + S) by (unfold D, S; ring).
  change (0 / 1000000) with 0. change ((0 - 0) mod 1000000) with 0.
  rewrite Z.add_0_r, Z_div_plus_full_l, Z.add_comm with (n := D * 86400), Z_mod_plus_full by lia.
  reflexivity.
Qed.

(** The delta of two valid datetimes is far below [2^53] seconds. *)
Lemma delta_seconds_bound a b :
  valid_datetime a = true -> valid_datetime b = true ->
  Z.abs (delta_seconds a b) < 2 ^ 53.
Proof.
  intros Ha Hb.
  pose proof (wall_seconds_bound a Ha). pose proof (wall_seconds_bound b Hb).
  change (2 ^ 39) with 549755813888 in *.
  change (2 ^ 53) with 9007199254740992.
  unfold delta_seconds. lia.
Qed.

(** A whole number of seconds below [2^53] is a double: the division of
    [total_seconds] is exact. *)
Lemma total_seconds_whole a b :
  microsecond a = 0 -> microsecond b = 0 ->
  Z.abs (delta_seconds a b) < 2 ^ 53 ->
  total_seconds (datetime_sub a b) = delta_seconds a b * ONE.
Proof.
  intros Ha Hb Hd. rewrite datetime_sub_whole_seconds by assumption.
  unfold total_seconds. cbn [days seconds microseconds].
  replace ((delta_seconds a b / 86400 * 86400 + delta_seconds a b mod 86400)
           * 1000000 + 0)
    with (delta_seconds a b * 1000000) by divlia.
  apply int_truediv_exact; [ lia | exact Hd ].
Qed.

Lemma float_components m :
  0 <= m < 2 ^ 53 ->
  float_floordiv (m * ONE) 86400 = m / 86400
  /\ float_floordiv (float_mod (m * ONE) 86400) 3600 = (m mod 86400) / 3600
  /\ float_floordiv (float_mod (m * ONE) 3600) 60 = (m mod 3600) / 60
  /\ float_int (float_mod (m * ONE) 60) = m mod 60.
Proof.
  intros Hm.
  assert (K : forall k, 0 < k <= 86400 -> 0 < k < 2 ^ 53)
    by (intros k Hk; change (2 ^ 53) with 9007199254740992; lia).
  assert (R : forall k, 0 < k <= 86400 -> 0 <= m mod k < 2 ^ 53).
  { intros k Hk. pose proof (Z.mod_pos_bound m k ltac:(lia)).
    change (2 ^ 53) with 9007199254740992. lia. }
  rewrite !float_mod_int by (try exact Hm; apply K; lia).
  rewrite !float_floordiv_int
    by (try exact Hm; try (apply K; lia); apply R; lia).
  rewrite float_int_exact.
  repeat split.
Qed.

(** ** The description and the phrase *)

Lemma describe_spec a :
  0 <= a ->
  describe (a / 86400) ((a mod 86400) / 3600) ((a mod 3600) / 60) (a mod 60)
  = let '(t, value) := spec_tier a in str value ++ " " ++ unit_name t value.
Proof.
  intros Ha. unfold describe, spec_tier, unit_name. cbv zeta.
  replace (0 <? a / 86400) with (1 <=? a / 86400)
    by (destruct (Z.leb_spec 1 (a / 86400)), (Z.ltb_spec 0 (a / 86400));
        (reflexivity || lia)).
  repeat match goal with
         | |- context [if ?b then _ else _] => destruct b
         end; reflexivity.
Qed.

(** The result mapping of two parsed datetimes, with the phrase of the
    specification and the whole-day count of the normalised delta. *)
Lemma relative_result_parsed date_str reference target ref :
  valid_datetime target = true -> valid_datetime ref = true ->
  microsecond target = 0 -> microsecond ref = 0 ->
  relative_result date_str reference target ref
  = [ ("target", VStr date_str);
      ("target_day_of_week", VStr (strftime_A target));
      ("reference", VStr (match reference with
                          | Some r => if String.eqb r "" then "now" else r
                          | None => "now"
                          end));
      ("relative", VStr (spec_phrase (delta_seconds target ref)));
      ("days_difference", VInt (delta_seconds target ref / 86400));
      ("total_seconds", VInt (delta_seconds target ref)) ].
Proof.
  intros Hvt Hvr Ht Hr. unfold relative_result. cbv zeta.
  pose proof (delta_seconds_bound target ref Hvt Hvr) as Hbound.
  rewrite total_seconds_whole, datetime_sub_whole_seconds by assumption.
  cbn [days].
  set (delta := delta_seconds target ref) in *.
  pose proof ONE_pos as H1.
  rewrite Z.abs_mul, (Z.abs_eq ONE) by lia.
  destruct (float_components (Z.abs delta)
              (conj (Z.abs_nonneg delta) Hbound))
    as (-> & -> & -> & ->).
  rewrite describe_spec by apply Z.abs_nonneg.
  rewrite float_int_exact.
  replace (Z.abs delta * ONE <? ONE) with (Z.abs delta <? 1)
    by (destruct (Z.ltb_spec (Z.abs delta) 1),
                 (Z.ltb_spec (Z.abs delta * ONE) ONE);
        (reflexivity || nia)).
  replace (0 <? delta * ONE) with (0 <? delta)
    by (destruct (Z.ltb_spec 0 delta), (Z.ltb_spec 0 (delta * ONE));
        (reflexivity || nia)).
  unfold spec_phrase.
  destruct (spec_tier (Z.abs delta)) as [t value].
  destruct (Z.abs delta <? 1), (0 <? delta);
    rewrite ?append_assoc; reflexivity.
Qed.

Lemma truthy_nonempty r : r <> "" -> truthy (Some r) = true.
Proof.
  intros H. unfold truthy. destruct (String.eqb_spec r ""); [ contradiction | reflexivity ].
Qed.

Lemma relative_time_parsed date_str reference target ref :
  parse_formats date_str relative_time_formats = Some target ->
  reference <> "" ->
  parse_formats reference relative_time_formats = Some ref ->
  relative_time date_str (Some reference)
  = ret [ ("target", VStr date_str);
          ("target_day_of_week", VStr (strftime_A target));
          ("reference", VStr reference);
          ("relative", VStr (spec_phrase (delta_seconds target ref)));
          ("days_difference", VInt (delta_seconds target ref / 86400));
          ("total_seconds", VInt (delta_seconds target ref)) ].
Proof.
  intros Ht Hne Hr. unfold relative_time.
  rewrite Ht, (truthy_nonempty _ Hne), Hr.
  destruct (parse_formats_valid _ _ _ Ht) as (Vt & Ut).
  destruct (parse_formats_valid _ _ _ Hr) as (Vr & Ur).
  rewrite (relative_result_parsed _ _ _ _ Vt Vr Ut Ur).
  destruct (String.eqb_spec reference ""); [ contradiction | reflexivity ].
Qed.

(** With a non-empty reference the body of [relative_time] is a plain
    return: no branch reaches [datetime.now()]. *)
Lemma relative_time_returns date_str reference :
  reference <> "" -> exists d, relative_time date_str (Some reference) = ret d.
Proof.
  intros Hne. unfold relative_time.
  rewrite (truthy_nonempty _ Hne).
  destruct (parse_formats date_str relative_time_formats); [ | eauto ].
  destruct (parse_formats reference relative_time_formats); eauto.
Qed.

(** A text that the loop parses is not empty. *)
Lemma parsed_nonempty s dt :
  parse_formats s relative_time_formats = Some dt -> s <> "".
Proof.
  intros H ->. vm_compute in H. discriminate H.
Qed.

(** ** [relative_time]: the whole-day count *)

(** C1, as amended.  For every parseable target and reference,
    [days_difference] is the [days] field of the normalised delta, the
    floor of the signed delta over 86400, whatever tier the phrase uses:
    it is -1 for every delta strictly between -86400 and 0 seconds, and it
    is the truncated count for every delta that is non-negative or a whole
    number of days. *)
Theorem days_difference_is_floor :
  forall date_str reference target ref,
    parse_formats date_str relative_time_formats = Some target ->
    parse_formats reference relative_time_formats = Some ref ->
    exists d,
      relative_time date_str (Some reference) = ret d
      /\ get "days_difference" d = Some (VInt (delta_seconds target ref / 86400))
      /\ (-86400 < delta_seconds target ref < 0 ->
          get "days_difference" d = Some (VInt (-1)))
      /\ (0 <= delta_seconds target ref \/ delta_seconds target ref mod 86400 = 0 ->
          get "days_difference" d
          = Some (VInt (truncated_days (delta_seconds target ref)))).
Proof.
  intros date_str reference target ref Ht Hr.
  pose proof (parsed_nonempty _ _ Hr) as Hne.
  eexists. split; [ apply relative_time_parsed; eassumption | ].
  cbn [get String.eqb Ascii.eqb Bool.eqb].
  set (delta := delta_seconds target ref).
  split; [ reflexivity | split ].
  - intros H. do 2 f_equal. divlia.
  - intros H. do 2 f_equal. unfold truncated_days.
    Z.to_euclidean_division_equations. lia.
Qed.

Lemma days_difference_is_floor_witness :
  exists d,
    relative_time "2024-01-01T00:00:00" (Some "2024-01-01T06:00:00") = ret d
    /\ get "days_difference" d = Some (VInt (-1)).
Proof.
  destruct (days_difference_is_floor
              "2024-01-01T00:00:00" "2024-01-01T06:00:00"
              (mkdatetime 2024 1 1 0 0 0 0) (mkdatetime 2024 1 1 6 0 0 0))
    as (d & Hd & _ & Hneg & _).
  - reflexivity.
  - reflexivity.
  - exists d. split; [ exact Hd | ]. apply Hneg. vm_compute. split; reflexivity.
Defined.

(** C1, as worded, fails one second before the reference: the delta is
    -1 second, its truncation is 0 days, and the field holds -1. *)
Lemma days_difference_truncates_counterexample :
  ~ days_difference_truncates "2024-01-01T00:00:00" "2024-01-01T00:00:01".
Proof.
  intros H.
  destruct (H (mkdatetime 2024 1 1 0 0 0 0) (mkdatetime 2024 1 1 0 0 1 0)
              eq_refl eq_refl) as (d & Hd & Hget).
  vm_compute in Hd. injection Hd as <-.
  vm_compute in Hget. discriminate Hget.
Qed.

(** ** [relative_time]: the tier and the phrase *)

(** The thresholds of the tier table, read off [spec_tier]. *)
Lemma spec_tier_table m t value :
  spec_tier m = (t, value) ->
  let whole_days := m / 86400 in
  let hour_part := (m mod 86400) / 3600 in
  let minute_part := (m mod 3600) / 60 in
  (365 <= whole_days -> t = Years /\ value = whole_days / 365)
  /\ (30 <= whole_days < 365 -> t = Months /\ value = whole_days / 30)
  /\ (7 <= whole_days < 30 -> t = Weeks /\ value = whole_days / 7)
  /\ (1 <= whole_days < 7 -> t = Days /\ value = whole_days)
  /\ (whole_days < 1 -> 0 < hour_part -> t = Hours /\ value = hour_part)
  /\ (whole_days < 1 -> hour_part <= 0 -> 0 < minute_part ->
      t = Minutes /\ value = minute_part)
  /\ (whole_days < 1 -> hour_part <= 0 -> minute_part <= 0 ->
      t = Seconds /\ value = m mod 60).
Proof.
  unfold spec_tier. cbv zeta.
  destruct (Z.leb_spec 365 (m / 86400));
    [ intros [= <- <-]; repeat split; lia | ].
  destruct (Z.leb_spec 30 (m / 86400));
    [ intros [= <- <-]; repeat split; lia | ].
  destruct (Z.leb_spec 7 (m / 86400));
    [ intros [= <- <-]; repeat split; lia | ].
  destruct (Z.leb_spec 1 (m / 86400));
    [ intros [= <- <-]; repeat split; lia | ].
  destruct (Z.ltb_spec 0 ((m mod 86400) / 3600));
    [ intros [= <- <-]; repeat split; lia | ].
  destruct (Z.ltb_spec 0 ((m mod 3600) / 60));
    intros [= <- <-]; repeat split; lia.
Qed.

(** C2.  For every parseable target and reference the phrase names one
    tier and one value, chosen from the whole days of the absolute delta,
    largest first: 365 days or more give years (days/365), 30 or more
    months (days/30), 7 or more weeks (days/7), 1 or more days; below one
    day the hours if positive, else the minutes if positive, else the
    seconds.  Exactly 7 days read "1 week", 6 days 23:59:59 read "6 days". *)
Theorem relative_time_single_tier :
  forall date_str reference target ref,
    parse_formats date_str relative_time_formats = Some target ->
    parse_formats reference relative_time_formats = Some ref ->
    let delta := delta_seconds target ref in
    let magnitude := Z.abs delta in
    let whole_days := magnitude / 86400 in
    let hour_part := (magnitude mod 86400) / 3600 in
    let minute_part := (magnitude mod 3600) / 60 in
    exists d t value,
      relative_time date_str (Some reference) = ret d
      /\ get "relative" d
         = Some (VStr (if magnitude <? 1 then "now"
                       else if 0 <? delta
                            then "in " ++ str value ++ " " ++ unit_name t value
                            else str value ++ " " ++ unit_name t value ++ " ago"))
      /\ (365 <= whole_days -> t = Years /\ value = whole_days / 365)
      /\ (30 <= whole_days < 365 -> t = Months /\ value = whole_days / 30)
      /\ (7 <= whole_days < 30 -> t = Weeks /\ value = whole_days / 7)
      /\ (1 <= whole_days < 7 -> t = Days /\ value = whole_days)
      /\ (whole_days < 1 -> 0 < hour_part -> t = Hours /\ value = hour_part)
      /\ (whole_days < 1 -> hour_part <= 0 -> 0 < minute_part ->
          t = Minutes /\ value = minute_part)
      /\ (whole_days < 1 -> hour_part <= 0 -> minute_part <= 0 ->
          t = Seconds /\ value = magnitude mod 60)
      /\ (magnitude = 7 * 86400 ->
          str value ++ " " ++ unit_name t value = "1 week")
      /\ (magnitude = 6 * 86400 + 23 * 3600 + 59 * 60 + 59 ->
          str value ++ " " ++ unit_name t value = "6 days").
Proof.
  intros date_str reference target ref Ht Hr delta magnitude
         whole_days hour_part minute_part.
  pose proof (parsed_nonempty _ _ Hr) as Hne.
  destruct (spec_tier magnitude) as [t value] eqn:E.
  exists [ ("target", VStr date_str);
           ("target_day_of_week", VStr (strftime_A target));
           ("reference", VStr reference);
           ("relative", VStr (spec_phrase delta));
           ("days_difference", VInt (delta / 86400));
           ("total_seconds", VInt delta) ], t, value.
  split; [ apply relative_time_parsed; assumption | ].
  split.
  { cbn [get String.eqb Ascii.eqb Bool.eqb]. unfold spec_phrase.
    fold magnitude. rewrite E. reflexivity. }
  pose proof (spec_tier_table magnitude t value E) as T. cbv zeta in T.
  fold whole_days hour_part minute_part in T.
  destruct T as (T1 & T2 & T3 & T4 & T5 & T6 & T7).
  repeat (split; [ assumption | ]).
  split; intros Hm; rewrite Hm in E; vm_compute in E;
    injection E as <- <-; reflexivity.
Qed.

Lemma relative_time_single_tier_witness :
  exists d,
    relative_time "2024-01-08" (Some "2024-01-01") = ret d
    /\ get "relative" d = Some (VStr "in 1 week").
Proof.
  destruct (relative_time_single_tier
              "2024-01-08" "2024-01-01"
              (mkdatetime 2024 1 8 0 0 0 0) (mkdatetime 2024 1 1 0 0 0 0))
    as (d & t & value & Hd & Hrel & _ & _ & Hweek & _).
  - reflexivity.
  - reflexivity.
  - exists d. split; [ exact Hd | ].
    destruct Hweek as [-> ->];
      [ vm_compute; split; [ discriminate | reflexivity ] | ].
    exact Hrel.
Defined.

(** C3.  For every parseable target and reference the phrase is "now"
    when the absolute delta is below one second; otherwise it is
    "in {value} {unit}" for a positive delta and "{value} {unit} ago" for
    a negative one, where the unit is the singular name of the tier when
    the value is 1 and its plural for every other value. *)
Theorem relative_time_phrase :
  forall date_str reference target ref,
    parse_formats date_str relative_time_formats = Some target ->
    parse_formats reference relative_time_formats = Some ref ->
    let delta := delta_seconds target ref in
    exists d phrase t value,
      relative_time date_str (Some reference) = ret d
      /\ get "relative" d = Some (VStr phrase)
      /\ spec_tier (Z.abs delta) = (t, value)
      /\ (Z.abs delta < 1 -> phrase = "now")
      /\ (0 < delta -> 1 <= Z.abs delta -> value = 1 ->
          phrase = "in " ++ str value ++ " " ++ singular t)
      /\ (0 < delta -> 1 <= Z.abs delta -> value <> 1 ->
          phrase = "in " ++ str value ++ " " ++ plural t)
      /\ (delta <= 0 -> 1 <= Z.abs delta -> value = 1 ->
          phrase = str value ++ " " ++ singular t ++ " ago")
      /\ (delta <= 0 -> 1 <= Z.abs delta -> value <> 1 ->
          phrase = str value ++ " " ++ plural t ++ " ago").
Proof.
  intros date_str reference target ref Ht Hr delta.
  pose proof (parsed_nonempty _ _ Hr) as Hne.
  destruct (spec_tier (Z.abs delta)) as [t value] eqn:E.
  exists [ ("target", VStr date_str);
           ("target_day_of_week", VStr (strftime_A target));
           ("reference", VStr reference);
           ("relative", VStr (spec_phrase delta));
           ("days_difference", VInt (delta / 86400));
           ("total_seconds", VInt delta) ], (spec_phrase delta), t, value.
  split; [ apply relative_time_parsed; assumption | ].
  split; [ reflexivity | ].
  split; [ reflexivity | ].
  unfold spec_phrase, unit_name. rewrite E.
  destruct (Z.ltb_spec (Z.abs delta) 1), (Z.ltb_spec 0 delta),
           (Z.eqb_spec value 1);
    repeat split; intros; (reflexivity || lia).
Qed.

Lemma relative_time_phrase_witness :
  exists d,
    relative_time "2024-01-01T00:00:00" (Some "2024-01-01T00:00:01") = ret d
    /\ get "relative" d = Some (VStr "1 second ago").
Proof.
  destruct (relative_time_phrase
              "2024-01-01T00:00:00" "2024-01-01T00:00:01"
              (mkdatetime 2024 1 1 0 0 0 0) (mkdatetime 2024 1 1 0 0 1 0))
    as (d & phrase & t & value & Hd & Hrel & Htier & _ & _ & _ & Hago & _).
  - reflexivity.
  - reflexivity.
  - exists d. split; [ exact Hd | ].
    vm_compute in Htier. injection Htier as <- <-.
    rewrite Hrel, Hago; [ reflexivity | vm_compute; discriminate
                          | vm_compute; discriminate | reflexivity ].
Defined.

(** ** [relative_time]: the clock *)

(** C10.  With a non-empty reference, [relative_time] never reads the
    clock: running it at any two clock readings gives the same outcome. *)
Theorem relative_time_ignores_clock :
  forall date_str reference c1 c2,
    reference <> "" ->
    run c1 (relative_time date_str (Some reference))
    = run c2 (relative_time date_str (Some reference))
    /\ clock_reads c1 (relative_time date_str (Some reference)) = 0%nat.
Proof.
  intros date_str reference c1 c2 Hne.
  destruct (relative_time_returns date_str reference Hne) as [d ->].
  split; reflexivity.
Qed.

Lemma relative_time_ignores_clock_witness :
  run example_clock (relative_time "2026-11-04" (Some "2026-11-01"))
  = run later_clock (relative_time "2026-11-04" (Some "2026-11-01")).
Proof.
  apply (relative_time_ignores_clock "2026-11-04" "2026-11-01"
                                     example_clock later_clock).
  discriminate.
Defined.

(** Without a reference the clock is read once, and the outcome follows
    it. *)
Example relative_time_default_reads_clock :
  clock_reads example_clock (relative_time "2026-11-04T09:30:15" None) = 1%nat
  /\ run example_clock (relative_time "2026-11-04T09:30:15" None)
     <> run later_clock (relative_time "2026-11-04T09:30:15" None).
Proof.
  split; [ reflexivity | vm_compute; discriminate ].
Qed.

(** ** [days_in_month] *)

Lemma gregorian_leap_is_leap y : gregorian_leap y = is_leap y.
Proof.
  unfold gregorian_leap, is_leap.
  destruct (Z.eqb_spec (y mod 400) 0), (Z.eqb_spec (y mod 100) 0),
           (Z.eqb_spec (y mod 4) 0); simpl; (reflexivity || divlia).
Qed.

Lemma is_leap_rule y :
  is_leap y = true <-> y mod 4 = 0 /\ (y mod 100 <> 0 \/ y mod 400 = 0).
Proof.
  unfold is_leap.
  destruct (Z.eqb_spec (y mod 400) 0), (Z.eqb_spec (y mod 100) 0),
           (Z.eqb_spec (y mod 4) 0); simpl; intuition (discriminate || lia).
Qed.

Lemma month_cases m :
  1 <= m <= 12 ->
  m = 1 \/ m = 2 \/ m = 3 \/ m = 4 \/ m = 5 \/ m = 6 \/ m = 7 \/ m = 8
  \/ m = 9 \/ m = 10 \/ m = 11 \/ m = 12.
Proof. lia. Qed.

Ltac each_month m H :=
  destruct (month_cases m H)
    as [-> | [-> | [-> | [-> | [-> | [-> | [-> | [-> | [-> | [-> | [-> | ->]]]]]]]]]]].

(** The count of [monthrange] is [_days_in_month] and the table. *)
Lemma monthrange_days y m :
  1 <= m <= 12 ->
  snd (monthrange y m) = Calendar.days_in_month y m
  /\ snd (monthrange y m) = gregorian_days y m
  /\ 28 <= snd (monthrange y m) <= 31.
Proof.
  intros H. unfold monthrange, Calendar.days_in_month, gregorian_days.
  rewrite gregorian_leap_is_leap. cbn [snd].
  each_month m H; destruct (is_leap y); vm_compute;
    repeat split; (reflexivity || discriminate).
Qed.

(** What a call of [days_in_month] does, step by step. *)
Lemma days_in_month_run c y m :
  run c (days_in_month y m)
  = let year := int_or y (year (now_local c)) in
    let month := int_or m (month (now_local c)) in
    if negb ((1 <=? month) && (month <=? 12)) then
      Returned (error_mapping ("Invalid month: " ++ str month ++ ". Must be 1-12."))
    else
      match new_datetime year month 1 0 0 0 0,
            new_datetime year month (snd (monthrange year month)) 0 0 0 0 with
      | Some first_day, Some last_day =>
          Returned
            [ ("year", VInt year);
              ("month", VInt month);
              ("month_name", VStr (strftime_B first_day));
              ("days_in_month", VInt (snd (monthrange year month)));
              ("first_day", VDict [ ("date", VStr (strftime_date first_day));
                                    ("day_of_week", VStr (strftime_A first_day)) ]);
              ("last_day", VDict [ ("date", VStr (strftime_date last_day));
                                   ("day_of_week", VStr (strftime_A last_day)) ]);
              ("is_leap_year", VBool (is_leap year)) ]
      | _, _ => Raised (year_error year)
      end.
Proof.
  unfold days_in_month, datetime_now. cbn [bind run].
  destruct (now_local c) as [ny nm nd nh nmi ns nus]. cbn [year month].
  cbv zeta.
  destruct (negb _); [ reflexivity | ].
  destruct (monthrange (int_or y ny) (int_or m nm)) as [w n]. cbn [snd].
  destruct (new_datetime (int_or y ny) (int_or m nm) 1 0 0 0 0); [ | reflexivity ].
  cbn [or_raise bind].
  destruct (new_datetime (int_or y ny) (int_or m nm) n 0 0 0 0); reflexivity.
Qed.

Lemma new_datetime_in_range y m d :
  1 <= y <= 9999 -> 1 <= m <= 12 -> 1 <= d <= Calendar.days_in_month y m ->
  new_datetime y m d 0 0 0 0 = Some (mkdatetime y m d 0 0 0 0).
Proof.
  intros Hy Hm Hd. unfold new_datetime, check_date_fields, MINYEAR, MAXYEAR.
  repeat match goal with
         | |- context [?a <=? ?b] =>
             destruct (Z.leb_spec a b); [ | lia ]
         end.
  reflexivity.
Qed.

Lemma new_datetime_year_out_of_range y m d hh mm ss us :
  y < 1 \/ 9999 < y -> new_datetime y m d hh mm ss us = None.
Proof.
  intros Hy. unfold new_datetime, check_date_fields, MINYEAR, MAXYEAR.
  destruct (Z.leb_spec 1 y), (Z.leb_spec y 9999); (reflexivity || lia).
Qed.

(** C5, as amended.  For every year from 1 to 9999 and every month from 1
    to 12, [days_in_month] returns the Gregorian number of days of the
    month; the flag [is_leap_year] is true iff the year is divisible by 4
    and either not by 100 or by 400, and February has 29 days exactly when
    the flag is true. *)
Theorem days_in_month_gregorian :
  forall c y m,
    1 <= y <= 9999 -> 1 <= m <= 12 -> days_in_month_reports c y m.
Proof.
  intros c y m Hy Hm. unfold days_in_month_reports.
  rewrite days_in_month_run. cbv zeta. unfold int_or.
  destruct (Z.eqb_spec y 0); [ lia | ].
  destruct (Z.eqb_spec m 0); [ lia | ].
  destruct (Z.leb_spec 1 m); [ | lia ].
  destruct (Z.leb_spec m 12); [ | lia ].
  cbn [negb andb].
  destruct (monthrange_days y m Hm) as (Hdim & Hgreg & Hrange).
  rewrite !new_datetime_in_range by (rewrite <- ?Hdim; lia).
  eexists. exists (is_leap y).
  split; [ reflexivity | ].
  cbn [get String.eqb Ascii.eqb Bool.eqb].
  split; [ now rewrite Hgreg | ].
  split; [ reflexivity | ].
  split; [ apply is_leap_rule | ].
  intros ->. unfold gregorian_days. rewrite gregorian_leap_is_leap.
  destruct (is_leap y); split; (reflexivity || discriminate).
Qed.

Lemma days_in_month_gregorian_witness :
  days_in_month_reports example_clock 2024 2.
Proof.
  apply (days_in_month_gregorian example_clock 2024 2); lia.
Defined.

(** C5, as worded for every year, fails at year 10000: the constructor
    [datetime(10000, 1, 1)] raises and nothing is reported. *)
Lemma days_in_month_reports_counterexample :
  ~ days_in_month_reports example_clock 10000 1.
Proof.
  intros (d & leap & H & _). vm_compute in H. discriminate H.
Qed.

(** C4 at month 0: [month or now.month] takes 0 for a missing argument,
    so the call describes the month of the clock (here November 2025's
    30 days) and the mapping has no ["error"] key. *)
Theorem days_in_month_month_zero :
  exists d,
    run example_clock (days_in_month (Some 2025) (Some 0)) = Returned d
    /\ has_key "error" d = false
    /\ get "month" d = Some (VInt 11)
    /\ get "days_in_month" d = Some (VInt 30).
Proof.
  eexists. split; [ vm_compute; reflexivity | ].
  repeat split; reflexivity.
Qed.

(** Every month below 0 or above 12 is a reported failure. *)
Lemma days_in_month_invalid_month c y m :
  m < 0 \/ 12 < m ->
  run c (days_in_month y (Some m))
  = Returned (error_mapping ("Invalid month: " ++ str m ++ ". Must be 1-12.")).
Proof.
  intros H. rewrite days_in_month_run. cbv zeta. unfold int_or.
  destruct (Z.eqb_spec m 0); [ lia | ].
  destruct (Z.leb_spec 1 m), (Z.leb_spec m 12); (reflexivity || lia).
Qed.

(** ** Valid dates *)

Lemma check_date_fields_spec y m d :
  check_date_fields y m d = true <->
  1 <= y <= 9999 /\ 1 <= m <= 12 /\ 1 <= d <= Calendar.days_in_month y m.
Proof.
  unfold check_date_fields, MINYEAR, MAXYEAR.
  rewrite !andb_true_iff, !Z.leb_le. lia.
Qed.

Lemma check_time_fields_spec hh mm ss us :
  check_time_fields hh mm ss us = true <->
  0 <= hh <= 23 /\ 0 <= mm <= 59 /\ 0 <= ss <= 59 /\ 0 <= us <= 999999.
Proof.
  unfold check_time_fields. rewrite !andb_true_iff, !Z.leb_le. lia.
Qed.

Lemma valid_datetime_spec dt :
  valid_datetime dt = true <->
  (1 <= year dt <= 9999 /\ 1 <= month dt <= 12
   /\ 1 <= day dt <= Calendar.days_in_month (year dt) (month dt))
  /\ (0 <= hour dt <= 23 /\ 0 <= minute dt <= 59 /\ 0 <= second dt <= 59
      /\ 0 <= microsecond dt <= 999999).
Proof.
  unfold valid_datetime.
  rewrite andb_true_iff, check_date_fields_spec, check_time_fields_spec.
  reflexivity.
Qed.

(** Evaluate the table look-ups and comparisons on literals. *)
Ltac eval_tables :=
  repeat match goal with
         | |- context [index ?l ?k] =>
             let v := eval vm_compute in (index l k) in
             change (index l k) with v
         | H : context [index ?l ?k] |- _ =>
             let v := eval vm_compute in (index l k) in
             change (index l k) with v in H
         end;
  cbn [Z.eqb Z.ltb Z.leb Z.compare Pos.eqb Pos.compare Pos.compare_cont
       andb orb negb] in *.

(** Within a year the day of the year runs from 1 to 365 or 366. *)
Lemma day_of_year_range y m d :
  1 <= m <= 12 -> 1 <= d <= Calendar.days_in_month y m ->
  1 <= days_before_month y m + d <= 365 + (if is_leap y then 1 else 0).
Proof.
  intros Hm. unfold Calendar.days_in_month, days_before_month.
  each_month m Hm; destruct (is_leap y); eval_tables; lia.
Qed.

(** ** The groups a pattern leaves alone *)

Lemma first_success_some {A B : Type} (f : A -> option B) l b :
  first_success f l = Some b -> exists a, In a l /\ f a = Some b.
Proof.
  induction l as [ | a l IH]; simpl; [ discriminate | ].
  destruct (f a) eqn:E.
  - intros [= <-]. exists a. auto.
  - intros H. destruct (IH H) as (a' & Hin & Ha'). exists a'. auto.
Qed.

Lemma match_items_date_only p :
  forallb date_only_item p = true ->
  forall s g g' r,
    match_items p s g = Some (g', r) ->
    gH g' = gH g /\ gM g' = gM g /\ gS g' = gS g.
Proof.
  induction p as [ | i p IH]; intros Hp s g g' r; simpl.
  - intros [= <- <-]. auto.
  - simpl in Hp. apply andb_true_iff in Hp. destruct Hp as [Hi Hp].
    destruct i as [d | c | ].
    + intros H. apply first_success_some in H. destruct H as (alt & _ & H).
      destruct (match_alt alt s) as [[t r'] | ]; [ | discriminate ].
      apply (IH Hp) in H. destruct d; try discriminate; exact H.
    + destruct s as [ | x s']; [ discriminate | ].
      destruct (Ascii.eqb (lower c) (lower x)); [ | discriminate ].
      apply (IH Hp).
    + intros H. apply first_success_some in H. destruct H as (r' & _ & H).
      exact (IH Hp _ _ _ _ H).
Qed.

Lemma strptime_date_only s dt :
  strptime s "%Y-%m-%d" = Some dt ->
  hour dt = 0 /\ minute dt = 0 /\ second dt = 0.
Proof.
  unfold strptime.
  change (pattern false "%Y-%m-%d")
    with (Some [Directive DY; Literal "-"; Directive Dm; Literal "-"; Directive Dd]).
  cbv iota beta.
  destruct (match_items _ s no_groups) as [[g r] | ] eqn:E; [ | discriminate ].
  destruct r; [ | discriminate ].
  intros H. apply new_datetime_valid in H. destruct H as [-> _].
  apply match_items_date_only in E; [ exact E | reflexivity ].
Qed.

Lemma strptime_empty fmt : fmt = "%Y-%m-%d" -> strptime "" fmt = None.
Proof. intros ->. reflexivity. Qed.

(** ** [get_week_year] *)

Lemma isoweekday_weekday dt :
  isoweekday dt - 1 = weekday dt /\ 1 <= isoweekday dt <= 7.
Proof.
  unfold isoweekday, weekday. cbv zeta.
  destruct (Z.eqb_spec (toordinal dt mod 7) 0); divlia.
Qed.

(** C9.  For every date text that [strptime] accepts for ["%Y-%m-%d"],
    [get_week_year] returns: [week_number] = ((day of year - 1) / 7) + 1;
    [day_of_week_number] from 1 for Monday to 7 for Sunday, in step with
    the weekday name and with the days elapsed since Monday 2024-01-01;
    [is_weekend] true iff that number is at least 6; [quarter] =
    ((month - 1) / 3) + 1; [days_remaining_in_year] = the whole days from
    the date to December 31 of its year. *)
Theorem get_week_year_fields :
  forall date_str dt,
    strptime date_str "%Y-%m-%d" = Some dt ->
    let ordinal := ymd2ord (year dt) (month dt) (day dt) in
    let day_of_year := ordinal - ymd2ord (year dt) 1 1 + 1 in
    exists d n,
      get_week_year (Some date_str) = ret d
      /\ get "day_of_year" d = Some (VInt day_of_year)
      /\ get "week_number" d = Some (VInt ((day_of_year - 1) / 7 + 1))
      /\ get "day_of_week_number" d = Some (VInt n)
      /\ 1 <= n <= 7
      /\ n = (ordinal - ymd2ord 2024 1 1) mod 7 + 1
      /\ get "day_of_week" d = Some (VStr (nth (Z.to_nat (n - 1)) DAY_NAMES ""))
      /\ get "is_weekend" d = Some (VBool (6 <=? n))
      /\ get "quarter" d = Some (VInt ((month dt - 1) / 3 + 1))
      /\ get "days_remaining_in_year" d
         = Some (VInt (ymd2ord (year dt) 12 31 - ordinal))
      /\ 0 <= ymd2ord (year dt) 12 31 - ordinal.
Proof.
  intros date_str dt Hp ordinal day_of_year.
  assert (Hne : date_str <> "").
  { intros ->. rewrite strptime_empty in Hp by reflexivity. discriminate. }
  destruct (strptime_valid _ _ _ Hp) as [Hv Hus].
  destruct (strptime_date_only _ _ Hp) as (Hh & Hmi & Hs).
  apply valid_datetime_spec in Hv. destruct Hv as [(Hy & Hm & Hd) _].
  assert (Hdoy : tm_yday dt = day_of_year).
  { unfold tm_yday, day_of_year, ordinal, ymd2ord, days_before_month.
    eval_tables. lia. }
  assert (Hrem : days (datetime_sub (mkdatetime (year dt) 12 31 0 0 0 0) dt)
                 = ymd2ord (year dt) 12 31 - ordinal).
  { rewrite datetime_sub_whole_seconds by (reflexivity || assumption).
    cbn [days]. unfold delta_seconds, wall_seconds, toordinal.
    cbn [year month day hour minute second]. rewrite Hh, Hmi, Hs.
    fold ordinal. divlia. }
  exists (week_year_result dt), (isoweekday dt).
  split.
  { unfold get_week_year. rewrite (truthy_nonempty _ Hne), Hp. reflexivity. }
  unfold week_year_result.
  cbn [get String.eqb Ascii.eqb Bool.eqb].
  rewrite Hdoy, Hrem.
  destruct (isoweekday_weekday dt) as [Hw Hrange].
  repeat split; try reflexivity; try lia.
  - change (ymd2ord 2024 1 1) with 738886.
    unfold isoweekday. cbv zeta. fold ordinal.
    change (toordinal dt) with ordinal.
    destruct (Z.eqb_spec (ordinal mod 7) 0); divlia.
  - rewrite Hw. reflexivity.
  - pose proof (day_of_year_range (year dt) (month dt) (day dt) Hm Hd) as R.
    unfold ordinal, ymd2ord, days_before_month at 1.
    eval_tables. lia.
Qed.

Lemma get_week_year_fields_witness :
  exists d,
    get_week_year (Some "2024-12-30") = ret d
    /\ get "week_number" d = Some (VInt 53)
    /\ get "days_remaining_in_year" d = Some (VInt 1).
Proof.
  destruct (get_week_year_fields "2024-12-30" (mkdatetime 2024 12 30 0 0 0 0))
    as (d & n & Hd & _ & Hweek & _ & _ & _ & _ & _ & _ & Hrem & _).
  - reflexivity.
  - exists d. split; [ exact Hd | ]. split; [ exact Hweek | exact Hrem ].
Defined.

(** The simple week number and the ISO week are different numbers: on
    2024-12-30 the first is 53, the second is week 1 of ISO year 2025. *)
Example week_number_is_not_iso_week :
  run example_clock (get_week_year (Some "2024-12-30"))
  = Returned [ ("date", VStr "2024-12-30");
               ("day_of_week", VStr "Monday");
               ("day_of_week_number", VInt 1);
               ("week_number", VInt 53);
               ("iso_week", VInt 1);
               ("iso_year", VInt 2025);
               ("day_of_year", VInt 365);
               ("days_remaining_in_year", VInt 1);
               ("is_weekend", VBool false);
               ("quarter", VInt 4) ].
Proof. reflexivity. Qed.

(** ** Running a tool body *)

Lemma run_bind {A B : Type} c (p : py A) (f : A -> py B) :
  run c (bind p f)
  = match run c p with
    | Returned a => run c (f a)
    | Raised e => Raised e
    end.
Proof.
  induction p as [a | e | k IH]; simpl; [ reflexivity | reflexivity | apply IH ].
Qed.

Lemma run_try_except {A : Type} c (p : py A) handler :
  run c (try_except p handler)
  = match run c p with
    | Returned a => Returned a
    | Raised e => match handler e with
                  | Some q => run c q
                  | None => Raised e
                  end
    end.
Proof.
  induction p as [a | e | k IH]; simpl;
    [ reflexivity | destruct (handler e); reflexivity | apply IH ].
Qed.

Lemma run_or_raise {A : Type} c (o : option A) e :
  run c (or_raise o e)
  = match o with Some a => Returned a | None => Raised e end.
Proof. destruct o; reflexivity. Qed.

(** ** The shape of what the tools return *)

Lemma error_mapping_uniform message : uniform_mapping (error_mapping message).
Proof. left. exists message. reflexivity. Qed.

Lemma relative_result_uniform date_str reference target ref :
  uniform_mapping (relative_result date_str reference target ref).
Proof. right. reflexivity. Qed.

Lemma week_year_result_uniform dt : uniform_mapping (week_year_result dt).
Proof. right. reflexivity. Qed.

Lemma datetime_result_uniform now format :
  uniform_mapping (datetime_result now format).
Proof.
  right. unfold datetime_result. cbv zeta.
  repeat match goal with
         | |- context [match format with Some f => String.eqb f ?s | None => false end] =>
             destruct (match format with Some f => String.eqb f s | None => false end)
         end; reflexivity.
Qed.

Lemma relative_time_contract c date_str reference :
  uniform_contract (run c (relative_time date_str reference)).
Proof.
  unfold relative_time, uniform_contract.
  destruct (parse_formats date_str relative_time_formats) as [target | ];
    [ | eexists; split; [ reflexivity | apply error_mapping_uniform ] ].
  destruct reference as [r | ];
    [ destruct (truthy (Some r));
      [ destruct (parse_formats r relative_time_formats) | ] | ];
    eexists; (split; [ reflexivity | ]);
    (apply error_mapping_uniform || apply relative_result_uniform).
Qed.

Lemma get_week_year_contract c date_str :
  uniform_contract (run c (get_week_year date_str)).
Proof.
  unfold get_week_year, uniform_contract.
  destruct date_str as [s | ];
    [ destruct (truthy (Some s)); [ destruct (strptime s "%Y-%m-%d") | ] | ];
    eexists; (split; [ reflexivity | ]);
    (apply error_mapping_uniform || apply week_year_result_uniform).
Qed.

Lemma year_error_class y :
  In (exn_class (year_error y)) [ValueError; OverflowError].
Proof.
  unfold year_error.
  destruct ((y <? - 9223372036854775808) || (9223372036854775807 <? y));
    [ right; left; reflexivity | ].
  destruct (2147483647 <? y); [ right; left; reflexivity | ].
  destruct (y <? - 2147483648); [ right; left; reflexivity | left; reflexivity ].
Qed.

Lemma days_in_month_contract c y m :
  uniform_or_raises [ValueError; OverflowError] (run c (days_in_month y m))
  /\ (1 <= int_or y (year (now_local c)) <= 9999 ->
      uniform_contract (run c (days_in_month y m))).
Proof.
  rewrite days_in_month_run. cbv zeta.
  set (yy := int_or y (year (now_local c))).
  set (mm := int_or m (month (now_local c))).
  destruct (Z.leb_spec 1 mm) as [H1 | H1]; cbn [andb negb];
    [ destruct (Z.leb_spec mm 12) as [H2 | H2]; cbn [andb negb] | ].
  - destruct (monthrange_days yy mm (conj H1 H2)) as (Hdim & _ & Hrange).
    split.
    + destruct (new_datetime yy mm 1 0 0 0 0);
        [ destruct (new_datetime yy mm (snd (monthrange yy mm)) 0 0 0 0) | ];
        cbn [uniform_or_raises];
        [ right; reflexivity | apply year_error_class | apply year_error_class ].
    + intros Hy. rewrite !new_datetime_in_range by (rewrite <- ?Hdim; lia).
      eexists. split; [ reflexivity | right; reflexivity ].
  - split; [ | intros _; eexists; split; [ reflexivity | ] ];
      apply error_mapping_uniform.
  - split; [ | intros _; eexists; split; [ reflexivity | ] ];
      apply error_mapping_uniform.
Qed.

Lemma get_datetime_contract tzdata c tz format :
  uniform_or_raises [OverflowError] (run c (get_datetime tzdata tz format))
  /\ (truthy tz = true ->
      uniform_contract (run c (get_datetime tzdata tz format))).
Proof.
  assert (L : uniform_or_raises [OverflowError]
                (run c (bind datetime_now_astimezone
                             (fun now => ret (datetime_result now format))))).
  { rewrite run_bind. unfold datetime_now_astimezone. cbn [run].
    rewrite run_bind, run_or_raise.
    destruct (datetime_add_seconds _ _); [ | left; reflexivity ].
    rewrite run_or_raise.
    destruct (fromutc _ _); [ apply datetime_result_uniform | left; reflexivity ]. }
  unfold get_datetime.
  destruct tz as [name | ]; [ | split; [ exact L | discriminate ] ].
  destruct (truthy (Some name)); [ | split; [ exact L | discriminate ] ].
  assert (U : uniform_contract
                (run c (bind
                          (try_except
                             (bind (zone_of tzdata name)
                                   (fun zone =>
                                      bind (datetime_now_in zone)
                                           (fun now => ret (inl now))))
                             (fun _ => Some (ret (inr (error_mapping
                                                         ("Invalid timezone: " ++ name))))))
                          (fun now =>
                             match now with
                             | inr err => ret err
                             | inl now => ret (datetime_result now format)
                             end)))).
  { clear L. rewrite run_bind, run_try_except.
    match goal with
    | |- context [match run c ?p with _ => _ end] =>
        destruct (run c p) as [[now | err] | e] eqn:E
    end; cbn [run].
    - eexists. split; [ reflexivity | apply datetime_result_uniform ].
    - (* the body of the [try] returns a datetime, never a mapping *)
      exfalso. rewrite run_bind in E.
      destruct (run c (zone_of tzdata name)); [ | discriminate ].
      rewrite run_bind in E.
      destruct (run c (datetime_now_in a)); discriminate.
    - eexists. split; [ reflexivity | apply error_mapping_uniform ]. }
  split; [ | intros _; exact U ].
  destruct U as (d & -> & Hd). exact Hd.
Qed.

Lemma convert_time_contract tzdata c time_str from_tz to_tz :
  uniform_or_raises [OverflowError]
    (run c (convert_time tzdata time_str from_tz to_tz)).
Proof.
  unfold convert_time.
  destruct (parse_formats time_str convert_time_formats) as [dt | ];
    [ | apply error_mapping_uniform ].
  rewrite run_bind, run_try_except, run_bind.
  destruct (run c (zone_of tzdata from_tz)) as [source_zone | e];
    [ | apply error_mapping_uniform ].
  rewrite run_bind.
  destruct (run c (zone_of tzdata to_tz)) as [target_zone | e];
    [ | apply error_mapping_uniform ].
  cbn [run]. rewrite run_bind, run_or_raise.
  destruct (astimezone _ _); [ right; reflexivity | left; reflexivity ].
Qed.

(** X22.  What the five operations do return is uniform: either the
    single-field mapping ["error"] with a message text or a mapping without
    an ["error"] key.  [relative_time] and [get_week_year] always return,
    and so do [get_datetime] with a named zone and [days_in_month] with a
    year from 1 to 9999.  The other calls may raise instead of returning:
    [days_in_month] the [ValueError] or [OverflowError] of the [datetime]
    constructor, [convert_time] and [get_datetime] without a zone the
    [OverflowError] of the datetime arithmetic. *)
Lemma returned_mappings_uniform :
  forall tzdata c,
    (forall date_str reference,
        uniform_contract (run c (relative_time date_str reference)))
    /\ (forall date_str, uniform_contract (run c (get_week_year date_str)))
    /\ (forall tz format,
           truthy tz = true ->
           uniform_contract (run c (get_datetime tzdata tz format)))
    /\ (forall tz format,
           uniform_or_raises [OverflowError] (run c (get_datetime tzdata tz format)))
    /\ (forall y m,
           1 <= int_or y (year (now_local c)) <= 9999 ->
           uniform_contract (run c (days_in_month y m)))
    /\ (forall y m,
           uniform_or_raises [ValueError; OverflowError]
             (run c (days_in_month y m)))
    /\ (forall time_str from_tz to_tz,
           uniform_or_raises [OverflowError]
             (run c (convert_time tzdata time_str from_tz to_tz))).
Proof.
  intros tzdata c.
  split; [ intros; apply relative_time_contract | ].
  split; [ intros; apply get_week_year_contract | ].
  split; [ intros tz format; apply get_datetime_contract | ].
  split; [ intros tz format; apply get_datetime_contract | ].
  split; [ intros y m; apply days_in_month_contract | ].
  split; [ intros y m; apply days_in_month_contract | ].
  intros; apply convert_time_contract.
Qed.

Lemma returned_mappings_uniform_witness :
  uniform_contract (run example_clock (get_datetime example_tzdata (Some "Mars") None))
  /\ uniform_contract (run example_clock (days_in_month (Some 2024) (Some 13))).
Proof.
  destruct (returned_mappings_uniform example_tzdata example_clock)
    as (_ & _ & Hzone & _ & Hmonth & _).
  split.
  - apply Hzone. reflexivity.
  - apply Hmonth. vm_compute. split; discriminate.
Defined.

(** C6.  The uniform failure contract is broken where the code lets an
    exception escape.  [days_in_month] for year 10000 and month 1 fails by
    raising the [ValueError] of [datetime(10000, 1, 1)]: no mapping is
    returned, although the same tool returns the error mapping for a
    month out of range in the same year.  [convert_time] of the first
    second of year 1 from UTC to a zone behind UTC fails by raising the
    [OverflowError] of the conversion, although the zone look-up two lines
    above it is guarded and returns the error mapping, as
    [get_datetime] does for the same overflow. *)
Theorem uniform_contract_broken :
  run example_clock (days_in_month (Some 10000) (Some 1))
  = Raised (mkexn ValueError "year 10000 is out of range")
  /\ ~ uniform_contract (run example_clock (days_in_month (Some 10000) (Some 1)))
  /\ run example_clock (days_in_month (Some 10000) (Some 13))
     = Returned (error_mapping "Invalid month: 13. Must be 1-12.")
  /\ run example_clock
       (convert_time example_tzdata "0001-01-01 00:00:00" "UTC" "America/New_York")
     = Raised overflow_error
  /\ ~ uniform_contract
         (run example_clock
            (convert_time example_tzdata "0001-01-01 00:00:00" "UTC"
               "America/New_York"))
  /\ run example_clock
       (convert_time example_tzdata "0001-01-01 00:00:00" "UTC" "Mars/Olympus")
     = Returned (error_mapping
                   "Invalid timezone: 'No time zone found with key Mars/Olympus'").
Proof.
  split; [ vm_compute; reflexivity | ].
  split; [ intros (d & H & _); vm_compute in H; discriminate H | ].
  split; [ vm_compute; reflexivity | ].
  split; [ vm_compute; reflexivity | ].
  split; [ intros (d & H & _); vm_compute in H; discriminate H | ].
  vm_compute. reflexivity.
Qed.

(** ** The parsing loop *)



(** ** The matcher accepts entire matches only *)

Lemma match_alt_sound alt s t r :
  match_alt alt s = Some (t, r) -> s = t ++ r /\ in_alt alt t.
Proof.
  revert s t r. induction alt as [ | k alt IH]; intros s t r; simpl.
  - intros [= <- <-]. split; [ reflexivity | constructor ].
  - destruct s as [ | c s']; [ discriminate | ].
    destruct (in_class k c) eqn:Ek; [ | discriminate ].
    destruct (match_alt alt s') as [[t' r'] | ] eqn:E; [ | discriminate ].
    intros [= <- <-]. destruct (IH _ _ _ E) as [-> Hin].
    split; [ reflexivity | constructor; assumption ].
Qed.

Lemma space_rests_sound s r :
  In r (space_rests s) -> exists sp, all_space sp /\ s = sp ++ r.
Proof.
  revert r. induction s as [ | c s IH]; intros r; simpl; [ intros [] | ].
  destruct (is_space c) eqn:Ec; [ | intros [] ].
  intros H. apply in_app_or in H. destruct H as [H | [<- | []]].
  - destruct (IH _ H) as (sp & Hsp & ->).
    exists (String c sp). split; [ constructor; assumption | reflexivity ].
  - exists (String c ""). split; [ constructor; assumption | reflexivity ].
Qed.

Lemma match_items_sound p :
  forall s g g' r,
    match_items p s g = Some (g', r) ->
    exists s0, s = s0 ++ r /\ matches_entirely p s0 g g'.
Proof.
  induction p as [ | i p IH]; intros s g g' r; simpl.
  - intros [= <- <-]. exists "". split; [ reflexivity | constructor ].
  - destruct i as [d | c | ].
    + intros H. apply first_success_some in H. destruct H as (alt & Hin & H).
      destruct (match_alt alt s) as [[t r1] | ] eqn:E; [ | discriminate ].
      destruct (match_alt_sound _ _ _ _ E) as [-> Ht].
      destruct (IH _ _ _ _ H) as (s1 & -> & Hm).
      exists (t ++ s1). split; [ now rewrite append_assoc | ].
      econstructor; eassumption.
    + destruct s as [ | x s']; [ discriminate | ].
      destruct (Ascii.eqb_spec (lower c) (lower x)) as [Ec | ]; [ | discriminate ].
      intros H. destruct (IH _ _ _ _ H) as (s1 & -> & Hm).
      exists (String x s1). split; [ reflexivity | constructor; assumption ].
    + intros H. apply first_success_some in H. destruct H as (r1 & Hin & H).
      destruct (space_rests_sound _ _ Hin) as (sp & Hsp & ->).
      destruct (IH _ _ _ _ H) as (s1 & -> & Hm).
      exists (sp ++ s1). split; [ now rewrite append_assoc | ].
      constructor; assumption.
Qed.

Lemma strptime_entire s fmt dt :
  strptime s fmt = Some dt ->
  exists p g,
    pattern false fmt = Some p
    /\ matches_entirely p s no_groups g
    /\ dt = mkdatetime (gY g) (gm g) (gd g) (gH g) (gM g) (gS g) 0.
Proof.
  unfold strptime.
  destruct (pattern false fmt) as [p | ]; [ | discriminate ].
  destruct (match_items p s no_groups) as [[g r] | ] eqn:E; [ | discriminate ].
  destruct r; [ | discriminate ].
  intros H. apply new_datetime_valid in H. destruct H as [-> _].
  destruct (match_items_sound _ _ _ _ _ E) as (s0 & -> & Hm).
  rewrite append_nil_r. exists p, g. auto.
Qed.

Lemma carries_middle before input after : carries (before ++ input ++ after) input.
Proof. exists before, after. reflexivity. Qed.


(** ** The matcher finds every entire match *)


Lemma in_alt_complete alt t r :
  in_alt alt t -> match_alt alt (t ++ r) = Some (t, r).
Proof.
  induction 1 as [ | k alt c t Hk Hin IH]; cbn [match_alt String.append].
  - reflexivity.
  - now rewrite Hk, IH.
Qed.

Lemma in_alt_length alt t : in_alt alt t -> String.length t = List.length alt.
Proof.
  induction 1; cbn; [ reflexivity | now f_equal ].
Qed.

Lemma digit_class_sound k c :
  digit_class k = true -> in_class k c = true -> is_digit c = true.
Proof.
  destruct k as [ | lo hi | x]; cbn [digit_class in_class].
  - auto.
  - unfold is_digit. rewrite !andb_true_iff, !Nat.leb_le. lia.
  - intros Hx Hc. apply Ascii.eqb_eq in Hc. now subst.
Qed.

Lemma digit_not_space c : is_digit c = true -> is_space c = false.
Proof.
  unfold is_digit, is_space. cbv zeta. generalize (nat_of_ascii c). intros n.
  rewrite andb_true_iff, !Nat.leb_le. intros [H1 H2].
  repeat match goal with
         | |- context [(?a <=? ?b)%nat] => destruct (Nat.leb_spec a b)
         | |- context [(?a =? ?b)%nat] => destruct (Nat.eqb_spec a b)
         end; cbn; (reflexivity || lia).
Qed.

Lemma digit_lower c : is_digit c = true -> lower c = c.
Proof.
  unfold is_digit, lower. cbv zeta. generalize (nat_of_ascii c) at 1 2 3 4. intros n.
  rewrite andb_true_iff, !Nat.leb_le. intros [H1 H2].
  destruct (Nat.leb_spec 65 n); [ lia | reflexivity ].
Qed.

Lemma append_same_length t1 r1 t r :
  t1 ++ r1 = t ++ r -> String.length t1 = String.length t -> t1 = t /\ r1 = r.
Proof.
  revert t. induction t1 as [ | x t1 IH]; intros [ | y t]; cbn; try discriminate.
  - auto.
  - intros [= -> H] [= L]. destruct (IH _ H L) as [-> ->]. auto.
Qed.

Lemma append_shorter t1 r1 t r :
  t1 ++ r1 = t ++ r -> (String.length t1 < String.length t)%nat ->
  exists y u, t = t1 ++ String y u /\ r1 = String y u ++ r.
Proof.
  revert t. induction t1 as [ | x t1 IH]; intros [ | y t]; cbn; try lia.
  - intros -> _. exists y, t. auto.
  - intros [= -> H] L. destruct (IH _ H ltac:(lia)) as (z & u & -> & ->).
    exists z, u. auto.
Qed.

(** Past its first character, the text of an alternative holds digits. *)
Lemma in_alt_digits alt t :
  in_alt alt t -> forallb digit_class alt = true ->
  forall t1 y u, t = t1 ++ String y u -> is_digit y = true.
Proof.
  induction 1 as [ | k alt c t Hk Hin IH]; cbn [forallb].
  - intros _ [ | ? ?] y u; discriminate.
  - intros Hd. apply andb_true_iff in Hd. destruct Hd as [Hdk Hd].
    intros [ | x t1] y u; cbn [String.append].
    + intros [= -> ->]. eapply digit_class_sound; eassumption.
    + intros [= -> ->]. eapply IH; [ exact Hd | reflexivity ].
Qed.

Lemma alternative_later_digit l alt x t1 y u :
  digits_after_first l = true -> In alt l ->
  in_alt alt (String x t1 ++ String y u) -> is_digit y = true.
Proof.
  intros Hl Hin Halt. unfold digits_after_first in Hl.
  rewrite forallb_forall in Hl. specialize (Hl alt Hin).
  destruct alt as [ | k later]; [ discriminate | ].
  cbn [String.append] in Halt. inversion Halt; subst.
  eapply in_alt_digits; [ eassumption | exact Hl | reflexivity ].
Qed.

Lemma alternative_nonempty l alt t :
  digits_after_first l = true -> In alt l -> in_alt alt t ->
  exists x t', t = String x t'.
Proof.
  intros Hl Hin Halt. unfold digits_after_first in Hl.
  rewrite forallb_forall in Hl. specialize (Hl alt Hin).
  destruct Halt; [ discriminate | eauto ].
Qed.

Lemma alternative_first_digit l alt t :
  digit_first l = true -> In alt l -> in_alt alt t ->
  exists x t', t = String x t' /\ is_digit x = true.
Proof.
  intros Hl Hin Halt. unfold digit_first in Hl.
  rewrite forallb_forall in Hl. specialize (Hl alt Hin).
  destruct Halt as [ | k alt c t Hk Halt]; [ discriminate | ].
  exists c, t. split; [ reflexivity | eapply digit_class_sound; eassumption ].
Qed.

Lemma disjoint_classes_sound k1 k2 x :
  disjoint_classes k1 k2 = true ->
  in_class k1 x = true -> in_class k2 x = true -> False.
Proof.
  unfold disjoint_classes. rewrite forallb_forall. intros H H1 H2.
  specialize (H (nat_of_ascii x)). rewrite ascii_nat_embedding, H1, H2 in H.
  assert (Hin : In (nat_of_ascii x) (seq 0 256)).
  { apply in_seq. pose proof (nat_ascii_bounded x). lia. }
  specialize (H Hin). discriminate H.
Qed.

(** An alternative tried earlier never matches a shorter text. *)
Lemma ordered_alternatives_sound l :
  ordered_alternatives l = true ->
  forall l1 b l2 a x t1 t,
    l = (l1 ++ b :: l2)%list -> In a l1 ->
    in_alt a (String x t1) -> in_alt b (String x t) ->
    (String.length t <= String.length t1)%nat.
Proof.
  induction l as [ | a0 rest IH]; intros Hl l1 b l2 a x t1 t E Ha Hina Hinb.
  - destruct l1; discriminate E.
  - cbn [ordered_alternatives] in Hl. apply andb_true_iff in Hl.
    destruct Hl as [H0 Hrest].
    destruct l1 as [ | a1 l1]; [ destruct Ha | ].
    cbn [app] in E. injection E as -> ->.
    destruct Ha as [-> | Ha].
    + rewrite forallb_forall in H0.
      specialize (H0 b ltac:(apply in_or_app; right; left; reflexivity)).
      apply orb_true_iff in H0. destruct H0 as [H0 | H0].
      * apply Nat.leb_le in H0.
        apply in_alt_length in Hina, Hinb. cbn [String.length] in *. lia.
      * exfalso. inversion Hina; subst. inversion Hinb; subst.
        cbn [disjoint_first] in H0.
        eapply disjoint_classes_sound; eassumption.
    + eapply (IH Hrest l1 b l2 a); [ reflexivity | eassumption .. ].
Qed.

Lemma first_success_split {A B : Type} (f : A -> option B) l1 a l2 b :
  (forall x, In x l1 -> f x = None \/ f x = Some b) ->
  f a = Some b ->
  first_success f (l1 ++ a :: l2) = Some b.
Proof.
  induction l1 as [ | x l1 IH]; intros H Ha; cbn [app first_success].
  - now rewrite Ha.
  - destruct (H x (or_introl eq_refl)) as [-> | ->]; [ | reflexivity ].
    apply IH; [ | exact Ha ]. intros y Hy. apply H. right. exact Hy.
Qed.

Lemma space_rests_longest sp r :
  all_space sp -> space_rests r = [] ->
  exists l, space_rests (sp ++ r) = r :: l.
Proof.
  intros Hsp Hr. induction Hsp as [c Hc | c s Hc Hs IH]; cbn [String.append space_rests].
  - rewrite Hc, Hr. exists []. reflexivity.
  - rewrite Hc. destruct IH as [l ->]. eexists. reflexivity.
Qed.

(** The first character an entire match of a pattern starts with. *)
Lemma matches_entirely_first q r g g' :
  matches_entirely q r g g' ->
  match q with
  | [] => r = ""
  | Literal c :: _ => exists x r', r = String x r' /\ lower c = lower x
  | Spaces :: _ => exists x r', r = String x r' /\ is_space x = true
  | Directive _ :: _ => True
  end.
Proof.
  intros H. destruct H as [ | | c x items r g g' Hc _ | sp items r g g' Hsp _ ].
  - reflexivity.
  - exact I.
  - eauto.
  - destruct Hsp; cbn [String.append]; eauto.
Qed.

Lemma literal_not_digit c y :
  is_digit (lower c) = false -> is_digit y = true ->
  Ascii.eqb (lower c) (lower y) = false.
Proof.
  intros Hc Hy. rewrite (digit_lower y Hy).
  destruct (Ascii.eqb_spec (lower c) y) as [E | ]; [ | reflexivity ].
  rewrite E in Hc. congruence.
Qed.





(** ** Ordinals and dates are in bijection *)

(** A property checked on every integer of a range. *)
Lemma forall_range (P : Z -> bool) lo len :
  forallb P (map (fun k => lo + Z.of_nat k) (seq 0 len)) = true ->
  forall x, lo <= x < lo + Z.of_nat len -> P x = true.
Proof.
  intros H x Hx. rewrite forallb_forall in H. apply H.
  apply in_map_iff. exists (Z.to_nat (x - lo)).
  split; [ lia | ]. apply in_seq. lia.
Qed.

(** The month estimate of [_ord2ymd] is right on each day of a year. *)
Lemma ord2ymd_month_correct (leap : bool) (n : Z) :
  0 <= n < 365 + (if leap then 1 else 0) ->
  let m := fst (ord2ymd_month leap n) in
  let d := snd (ord2ymd_month leap n) in
  1 <= m <= 12
  /\ 1 <= d <= (if (m =? 2) && leap then 29 else index DAYS_IN_MONTH m)
  /\ index DAYS_BEFORE_MONTH m + (if (2 <? m) && leap then 1 else 0) + d = n + 1.
Proof.
  intros Hn.
  pose (P := fun (leap : bool) (n : Z) =>
               let m := fst (ord2ymd_month leap n) in
               let d := snd (ord2ymd_month leap n) in
               (1 <=? m) && (m <=? 12) && (1 <=? d)
               && (d <=? (if (m =? 2) && leap then 29 else index DAYS_IN_MONTH m))
               && (index DAYS_BEFORE_MONTH m
                   + (if (2 <? m) && leap then 1 else 0) + d =? n + 1)).
  assert (H : P leap n = true).
  { destruct leap.
    - apply (forall_range (P true) 0 366); [ vm_compute; reflexivity | lia ].
    - apply (forall_range (P false) 0 365); [ vm_compute; reflexivity | lia ]. }
  unfold P in H. cbv zeta in H.
  rewrite !andb_true_iff, !Z.leb_le, Z.eqb_eq in H. cbv zeta. lia.
Qed.

(** Conversely the estimate finds back each day of each month. *)
Lemma ord2ymd_month_inverse (leap : bool) (m d : Z) :
  1 <= m <= 12 ->
  1 <= d <= (if (m =? 2) && leap then 29 else index DAYS_IN_MONTH m) ->
  ord2ymd_month leap
    (index DAYS_BEFORE_MONTH m + (if (2 <? m) && leap then 1 else 0) + d - 1)
  = (m, d).
Proof.
  intros Hm Hd.
  pose (P := fun (leap : bool) (m d : Z) =>
               let '(m', d') :=
                 ord2ymd_month leap
                   (index DAYS_BEFORE_MONTH m
                    + (if (2 <? m) && leap then 1 else 0) + d - 1) in
               (m' =? m) && (d' =? d)).
  assert (Hdmax : d <= 31).
  { each_month m Hm; destruct leap; eval_tables; lia. }
  assert (H : P leap m d = true).
  { destruct leap;
      each_month m Hm; eval_tables;
        (apply (forall_range (P _ _) 1 31); [ vm_compute; reflexivity | lia ])
        || (apply (forall_range (P _ _) 1 30); [ vm_compute; reflexivity | lia ])
        || (apply (forall_range (P _ _) 1 29); [ vm_compute; reflexivity | lia ])
        || (apply (forall_range (P _ _) 1 28); [ vm_compute; reflexivity | lia ]). }
  unfold P in H.
  destruct (ord2ymd_month leap _) as [m' d'].
  apply andb_true_iff in H. rewrite !Z.eqb_eq in H. destruct H as [-> ->].
  reflexivity.
Qed.

Lemma days_before_year_step y :
  days_before_year (y + 1)
  = days_before_year y + 365 + (if is_leap y then 1 else 0).
Proof.
  unfold days_before_year, is_leap. cbv zeta.
  replace (y + 1 - 1) with y by lia.
  destruct (Z.eqb_spec (y mod 4) 0), (Z.eqb_spec (y mod 100) 0),
           (Z.eqb_spec (y mod 400) 0); cbn [andb orb negb]; divlia.
Qed.

Lemma days_before_year_mono y1 y2 :
  y1 <= y2 -> days_before_year y1 <= days_before_year y2.
Proof.
  intros H. unfold days_before_year. cbv zeta. divlia.
Qed.

(** The year of [_ord2ymd]: the ordinal falls within the days of the
    year it returns. *)
Lemma ord2ymd_year n :
  1 <= n ->
  exists Y doy0,
    ord2ymd n = (Y, fst (ord2ymd_month (is_leap Y) doy0),
                    snd (ord2ymd_month (is_leap Y) doy0))
    /\ days_before_year Y + doy0 + 1 = n
    /\ 0 <= doy0 < 365 + (if is_leap Y then 1 else 0)
    /\ 1 <= Y.
Proof.
  intros Hn. unfold ord2ymd, DI400Y, DI100Y, DI4Y. cbv zeta.
  set (q := n - 1).
  set (n400 := q / 146097). set (r1 := q mod 146097).
  set (n100 := r1 / 36524). set (r2 := r1 mod 36524).
  set (n4 := r2 / 1461). set (r3 := r2 mod 1461).
  set (n1 := r3 / 365). set (r4 := r3 mod 365).
  assert (Hq : q = 146097 * n400 + r1 /\ 0 <= r1 < 146097 /\ 0 <= n400)
    by (unfold n400, r1; divlia).
  assert (H1 : r1 = 36524 * n100 + r2 /\ 0 <= r2 < 36524 /\ 0 <= n100 <= 4)
    by (unfold n100, r2; divlia).
  assert (H2 : r2 = 1461 * n4 + r3 /\ 0 <= r3 < 1461 /\ 0 <= n4 <= 24)
    by (unfold n4, r3; divlia).
  assert (H3 : r3 = 365 * n1 + r4 /\ 0 <= r4 < 365 /\ 0 <= n1 <= 4)
    by (unfold n1, r4; divlia).
  clearbody n400 r1 n100 r2 n4 r3 n1 r4.
  assert (Hnq : n = q + 1) by (unfold q; lia). clearbody q.
  destruct (Z.eqb_spec n1 4) as [E1 | E1]; cbn [orb].
  - (* the last day of a leap year inside a four-year cycle *)
    set (Y := n400 * 400 + 1 + n100 * 100 + n4 * 4 + n1 - 1).
    assert (HL : is_leap Y = true).
    { unfold is_leap, Y.
      destruct (Z.eqb_spec ((n400 * 400 + 1 + n100 * 100 + n4 * 4 + n1 - 1) mod 4) 0);
        [ | divlia ].
      destruct (Z.eqb_spec ((n400 * 400 + 1 + n100 * 100 + n4 * 4 + n1 - 1) mod 100) 0);
        [ divlia | reflexivity ]. }
    exists Y, 365. rewrite HL.
    split; [ reflexivity | ].
    split; [ unfold days_before_year, Y; cbv zeta; divlia | ].
    split; [ lia | unfold Y; lia ].
  - destruct (Z.eqb_spec n100 4) as [E2 | E2]; cbn [orb].
    + (* the last day of a 400-year cycle *)
      set (Y := n400 * 400 + 1 + n100 * 100 + n4 * 4 + n1 - 1).
      assert (HL : is_leap Y = true).
      { unfold is_leap, Y.
        destruct (Z.eqb_spec ((n400 * 400 + 1 + n100 * 100 + n4 * 4 + n1 - 1) mod 4) 0);
          [ | divlia ].
        destruct (Z.eqb_spec ((n400 * 400 + 1 + n100 * 100 + n4 * 4 + n1 - 1) mod 400) 0);
          [ | divlia ].
        destruct (_ =? 0); reflexivity. }
      exists Y, 365. rewrite HL.
      split; [ reflexivity | ].
      split; [ unfold days_before_year, Y; cbv zeta; divlia | ].
      split; [ lia | unfold Y; lia ].
    + set (Y := n400 * 400 + 1 + n100 * 100 + n4 * 4 + n1).
      assert (HL : (n1 =? 3) && (negb (n4 =? 24) || (n100 =? 3)) = is_leap Y).
      { unfold is_leap, Y.
        destruct (Z.eqb_spec n1 3), (Z.eqb_spec n4 24), (Z.eqb_spec n100 3);
          cbn [andb orb negb];
          destruct (Z.eqb_spec ((n400 * 400 + 1 + n100 * 100 + n4 * 4 + n1) mod 4) 0),
                   (Z.eqb_spec ((n400 * 400 + 1 + n100 * 100 + n4 * 4 + n1) mod 100) 0),
                   (Z.eqb_spec ((n400 * 400 + 1 + n100 * 100 + n4 * 4 + n1) mod 400) 0);
          cbn [andb orb negb]; (reflexivity || divlia). }
      rewrite HL.
      exists Y, r4.
      split; [ destruct (ord2ymd_month (is_leap Y) r4); reflexivity | ].
      split; [ unfold days_before_year, Y; cbv zeta; divlia | ].
      split; [ destruct (is_leap Y); lia | unfold Y; lia ].
Qed.

(** [ymd2ord] after [_ord2ymd] is the identity on the ordinals of
    [datetime], and the date found is a valid one. *)
Lemma ymd2ord_ord2ymd n :
  1 <= n <= MAXORDINAL ->
  forall y m d,
    ord2ymd n = (y, m, d) ->
    check_date_fields y m d = true /\ ymd2ord y m d = n.
Proof.
  intros Hn y m d E.
  destruct (ord2ymd_year n (proj1 Hn)) as (Y & doy0 & E' & Hdby & Hdoy & HY).
  rewrite E in E'. injection E' as -> -> ->.
  pose proof (ord2ymd_month_correct (is_leap Y) doy0 Hdoy) as M. cbv zeta in M.
  destruct M as (Hm & Hd & Hsum).
  assert (HYmax : Y <= 9999).
  { destruct (Z.le_gt_cases Y 9999) as [ | Hbig]; [ assumption | exfalso ].
    pose proof (days_before_year_mono 10000 Y ltac:(lia)) as Hmono.
    change (days_before_year 10000) with 3652059 in Hmono.
    unfold MAXORDINAL in Hn. lia. }
  split.
  - apply check_date_fields_spec. unfold Calendar.days_in_month. lia.
  - unfold ymd2ord, days_before_month. lia.
Qed.

(** [_ord2ymd] after [ymd2ord] is the identity on valid dates. *)
Lemma ord2ymd_ymd2ord y m d :
  check_date_fields y m d = true -> ord2ymd (ymd2ord y m d) = (y, m, d).
Proof.
  intros Hv. apply check_date_fields_spec in Hv. destruct Hv as (Hy & Hm & Hd).
  pose proof (day_of_year_range y m d Hm Hd) as Hrange.
  assert (Hpos : 1 <= ymd2ord y m d).
  { unfold ymd2ord.
    pose proof (days_before_year_mono 1 y ltac:(lia)) as H0.
    change (days_before_year 1) with 0 in H0. lia. }
  destruct (ord2ymd_year _ Hpos) as (Y & doy0 & E & Hdby & Hdoy & HY).
  unfold ymd2ord in Hdby.
  assert (Y = y) as ->.
  { destruct (Z.lt_trichotomy Y y) as [Hlt | [Heq | Hgt]]; [ exfalso | exact Heq | exfalso ].
    - pose proof (days_before_year_mono (Y + 1) y ltac:(lia)) as Hmono.
      rewrite days_before_year_step in Hmono. lia.
    - pose proof (days_before_year_mono (y + 1) Y ltac:(lia)) as Hmono.
      rewrite days_before_year_step in Hmono. lia. }
  assert (doy0 = days_before_month y m + d - 1) as -> by lia.
  rewrite E. unfold days_before_month.
  rewrite ord2ymd_month_inverse; [ reflexivity | exact Hm | exact Hd ].
Qed.

(** ** Datetimes and seconds *)

Lemma datetime_of_seconds_wall total us dt :
  datetime_of_seconds total us = Some dt ->
  wall_seconds dt = total /\ microsecond dt = us
  /\ (0 <= us <= 999999 -> valid_datetime dt = true).
Proof.
  unfold datetime_of_seconds. cbv zeta.
  destruct (Z.ltb_spec 0 (total / 86400)); [ | discriminate ].
  destruct (Z.leb_spec (total / 86400) MAXORDINAL); [ | discriminate ].
  cbn [andb].
  destruct (ord2ymd (total / 86400)) as [[y m] d] eqn:E.
  intros [= <-].
  destruct (ymd2ord_ord2ymd (total / 86400) ltac:(lia) y m d E) as [Hv Ho].
  unfold wall_seconds, toordinal, valid_datetime.
  cbn [year month day hour minute second microsecond].
  rewrite Ho, Hv.
  split; [ divlia | ]. split; [ reflexivity | ].
  intros Hus. apply check_time_fields_spec. divlia.
Qed.

Lemma ymd2ord_range y m d :
  check_date_fields y m d = true -> 1 <= ymd2ord y m d <= MAXORDINAL.
Proof.
  intros Hv. apply check_date_fields_spec in Hv. destruct Hv as (Hy & Hm & Hd).
  pose proof (day_of_year_range y m d Hm Hd) as Hrange.
  pose proof (days_before_year_mono 1 y ltac:(lia)) as H0.
  pose proof (days_before_year_mono (y + 1) 10000 ltac:(lia)) as H1.
  rewrite days_before_year_step in H1.
  change (days_before_year 1) with 0 in H0.
  change (days_before_year 10000) with 3652059 in H1.
  unfold ymd2ord, MAXORDINAL. lia.
Qed.

Lemma datetime_of_seconds_of_wall dt :
  valid_datetime dt = true ->
  datetime_of_seconds (wall_seconds dt) (microsecond dt) = Some dt.
Proof.
  intros Hv. unfold valid_datetime in Hv. apply andb_true_iff in Hv.
  destruct Hv as [Hd Ht].
  pose proof (ymd2ord_range _ _ _ Hd) as Hr.
  pose proof (ord2ymd_ymd2ord _ _ _ Hd) as Hinv.
  apply check_time_fields_spec in Ht.
  unfold datetime_of_seconds, wall_seconds, toordinal in *. cbv zeta.
  set (o := ymd2ord (year dt) (month dt) (day dt)) in *.
  set (t := o * 86400 + hour dt * 3600 + minute dt * 60 + second dt).
  assert (Hdiv : t / 86400 = o) by (unfold t; divlia).
  assert (Hmod : t mod 86400 = hour dt * 3600 + minute dt * 60 + second dt)
    by (unfold t; divlia).
  rewrite Hdiv, Hmod, Hinv.
  destruct (Z.ltb_spec 0 o); [ | lia ].
  destruct (Z.leb_spec o MAXORDINAL); [ | lia ].
  cbn [andb]. destruct dt as [y m d hh mm ss us].
  cbn [year month day hour minute second microsecond] in *.
  do 2 f_equal; divlia.
Qed.

(** ** [strptime] reads back what [strftime] writes *)

(** Case analysis on a natural number below a literal bound. *)
Tactic Notation "below_cases" constr(n) integer(times) constr(bound) tactic(tac) :=
  let k := fresh "k" in
  let Hk := fresh "Hk" in
  assert (Hk : exists k : nat, n = Z.of_nat k /\ (k < bound)%nat)
    by (exists (Z.to_nat n); lia);
  destruct Hk as (k & -> & Hk);
  do times (destruct k as [ | k]; [ tac | ]);
  exfalso; lia.

(** Evaluate the padded text and the value of a group on literals. *)
Ltac eval_text :=
  repeat match goal with
         | |- context [pad2 ?x] =>
             let v := eval vm_compute in (pad2 x) in change (pad2 x) with v
         | H : context [Z.of_nat ?k] |- _ =>
             let v := eval vm_compute in (Z.of_nat k) in
             change (Z.of_nat k) with v in H
         end;
  cbn [String.append];
  cbn [match_items alternatives first_success match_alt in_class];
  repeat match goal with
         | |- context [Ascii.eqb ?a ?b] =>
             let v := eval vm_compute in (Ascii.eqb a b) in
             change (Ascii.eqb a b) with v
         | |- context [Nat.leb ?a ?b] =>
             let v := eval vm_compute in (Nat.leb a b) in
             change (Nat.leb a b) with v
         | |- context [is_digit ?a] =>
             let v := eval vm_compute in (is_digit a) in
             change (is_digit a) with v
         end;
  cbn [andb];
  repeat match goal with
         | |- context [int ?t] =>
             let v := eval vm_compute in (int t) in change (int t) with v
         end.

Lemma match_month n items rest g r :
  1 <= n <= 12 ->
  match_items items rest (set_group Dm n g) = Some r ->
  match_items (Directive Dm :: items) (pad2 n ++ rest) g = Some r.
Proof.
  intros Hn. 
  below_cases n 13 13%nat
    (first [ exfalso; lia | intros H; eval_text; rewrite H; reflexivity ]).
Qed.

Lemma match_day n items rest g r :
  1 <= n <= 31 ->
  match_items items rest (set_group Dd n g) = Some r ->
  match_items (Directive Dd :: items) (pad2 n ++ rest) g = Some r.
Proof.
  intros Hn.
  below_cases n 32 32%nat
    (first [ exfalso; lia | intros H; eval_text; rewrite H; reflexivity ]).
Qed.

Lemma match_hour n items rest g r :
  0 <= n <= 23 ->
  match_items items rest (set_group DH n g) = Some r ->
  match_items (Directive DH :: items) (pad2 n ++ rest) g = Some r.
Proof.
  intros Hn.
  below_cases n 24 24%nat
    (first [ exfalso; lia | intros H; eval_text; rewrite H; reflexivity ]).
Qed.

Lemma match_minute n items rest g r :
  0 <= n <= 59 ->
  match_items items rest (set_group DM n g) = Some r ->
  match_items (Directive DM :: items) (pad2 n ++ rest) g = Some r.
Proof.
  intros Hn.
  below_cases n 60 60%nat
    (first [ exfalso; lia | intros H; eval_text; rewrite H; reflexivity ]).
Qed.

Lemma match_second n items rest g r :
  0 <= n <= 59 ->
  match_items items rest (set_group DS n g) = Some r ->
  match_items (Directive DS :: items) (pad2 n ++ rest) g = Some r.
Proof.
  intros Hn.
  below_cases n 60 60%nat
    (first [ exfalso; lia | intros H; eval_text; rewrite H; reflexivity ]).
Qed.

(** The digits of a padded number. *)
Lemma pad2_digits n :
  0 <= n <= 99 ->
  pad2 n = String (digit_char (n / 10)) (String (digit_char (n mod 10)) "").
Proof.
  intros Hn.
  pose (P := fun n =>
               String.eqb (pad2 n)
                 (String (digit_char (n / 10)) (String (digit_char (n mod 10)) ""))).
  apply String.eqb_eq. change (P n = true).
  apply (forall_range P 0 100); [ vm_compute; reflexivity | lia ].
Qed.

Lemma pad4_digits n :
  0 <= n <= 9999 ->
  pad4 n = String (digit_char (n / 1000))
             (String (digit_char ((n / 100) mod 10))
                (String (digit_char ((n / 10) mod 10))
                   (String (digit_char (n mod 10)) ""))).
Proof.
  intros Hn.
  pose (P := fun n =>
               String.eqb (pad4 n)
                 (String (digit_char (n / 1000))
                    (String (digit_char ((n / 100) mod 10))
                       (String (digit_char ((n / 10) mod 10))
                          (String (digit_char (n mod 10)) ""))))).
  apply String.eqb_eq. change (P n = true).
  apply (forall_range P 0 (Z.to_nat 10000)); [ vm_compute; reflexivity | lia ].
Qed.

(** From year 1000 on the plain year of [%Y] has four digits. *)
Lemma strftime_Y_four_digits dt :
  1000 <= year dt <= 9999 -> strftime_Y dt = pad4 (year dt).
Proof.
  intros Hy. unfold strftime_Y.
  pose (P := fun n => String.eqb (str n) (pad4 n)).
  apply String.eqb_eq. change (P (year dt) = true).
  apply (forall_range P 1000 (Z.to_nat 9000)); [ vm_compute; reflexivity | lia ].
Qed.

Lemma digit_char_digit k :
  0 <= k <= 9 ->
  is_digit (digit_char k) = true
  /\ Z.of_nat (nat_of_ascii (digit_char k)) - 48 = k
  /\ is_space (digit_char k) = false.
Proof.
  intros Hk.
  assert (H : k = 0 \/ k = 1 \/ k = 2 \/ k = 3 \/ k = 4 \/ k = 5 \/ k = 6
              \/ k = 7 \/ k = 8 \/ k = 9) by lia.
  destruct H as [-> | [-> | [-> | [-> | [-> | [-> | [-> | [-> | [-> | ->]]]]]]]]];
    vm_compute; repeat split; reflexivity.
Qed.

Lemma match_year n items rest g :
  0 <= n <= 9999 ->
  match_items (Directive DY :: items) (pad4 n ++ rest) g
  = match_items items rest (set_group DY n g).
Proof.
  intros Hn. rewrite pad4_digits by assumption.
  destruct (digit_char_digit (n / 1000) ltac:(divlia)) as (A1 & B1 & _).
  destruct (digit_char_digit ((n / 100) mod 10) ltac:(divlia)) as (A2 & B2 & _).
  destruct (digit_char_digit ((n / 10) mod 10) ltac:(divlia)) as (A3 & B3 & _).
  destruct (digit_char_digit (n mod 10) ltac:(divlia)) as (A4 & B4 & _).
  cbn [String.append match_items alternatives first_success match_alt in_class].
  rewrite A1, A2, A3, A4. unfold int. cbn [int_digits].
  rewrite A1, A2, A3, A4, B1, B2, B3, B4.
  replace ((((0 * 10 + n / 1000) * 10 + (n / 100) mod 10) * 10
            + (n / 10) mod 10) * 10 + n mod 10) with n by divlia.
  destruct (match_items items rest (set_group DY n g)); reflexivity.
Qed.

Lemma match_literal c items rest g :
  match_items (Literal c :: items) (String c rest) g = match_items items rest g.
Proof. cbn [match_items]. now rewrite Ascii.eqb_refl. Qed.

Lemma match_one_space items rest g r :
  (forall c rest', rest = String c rest' -> is_space c = false) ->
  match_items items rest g = Some r ->
  match_items (Spaces :: items) (String " " rest) g = Some r.
Proof.
  intros Hns H. cbn [match_items space_rests].
  change (is_space " ") with true. cbv iota.
  assert (E : space_rests rest = []).
  { destruct rest as [ | c rest']; [ reflexivity | ].
    cbn [space_rests]. now rewrite (Hns c rest' eq_refl). }
  rewrite E. cbn [app first_success]. now rewrite H.
Qed.

Lemma strptime_strftime_datetime dt :
  valid_datetime dt = true -> microsecond dt = 0 -> 1000 <= year dt ->
  strptime (strftime_datetime dt) "%Y-%m-%d %H:%M:%S" = Some dt.
Proof.
  intros Hv Hus Hy1000. pose proof Hv as Hv'.
  apply valid_datetime_spec in Hv'.
  destruct Hv' as [(Hy & Hm & Hd) (Hh & Hmi & Hs & _)].
  assert (Hd31 : 1 <= day dt <= 31).
  { pose proof (monthrange_days (year dt) (month dt) Hm) as (E & _ & R).
    rewrite E in R. lia. }
  unfold strptime.
  change (pattern false "%Y-%m-%d %H:%M:%S")
    with (Some [Directive DY; Literal "-"; Directive Dm; Literal "-";
                Directive Dd; Spaces; Directive DH; Literal ":";
                Directive DM; Literal ":"; Directive DS]).
  cbv iota beta.
  assert (E : match_items
                [Directive DY; Literal "-"; Directive Dm; Literal "-";
                 Directive Dd; Spaces; Directive DH; Literal ":";
                 Directive DM; Literal ":"; Directive DS]
                (strftime_datetime dt) no_groups
              = Some (mkgroups (year dt) (month dt) (day dt)
                               (hour dt) (minute dt) (second dt), "")).
  { unfold strftime_datetime, strftime_date, strftime_time.
    rewrite strftime_Y_four_digits by lia.
    rewrite !append_assoc. cbn [String.append].
    rewrite match_year by lia. rewrite match_literal.
    apply match_month; [ lia | ]. rewrite match_literal.
    apply match_day; [ lia | ].
    apply match_one_space.
    { intros c rest' Hc. rewrite pad2_digits in Hc by lia.
      cbn [String.append] in Hc. injection Hc as <- _.
      apply digit_char_digit. divlia. }
    apply match_hour; [ lia | ]. rewrite match_literal.
    apply match_minute; [ lia | ]. rewrite match_literal.
    rewrite <- (append_nil_r (pad2 (second dt))).
    apply match_second; [ lia | ].
    reflexivity. }
  rewrite E. cbn [gY gm gd gH gM gS].
  unfold new_datetime. unfold valid_datetime in Hv. rewrite Hus in Hv.
  rewrite Hv. destruct dt; cbn in *; subst; reflexivity.
Qed.

Lemma parse_strftime_datetime dt :
  valid_datetime dt = true -> microsecond dt = 0 -> 1000 <= year dt ->
  parse_formats (strftime_datetime dt) convert_time_formats = Some dt.
Proof.
  intros Hv Hus Hy. unfold convert_time_formats. cbn [parse_formats].
  now rewrite strptime_strftime_datetime.
Qed.

(** ** [convert_time] there and back *)


Lemma convert_time_resolved tzdata time_str A B dt za zb :
  parse_formats time_str convert_time_formats = Some dt ->
  zone_of tzdata A = ret za ->
  zone_of tzdata B = ret zb ->
  convert_time tzdata time_str A B
  = match astimezone (mkaware dt false za) zb with
    | Some target_dt =>
        ret [ ("from", zone_mapping (mkaware dt false za) A);
              ("to", zone_mapping target_dt B) ]
    | None => raise overflow_error
    end.
Proof.
  intros Hp HA HB. unfold convert_time. rewrite Hp, HA, HB.
  cbn [bind try_except].
  destruct (astimezone (mkaware dt false za) zb); reflexivity.
Qed.






(** It fails as well on the later of two equal wall-clock times: 06:30 UTC
    on 2024-11-03 is 01:30 in New York for the second time that night, and
    01:30 read back is the first one, 05:30 UTC. *)
Example round_trip_repeated_time :
  ~ round_trip example_tzdata "2024-11-03 06:30:00" "UTC" "America/New_York".
Proof.
  intros (d1 & d2 & text & name & H1 & Hto & H2 & _ & Heq).
  vm_compute in H1. injection H1 as <-.
  vm_compute in Hto. injection Hto as <- <-.
  vm_compute in H2. injection H2 as <-.
  vm_compute in Heq. discriminate Heq.
Qed.

(** And it fails before year 1000, even from a zone to itself: the
    accepted text ["0999-06-15 12:00:00"] is printed as
    ["999-06-15 12:00:00"], which no format accepts, so the way back
    returns the error mapping. *)
Example round_trip_early_year :
  ~ round_trip example_tzdata "0999-06-15 12:00:00" "UTC" "UTC".
Proof.
  intros (d1 & d2 & text & name & H1 & Hto & H2 & _ & Heq).
  vm_compute in H1. injection H1 as <-.
  vm_compute in Hto. injection Hto as <- <-.
  vm_compute in H2. injection H2 as <-.
  vm_compute in Heq. discriminate Heq.
Qed.

(* ================================================================= *)
(** * Further properties of the tools *)

(** ** [get_datetime] *)

Lemma zone_of_cases tzdata name :
  (name = "UTC" /\ zone_of tzdata name = ret timezone_utc)
  \/ (name <> "UTC" /\ exists z, tzdata name = inl z
                                 /\ zone_of tzdata name = ret (ZoneInfoObj name z))
  \/ (name <> "UTC" /\ exists e, tzdata name = inr e
                                 /\ zone_of tzdata name = raise e).
Proof.
  unfold zone_of, ZoneInfo.
  destruct (String.eqb_spec name "UTC") as [E | E]; cbn [negb].
  - left. split; [ exact E | reflexivity ].
  - destruct (tzdata name) as [z | e].
    + right. left. split; [ exact E | ]. exists z. split; reflexivity.
    + right. right. split; [ exact E | ]. exists e. split; reflexivity.
Qed.

Lemma get_datetime_named_run tzdata c name format :
  name <> "" ->
  run c (get_datetime tzdata (Some name) format)
  = match run c (zone_of tzdata name) with
    | Returned zone =>
        match run c (datetime_now_in zone) with
        | Returned now => Returned (datetime_result now format)
        | Raised _ => Returned (error_mapping ("Invalid timezone: " ++ name))
        end
    | Raised _ => Returned (error_mapping ("Invalid timezone: " ++ name))
    end.
Proof.
  intros Hne. unfold get_datetime. rewrite (truthy_nonempty name Hne).
  rewrite run_bind, run_try_except, run_bind.
  destruct (run c (zone_of tzdata name)) as [zone | e]; [ | reflexivity ].
  rewrite run_bind.
  destruct (run c (datetime_now_in zone)) as [now | e]; reflexivity.
Qed.

Lemma datetime_now_in_run c zone :
  run c (datetime_now_in zone)
  = match datetime_add_seconds (now_local c) (- local_gmtoff c) with
    | Some utc =>
        match fromutc zone utc with
        | Some now => Returned now
        | None => Raised overflow_error
        end
    | None => Raised overflow_error
    end.
Proof.
  unfold datetime_now_in. cbn [run]. rewrite run_bind, run_or_raise.
  destruct (datetime_add_seconds _ _); [ | reflexivity ].
  rewrite run_or_raise. reflexivity.
Qed.

Lemma get_datetime_local_run tzdata c tz format :
  truthy tz = false ->
  run c (get_datetime tzdata tz format)
  = match datetime_add_seconds (now_local c) (- local_gmtoff c) with
    | Some utc =>
        match fromutc (timezone_fixed (local_gmtoff c) (local_zone c)) utc with
        | Some now => Returned (datetime_result now format)
        | None => Raised overflow_error
        end
    | None => Raised overflow_error
    end.
Proof.
  intros Htz.
  assert (L : run c (bind datetime_now_astimezone
                          (fun now => ret (datetime_result now format)))
              = match datetime_add_seconds (now_local c) (- local_gmtoff c) with
                | Some utc =>
                    match fromutc (timezone_fixed (local_gmtoff c) (local_zone c))
                                  utc with
                    | Some now => Returned (datetime_result now format)
                    | None => Raised overflow_error
                    end
                | None => Raised overflow_error
                end).
  { rewrite run_bind. unfold datetime_now_astimezone. cbn [run].
    rewrite run_bind, run_or_raise.
    destruct (datetime_add_seconds _ _); [ | reflexivity ].
    rewrite run_or_raise. destruct (fromutc _ _); reflexivity. }
  unfold get_datetime. destruct tz as [name | ]; [ rewrite Htz | ]; exact L.
Qed.

Lemma fromutc_tz zone utc now : fromutc zone utc = Some now -> tz now = zone.
Proof.
  unfold fromutc. destruct (datetime_add_seconds _ _); [ | discriminate ].
  cbn. intros H. inversion H. reflexivity.
Qed.

(** X1.  [get_datetime] with a non-empty [tz] never raises.  It returns
    either the mapping of a datetime whose zone prints as the requested
    name, or the single-field mapping ["Invalid timezone: <tz>"], which
    names the argument whatever made the [try] block fail.  For a name
    other than "UTC" that the database rejects, it returns that error
    without reading the clock. *)
Theorem get_datetime_named_zone :
  forall tzdata c name format,
    name <> "" ->
    ((exists now,
         run c (get_datetime tzdata (Some name) format)
         = Returned (datetime_result now format)
         /\ tzname (tz now) = name)
     \/ run c (get_datetime tzdata (Some name) format)
        = Returned (error_mapping ("Invalid timezone: " ++ name)))
    /\ (name <> "UTC" -> (exists e, tzdata name = inr e) ->
        run c (get_datetime tzdata (Some name) format)
        = Returned (error_mapping ("Invalid timezone: " ++ name))
        /\ clock_reads c (get_datetime tzdata (Some name) format) = 0%nat).
Proof.
  intros tzdata c name format Hne. split.
  - rewrite (get_datetime_named_run tzdata c name format Hne).
    destruct (zone_of_cases tzdata name)
      as [(E & Hz) | [(_ & z & _ & Hz) | (_ & e & _ & Hz)]];
      rewrite Hz; cbn [run]; [ | | right; reflexivity ];
      rewrite datetime_now_in_run;
      (destruct (datetime_add_seconds _ _) as [utc | ]; [ | right; reflexivity ]);
      (destruct (fromutc _ utc) as [now | ] eqn:F; [ | right; reflexivity ]);
      left; exists now; (split; [ reflexivity | ]);
      rewrite (fromutc_tz _ _ _ F); [ symmetry; exact E | reflexivity ].
  - intros Hutc (e & He).
    unfold get_datetime, zone_of, ZoneInfo.
    rewrite (truthy_nonempty name Hne).
    destruct (String.eqb_spec name "UTC") as [E | _]; [ contradiction | ].
    rewrite He. split; reflexivity.
Qed.

Lemma get_datetime_named_zone_witness :
  run example_clock (get_datetime example_tzdata (Some "Mars/Olympus") (Some "unix"))
  = Returned (error_mapping "Invalid timezone: Mars/Olympus")
  /\ clock_reads example_clock
       (get_datetime example_tzdata (Some "Mars/Olympus") (Some "unix")) = 0%nat.
Proof.
  apply (get_datetime_named_zone example_tzdata example_clock "Mars/Olympus"
           (Some "unix")).
  - discriminate.
  - discriminate.
  - eexists. reflexivity.
Defined.

Lemma get_datetime_returned tzdata c tz format d :
  run c (get_datetime tzdata tz format) = Returned d ->
  error_only d \/ exists now, d = datetime_result now format.
Proof.
  destruct (truthy tz) eqn:T.
  - destruct tz as [name | ]; [ | discriminate ].
    assert (Hne : name <> "") by (intros ->; discriminate).
    rewrite (get_datetime_named_run tzdata c name format Hne).
    destruct (run c (zone_of tzdata name)) as [zone | e];
      [ destruct (run c (datetime_now_in zone)) as [now | e] | ];
      intros H; inversion H; subst;
      [ right; exists now; reflexivity | left; eexists; reflexivity
      | left; eexists; reflexivity ].
  - rewrite (get_datetime_local_run tzdata c tz format T).
    destruct (datetime_add_seconds _ _) as [utc | ]; [ | discriminate ].
    destruct (fromutc _ utc) as [now | ]; [ | discriminate ].
    intros H; inversion H; subst. right. exists now. reflexivity.
Qed.

Lemma weekday_range dt : 0 <= weekday dt < 7.
Proof. unfold weekday. divlia. Qed.

Lemma strftime_A_name dt : In (strftime_A dt) DAY_NAMES.
Proof.
  unfold strftime_A. pose proof (weekday_range dt) as H.
  assert (E : weekday dt = 0 \/ weekday dt = 1 \/ weekday dt = 2 \/ weekday dt = 3
              \/ weekday dt = 4 \/ weekday dt = 5 \/ weekday dt = 6) by lia.
  destruct E as [E | [E | [E | [E | [E | [E | E]]]]]]; rewrite E; cbn; tauto.
Qed.

(** X2.  Whatever [get_datetime] returns is either an error mapping or a
    mapping with the key [day_of_week] holding one of the seven English
    day names.  The formats "iso8601", "unix" and "human" give exactly two
    keys; any other format (absent, empty or unknown, such as "ISO8601")
    gives the full response of eight keys, not an error. *)
Theorem get_datetime_day_of_week :
  forall tzdata c tz format d,
    run c (get_datetime tzdata tz format) = Returned d ->
    error_only d
    \/ ((exists name, get "day_of_week" d = Some (VStr name) /\ In name DAY_NAMES)
        /\ (format = Some "iso8601" -> keys d = ["day_of_week"; "iso8601"])
        /\ (format = Some "unix" -> keys d = ["day_of_week"; "unix_timestamp"])
        /\ (format = Some "human" -> keys d = ["day_of_week"; "human_readable"])
        /\ (format <> Some "iso8601" -> format <> Some "unix" ->
            format <> Some "human" ->
            keys d = ["day_of_week"; "date"; "time"; "timezone"; "utc_offset";
                      "iso8601"; "unix_timestamp"; "human_readable"])).
Proof.
  intros tzdata c tz format d H.
  destruct (get_datetime_returned tzdata c tz format d H) as [E | (now & ->)];
    [ left; exact E | right ].
  unfold datetime_result. cbv zeta.
  destruct format as [f | ].
  - destruct (String.eqb_spec f "iso8601") as [E1 | E1];
      [ | destruct (String.eqb_spec f "unix") as [E2 | E2];
          [ | destruct (String.eqb_spec f "human") as [E3 | E3] ] ];
      (split; [ eexists; split; [ reflexivity | apply strftime_A_name ] | ]);
      subst; repeat split; intros; try reflexivity; try discriminate;
      congruence.
  - split; [ eexists; split; [ reflexivity | apply strftime_A_name ] | ].
    repeat split; intros; try reflexivity; discriminate.
Qed.

Lemma get_datetime_day_of_week_witness :
  exists d,
    run example_clock (get_datetime example_tzdata (Some "UTC") (Some "ISO8601"))
    = Returned d
    /\ get "day_of_week" d = Some (VStr "Wednesday")
    /\ keys d = ["day_of_week"; "date"; "time"; "timezone"; "utc_offset";
                 "iso8601"; "unix_timestamp"; "human_readable"].
Proof.
  eexists. split; [ vm_compute; reflexivity | ].
  split; [ reflexivity | ].
  pose proof (get_datetime_day_of_week example_tzdata example_clock (Some "UTC")
                (Some "ISO8601") _ eq_refl) as [(message & E) | (_ & _ & _ & _ & K)].
  - discriminate E.
  - apply K; discriminate.
Defined.

(** *** The offset of a zone at the time it produced

    [ZoneInfo.fromutc] picks an offset by the UTC transitions and sets
    [fold]; [utcoffset] finds it again from the wall-clock time and the
    [fold]. *)

Lemma find_trans_utc_passed rest :
  forall ts t cur off p c l,
    t <= ts ->
    ordered_transitions cur ((t, off) :: rest) = true ->
    find_trans_utc ts cur off (Some t) rest = (p, c, l) ->
    exists t_l,
      l = Some t_l /\ t_l <= ts
      /\ ((t_l = t /\ c = off /\ p = cur) \/ t + Z.max cur off <= t_l + Z.min p c).
Proof.
  induction rest as [ | [t' off'] rest IH]; intros ts t cur off p c l Ht Hord H.
  - cbn in H. inversion H; subst. exists t. repeat split; auto.
  - cbn [find_trans_utc] in H. cbn [ordered_transitions] in Hord.
    apply andb_true_iff in Hord. destruct Hord as (Hstep & Hord).
    apply Z.leb_le in Hstep.
    destruct (Z.leb_spec t' ts) as [Hle | Hgt].
    + destruct (IH ts t' off off' p c l Hle Hord H) as (t_l & -> & Hl & Hcase).
      exists t_l. split; [ reflexivity | ]. split; [ exact Hl | ].
      right. destruct Hcase as [(-> & -> & ->) | Hchain]; lia.
    + inversion H; subst. exists t. repeat split; auto.
Qed.

Lemma find_trans_local_fromutc trans :
  forall prev cur last ts,
    ordered_transitions cur trans = true ->
    match last with
    | Some t0 =>
        t0 <= ts
        /\ match trans with
           | (t', off') :: _ => t0 + Z.max prev cur <= t' + Z.min cur off'
           | [] => True
           end
    | None => True
    end ->
    let '(p, c, l) := find_trans_utc ts prev cur last trans in
    find_trans_local (match l with
                      | Some t0 => ts - t0 <? p - c
                      | None => false
                      end) (ts + c) cur trans = c.
Proof.
  induction trans as [ | [t off] rest IH]; intros prev cur last ts Hord Hlast.
  - reflexivity.
  - cbn [find_trans_utc].
    destruct (Z.leb_spec t ts) as [Hle | Hgt].
    + assert (Hord' : ordered_transitions off rest = true).
      { cbn [ordered_transitions] in Hord. apply andb_true_iff in Hord. tauto. }
      assert (Hpre : t <= ts
                     /\ match rest with
                        | (t', off') :: _ => t + Z.max cur off <= t' + Z.min off off'
                        | [] => True
                        end).
      { split; [ exact Hle | ]. cbn [ordered_transitions] in Hord.
        destruct rest as [ | [t' off'] rest']; [ exact I | ].
        apply andb_true_iff in Hord. destruct Hord as (Hstep & _).
        apply Z.leb_le in Hstep. exact Hstep. }
      specialize (IH cur off (Some t) ts Hord' Hpre).
      destruct (find_trans_utc ts cur off (Some t) rest) as [[p c] l] eqn:F.
      destruct (find_trans_utc_passed rest ts t cur off p c l Hle Hord F)
        as (t_l & -> & Hl & Hcase).
      cbn [find_trans_local].
      assert (Hgo : forall fd : bool,
                 fd = (ts - t_l <? p - c) ->
                 (t + (if fd then Z.min cur off else Z.max cur off) <=? ts + c) = true).
      { intros fd Hfd. apply Z.leb_le.
        destruct Hcase as [(-> & -> & ->) | Hchain].
        - destruct fd; symmetry in Hfd;
            [ apply Z.ltb_lt in Hfd | apply Z.ltb_ge in Hfd ]; lia.
        - destruct fd; lia. }
      rewrite (Hgo _ eq_refl). exact IH.
    + cbn [find_trans_local].
      assert (Hstop : (t + (if match last with
                                | Some t0 => ts - t0 <? prev - cur
                                | None => false
                                end then Z.min cur off else Z.max cur off)
                       <=? ts + cur) = false).
      { apply Z.leb_gt. destruct last as [t0 | ]; [ | lia ].
        destruct Hlast as (H0 & Hnext).
        destruct (Z.ltb_spec (ts - t0) (prev - cur)); lia. }
      rewrite Hstop. reflexivity.
Qed.

Lemma local_timestamp_wall dt :
  local_timestamp dt = wall_seconds dt - EPOCHORDINAL * 86400.
Proof. unfold local_timestamp, wall_seconds. lia. Qed.

Lemma fromutc_fields zone utc now :
  fromutc zone utc = Some now ->
  wall_seconds (naive now) = wall_seconds utc + fromutc_offset zone utc
  /\ microsecond (naive now) = microsecond utc
  /\ fold now = fromutc_fold zone utc
  /\ tz now = zone.
Proof.
  unfold fromutc, datetime_add_seconds.
  destruct (datetime_of_seconds _ _) as [d | ] eqn:E; [ | discriminate ].
  cbn. intros H. inversion H; subst. cbn.
  destruct (datetime_of_seconds_wall _ _ _ E) as (Hw & Hus & _).
  repeat split; assumption.
Qed.

Lemma utcoffset_fromutc zone utc now :
  ordered_tzinfo zone = true ->
  fromutc zone utc = Some now ->
  utcoffset now = fromutc_offset zone utc.
Proof.
  intros Hord H.
  destruct (fromutc_fields zone utc now H) as (Hw & _ & Hfold & Htz).
  unfold utcoffset. rewrite Htz, Hfold.
  destruct zone as [ | off name | key z]; [ reflexivity | reflexivity | ].
  rewrite (local_timestamp_wall (naive now)), Hw.
  cbn [fromutc_offset fromutc_fold]. cbn [ordered_tzinfo] in Hord.
  pose proof (find_trans_local_fromutc (transitions z) (utcoff_before z)
                (utcoff_before z) None (local_timestamp utc) Hord I) as L.
  destruct (find_trans_utc _ _ _ _ _) as [[p c] l].
  cbn beta iota.
  replace (wall_seconds utc + c - EPOCHORDINAL * 86400)
    with (local_timestamp utc + c) by (rewrite local_timestamp_wall; lia).
  exact L.
Qed.

Lemma timestamp_fromutc zone utc now :
  ordered_tzinfo zone = true ->
  fromutc zone utc = Some now ->
  timestamp now
  = int_truediv (local_timestamp utc * 1000000 + microsecond utc) 1000000.
Proof.
  intros Hord H. unfold timestamp.
  rewrite (utcoffset_fromutc zone utc now Hord H).
  destruct (fromutc_fields zone utc now H) as (Hw & Hus & _).
  rewrite Hus, !local_timestamp_wall, Hw. f_equal. lia.
Qed.

Lemma zone_of_ordered tzdata name zone :
  ordered_tzdata tzdata -> zone_of tzdata name = ret zone ->
  ordered_tzinfo zone = true.
Proof.
  intros Hdb.
  destruct (zone_of_cases tzdata name)
    as [(_ & ->) | [(_ & z & Hz & ->) | (_ & e & _ & ->)]];
    intros H; inversion H; subst; [ reflexivity | ].
  exact (Hdb name z Hz).
Qed.

Lemma unix_field now :
  get "unix_timestamp" (datetime_result now (Some "unix"))
  = Some (VInt (float_int (timestamp now))).
Proof. reflexivity. Qed.

Lemma example_tzdata_ordered : ordered_tzdata example_tzdata.
Proof.
  intros key z. unfold example_tzdata.
  destruct (String.eqb key "America/New_York"); [ | discriminate ].
  intros H. inversion H. reflexivity.
Qed.

(** X3.  The Unix timestamp does not depend on the zone.  Over a database
    whose zones have ordered transitions and for one reading of the
    clock, [get_datetime] with format "unix" reports the same
    [unix_timestamp] without a zone and with any zone it accepts. *)
Theorem unix_timestamp_zone_independent :
  forall tzdata c name d1 d2,
    ordered_tzdata tzdata ->
    run c (get_datetime tzdata None (Some "unix")) = Returned d1 ->
    run c (get_datetime tzdata (Some name) (Some "unix")) = Returned d2 ->
    has_key "error" d2 = false ->
    exists n,
      get "unix_timestamp" d1 = Some (VInt n)
      /\ get "unix_timestamp" d2 = Some (VInt n).
Proof.
  intros tzdata c name d1 d2 Hdb H1 H2 Hok.
  rewrite (get_datetime_local_run tzdata c None (Some "unix") eq_refl) in H1.
  destruct (datetime_add_seconds (now_local c) (- local_gmtoff c)) as [utc | ] eqn:U;
    [ | discriminate ].
  assert (Hutc : local_timestamp utc * 1000000 + microsecond utc
                 = (local_timestamp (now_local c) - local_gmtoff c) * 1000000
                   + microsecond (now_local c)).
  { destruct (datetime_of_seconds_wall _ _ _ U) as (Hw & Hus & _).
    rewrite Hus, !local_timestamp_wall, Hw. lia. }
  destruct (fromutc _ utc) as [now1 | ] eqn:F1; [ | discriminate ].
  assert (Hlocal : ordered_tzinfo (timezone_fixed (local_gmtoff c) (local_zone c))
                   = true) by reflexivity.
  injection H1 as <-.
  eexists.
  rewrite unix_field, (timestamp_fromutc _ utc now1 Hlocal F1), Hutc.
  split; [ reflexivity | ].
  destruct (truthy (Some name)) eqn:T.
  - assert (Hne : name <> "") by (intros ->; discriminate).
    rewrite (get_datetime_named_run tzdata c name (Some "unix") Hne) in H2.
    destruct (zone_of_cases tzdata name)
      as [(_ & Hz) | [(_ & z & _ & Hz) | (_ & e & _ & Hz)]];
      rewrite Hz in H2; cbn [run] in H2;
      [ | | injection H2 as <-; discriminate Hok ];
      rewrite datetime_now_in_run, U in H2;
      (match type of H2 with
       | context [fromutc ?zone utc] =>
           destruct (fromutc zone utc) as [now2 | ] eqn:F2
       end; [ | injection H2 as <-; discriminate Hok ]);
      injection H2 as <-;
      rewrite unix_field,
        (timestamp_fromutc _ _ _ (zone_of_ordered tzdata name _ Hdb Hz) F2), Hutc;
      reflexivity.
  - rewrite (get_datetime_local_run tzdata c (Some name) (Some "unix") T), U, F1 in H2.
    injection H2 as <-.
    rewrite unix_field, (timestamp_fromutc _ utc now1 Hlocal F1), Hutc.
    reflexivity.
Qed.

Lemma unix_timestamp_zone_independent_witness :
  exists d1 d2 n,
    run example_clock (get_datetime example_tzdata None (Some "unix")) = Returned d1
    /\ run example_clock
         (get_datetime example_tzdata (Some "America/New_York") (Some "unix"))
       = Returned d2
    /\ get "unix_timestamp" d1 = Some (VInt n)
    /\ get "unix_timestamp" d2 = Some (VInt n).
Proof.
  destruct (unix_timestamp_zone_independent example_tzdata example_clock
              "America/New_York"
              [ ("day_of_week", VStr "Wednesday"); ("unix_timestamp", VInt 1793802615) ]
              [ ("day_of_week", VStr "Wednesday"); ("unix_timestamp", VInt 1793802615) ]
              example_tzdata_ordered
              ltac:(vm_compute; reflexivity) ltac:(vm_compute; reflexivity) eq_refl)
    as (n & H1 & H2).
  eexists. eexists. exists n.
  split; [ vm_compute; reflexivity | ].
  split; [ vm_compute; reflexivity | ].
  split; [ exact H1 | exact H2 ].
Defined.

Lemma get_datetime_runs tzdata c utc :
  valid_datetime (now_local c) = true ->
  datetime_add_seconds (now_local c) (- local_gmtoff c) = Some utc ->
  run c (get_datetime tzdata None None)
  = Returned (datetime_result
                (mkaware (now_local c) false
                         (timezone_fixed (local_gmtoff c) (local_zone c))) None)
  /\ run c (get_datetime tzdata (Some "UTC") None)
     = Returned (datetime_result (mkaware utc false timezone_utc) None)
  /\ wall_seconds utc = wall_seconds (now_local c) - local_gmtoff c.
Proof.
  intros Hv U.
  pose proof U as U'. unfold datetime_add_seconds in U'.
  destruct (datetime_of_seconds_wall _ _ _ U') as (Hw & Hus & Hvu).
  assert (Hvutc : valid_datetime utc = true).
  { apply Hvu. apply valid_datetime_spec in Hv. tauto. }
  split; [ | split; [ | lia ] ].
  - rewrite (get_datetime_local_run tzdata c None None eq_refl), U.
    unfold fromutc, datetime_add_seconds. cbn [fromutc_offset fromutc_fold].
    replace (wall_seconds utc + local_gmtoff c) with (wall_seconds (now_local c))
      by lia.
    rewrite Hus, (datetime_of_seconds_of_wall _ Hv). reflexivity.
  - rewrite (get_datetime_named_run tzdata c "UTC" None ltac:(discriminate)).
    change (zone_of tzdata "UTC") with (@ret tzinfo timezone_utc). cbn [run].
    rewrite datetime_now_in_run, U.
    unfold fromutc, datetime_add_seconds. cbn [fromutc_offset fromutc_fold].
    rewrite Z.add_0_r, (datetime_of_seconds_of_wall _ Hvutc). reflexivity.
Qed.

(** X4.  For a clock whose local time is a valid datetime and whose UTC
    time is in range, the full response of [get_datetime] without a zone
    shows the local wall-clock time of the clock, the name of the local
    zone and its offset; with [tz = "UTC"] it shows the wall-clock time
    moved back by the local offset, the zone "UTC" and the offset
    "+0000". *)
Theorem get_datetime_wall_clock :
  forall tzdata c utc,
    valid_datetime (now_local c) = true ->
    datetime_add_seconds (now_local c) (- local_gmtoff c) = Some utc ->
    exists d1 d2,
      run c (get_datetime tzdata None None) = Returned d1
      /\ run c (get_datetime tzdata (Some "UTC") None) = Returned d2
      /\ get "date" d1 = Some (VStr (strftime_date (now_local c)))
      /\ get "time" d1 = Some (VStr (strftime_time (now_local c)))
      /\ get "day_of_week" d1 = Some (VStr (strftime_A (now_local c)))
      /\ get "timezone" d1 = Some (VStr (local_zone c))
      /\ get "utc_offset" d1 = Some (VStr (strftime_z (local_gmtoff c)))
      /\ get "date" d2 = Some (VStr (strftime_date utc))
      /\ get "time" d2 = Some (VStr (strftime_time utc))
      /\ get "day_of_week" d2 = Some (VStr (strftime_A utc))
      /\ get "timezone" d2 = Some (VStr "UTC")
      /\ get "utc_offset" d2 = Some (VStr "+0000")
      /\ wall_seconds utc = wall_seconds (now_local c) - local_gmtoff c.
Proof.
  intros tzdata c utc Hv U.
  destruct (get_datetime_runs tzdata c utc Hv U) as (H1 & H2 & Hw).
  eexists. eexists.
  split; [ exact H1 | ]. split; [ exact H2 | ].
  repeat (split; [ reflexivity | ]). exact Hw.
Qed.

Lemma get_datetime_wall_clock_witness :
  exists d1 d2,
    run example_clock (get_datetime example_tzdata None None) = Returned d1
    /\ run example_clock (get_datetime example_tzdata (Some "UTC") None) = Returned d2
    /\ get "time" d1 = Some (VStr "09:30:15")
    /\ get "utc_offset" d1 = Some (VStr "-0500")
    /\ get "time" d2 = Some (VStr "14:30:15").
Proof.
  destruct (get_datetime_wall_clock example_tzdata example_clock
              (mkdatetime 2026 11 4 14 30 15 123456) eq_refl eq_refl)
    as (d1 & d2 & H1 & H2 & _ & T1 & _ & _ & O1 & _ & T2 & _).
  exists d1, d2.
  split; [ exact H1 | ]. split; [ exact H2 | ].
  split; [ exact T1 | ]. split; [ exact O1 | exact T2 ].
Defined.

(** ** [relative_time] *)

Lemma delta_seconds_swap a b : delta_seconds b a = - delta_seconds a b.
Proof. unfold delta_seconds. lia. Qed.

(** X5.  Exchanging target and reference in [relative_time] (both
    parseable) negates [total_seconds]; the two [days_difference] values
    add up to 0 when the delta is a whole number of days and to -1
    otherwise (each is a floor); equal instants give "now" both ways, and
    for a positive delta the two phrases are "in <desc>" and
    "<desc> ago" with the same description. *)
Theorem relative_time_swap :
  forall a b ta tb,
    parse_formats a relative_time_formats = Some ta ->
    parse_formats b relative_time_formats = Some tb ->
    exists d1 d2 n k1 k2,
      relative_time a (Some b) = ret d1
      /\ relative_time b (Some a) = ret d2
      /\ get "total_seconds" d1 = Some (VInt n)
      /\ get "total_seconds" d2 = Some (VInt (- n))
      /\ get "days_difference" d1 = Some (VInt k1)
      /\ get "days_difference" d2 = Some (VInt k2)
      /\ k1 + k2 = (if n mod 86400 =? 0 then 0 else -1)
      /\ (n = 0 ->
          get "relative" d1 = Some (VStr "now")
          /\ get "relative" d2 = Some (VStr "now"))
      /\ (0 < n ->
          exists desc,
            get "relative" d1 = Some (VStr ("in " ++ desc))
            /\ get "relative" d2 = Some (VStr (desc ++ " ago"))).
Proof.
  intros a b ta tb Ha Hb.
  pose proof (parsed_nonempty a ta Ha) as Hna.
  pose proof (parsed_nonempty b tb Hb) as Hnb.
  eexists. eexists. exists (delta_seconds ta tb).
  exists (delta_seconds ta tb / 86400), (- delta_seconds ta tb / 86400).
  split; [ exact (relative_time_parsed a b ta tb Ha Hnb Hb) | ].
  split; [ exact (relative_time_parsed b a tb ta Hb Hna Ha) | ].
  rewrite (delta_seconds_swap ta tb). cbn [get String.eqb Ascii.eqb Bool.eqb].
  set (n := delta_seconds ta tb).
  repeat (split; [ reflexivity | ]).
  split; [ destruct (Z.eqb_spec (n mod 86400) 0); divlia | ].
  split.
  - intros ->. split; reflexivity.
  - intros Hpos. unfold spec_phrase. rewrite Z.abs_opp.
    destruct (Z.ltb_spec (Z.abs n) 1) as [Hlt | _]; [ lia | ].
    destruct (spec_tier (Z.abs n)) as [t value].
    destruct (Z.ltb_spec 0 n) as [_ | Hle]; [ | lia ].
    destruct (Z.ltb_spec 0 (- n)) as [Hlt | _]; [ lia | ].
    exists (str value ++ " " ++ unit_name t value).
    split; [ reflexivity | rewrite !append_assoc; reflexivity ].
Qed.

Lemma relative_time_swap_witness :
  exists d1 d2,
    relative_time "2024-01-01T06:00:00" (Some "2024-01-01") = ret d1
    /\ relative_time "2024-01-01" (Some "2024-01-01T06:00:00") = ret d2
    /\ get "relative" d1 = Some (VStr "in 6 hours")
    /\ get "relative" d2 = Some (VStr "6 hours ago")
    /\ get "days_difference" d1 = Some (VInt 0)
    /\ get "days_difference" d2 = Some (VInt (-1)).
Proof.
  destruct (relative_time_swap "2024-01-01T06:00:00" "2024-01-01"
              (mkdatetime 2024 1 1 6 0 0 0) (mkdatetime 2024 1 1 0 0 0 0)
              eq_refl eq_refl)
    as (d1 & d2 & n & k1 & k2 & H1 & H2 & _).
  exists d1, d2. split; [ exact H1 | ]. split; [ exact H2 | ].
  vm_compute in H1. vm_compute in H2.
  injection H1 as <-. injection H2 as <-.
  repeat split; reflexivity.
Defined.

Lemma wall_seconds_range dt :
  valid_datetime dt = true ->
  86400 <= wall_seconds dt <= MAXORDINAL * 86400 + 86399.
Proof.
  intros Hv. pose proof Hv as Hv'. apply valid_datetime_spec in Hv'.
  destruct Hv' as [_ (Hh & Hm & Hs & _)].
  unfold valid_datetime in Hv. apply andb_true_iff in Hv. destruct Hv as (Hd & _).
  pose proof (ymd2ord_range _ _ _ Hd) as R.
  unfold wall_seconds, toordinal, MAXORDINAL in *. lia.
Qed.

Lemma spec_tier_bounds m t value :
  1 <= m <= 3652058 * 86400 + 86399 ->
  spec_tier m = (t, value) ->
  1 <= value
  /\ match t with
     | Years => value <= 10005
     | Months => value <= 12
     | Weeks => value <= 4
     | Days => value <= 6
     | Hours => value <= 23
     | Minutes | Seconds => value <= 59
     end.
Proof.
  intros Hm. unfold spec_tier. cbv zeta.
  destruct (Z.leb_spec 365 (m / 86400));
    [ intros [= <- <-]; divlia | ].
  destruct (Z.leb_spec 30 (m / 86400));
    [ intros [= <- <-]; divlia | ].
  destruct (Z.leb_spec 7 (m / 86400));
    [ intros [= <- <-]; divlia | ].
  destruct (Z.leb_spec 1 (m / 86400));
    [ intros [= <- <-]; divlia | ].
  destruct (Z.ltb_spec 0 (m mod 86400 / 3600));
    [ intros [= <- <-]; divlia | ].
  destruct (Z.ltb_spec 0 (m mod 3600 / 60));
    [ intros [= <- <-]; divlia | ].
  intros [= <- <-]; divlia.
Qed.

(** X6.  For a parseable target and reference at different instants the
    phrase of [relative_time] is never "now" and its number is at least
    1: at most 59 seconds or minutes, 23 hours, 6 days, 4 weeks and 12
    months (a delta of 360 to 364 days is "12 months"), and at most 10005
    years, since a year counts as 365 days. *)
Theorem relative_time_value_bounds :
  forall a b ta tb,
    parse_formats a relative_time_formats = Some ta ->
    parse_formats b relative_time_formats = Some tb ->
    delta_seconds ta tb <> 0 ->
    exists d t value,
      relative_time a (Some b) = ret d
      /\ get "relative" d
         = Some (VStr (if 0 <? delta_seconds ta tb
                       then "in " ++ str value ++ " " ++ unit_name t value
                       else str value ++ " " ++ unit_name t value ++ " ago"))
      /\ 1 <= value
      /\ match t with
         | Years => value <= 10005
         | Months => value <= 12
         | Weeks => value <= 4
         | Days => value <= 6
         | Hours => value <= 23
         | Minutes | Seconds => value <= 59
         end.
Proof.
  intros a b ta tb Ha Hb Hne.
  pose proof (parsed_nonempty b tb Hb) as Hnb.
  destruct (parse_formats_valid _ _ _ Ha) as (Hva & _).
  destruct (parse_formats_valid _ _ _ Hb) as (Hvb & _).
  pose proof (wall_seconds_range ta Hva) as Ra.
  pose proof (wall_seconds_range tb Hvb) as Rb.
  assert (Hm : 1 <= Z.abs (delta_seconds ta tb) <= 3652058 * 86400 + 86399)
    by (unfold delta_seconds, MAXORDINAL in *; lia).
  destruct (spec_tier (Z.abs (delta_seconds ta tb))) as [t value] eqn:E.
  destruct (spec_tier_bounds _ _ _ Hm E) as (H1 & Hmax).
  eexists. exists t, value.
  split; [ exact (relative_time_parsed a b ta tb Ha Hnb Hb) | ].
  split; [ | split; assumption ].
  cbn [get String.eqb Ascii.eqb Bool.eqb]. unfold spec_phrase. rewrite E.
  destruct (Z.ltb_spec (Z.abs (delta_seconds ta tb)) 1); [ lia | reflexivity ].
Qed.

Lemma relative_time_value_bounds_witness :
  exists d,
    relative_time "2024-12-30" (Some "2024-01-01") = ret d
    /\ get "relative" d = Some (VStr "in 12 months").
Proof.
  destruct (relative_time_value_bounds "2024-12-30" "2024-01-01"
              (mkdatetime 2024 12 30 0 0 0 0) (mkdatetime 2024 1 1 0 0 0 0)
              eq_refl eq_refl ltac:(vm_compute; discriminate))
    as (d & t & value & H & _).
  exists d. split; [ exact H | ].
  vm_compute in H. injection H as <-. reflexivity.
Defined.

Lemma relative_time_dates a b ta tb :
  strptime a "%Y-%m-%d" = Some ta ->
  strptime b "%Y-%m-%d" = Some tb ->
  exists d,
    relative_time a (Some b) = ret d
    /\ get "days_difference" d = Some (VInt (toordinal ta - toordinal tb)).
Proof.
  intros Ha Hb.
  assert (Pa : parse_formats a relative_time_formats = Some ta)
    by (unfold relative_time_formats; cbn [parse_formats]; now rewrite Ha).
  assert (Pb : parse_formats b relative_time_formats = Some tb)
    by (unfold relative_time_formats; cbn [parse_formats]; now rewrite Hb).
  destruct (strptime_date_only a ta Ha) as (A1 & A2 & A3).
  destruct (strptime_date_only b tb Hb) as (B1 & B2 & B3).
  assert (E : delta_seconds ta tb = 86400 * (toordinal ta - toordinal tb))
    by (unfold delta_seconds, wall_seconds; lia).
  eexists.
  split; [ exact (relative_time_parsed a b ta tb Pa (parsed_nonempty b tb Pb) Pb) | ].
  cbn [get String.eqb Ascii.eqb Bool.eqb]. rewrite E.
  do 2 f_equal. divlia.
Qed.

(** X7.  When target and reference are both dates without a time
    (format [%Y-%m-%d]), [days_difference] is the difference of their day
    numbers in the proleptic Gregorian calendar and [total_seconds] is
    86400 times that. *)
Theorem relative_time_whole_days :
  forall a b ta tb,
    strptime a "%Y-%m-%d" = Some ta ->
    strptime b "%Y-%m-%d" = Some tb ->
    exists d,
      relative_time a (Some b) = ret d
      /\ get "days_difference" d = Some (VInt (toordinal ta - toordinal tb))
      /\ get "total_seconds" d
         = Some (VInt (86400 * (toordinal ta - toordinal tb))).
Proof.
  intros a b ta tb Ha Hb.
  assert (Pa : parse_formats a relative_time_formats = Some ta)
    by (unfold relative_time_formats; cbn [parse_formats]; now rewrite Ha).
  assert (Pb : parse_formats b relative_time_formats = Some tb)
    by (unfold relative_time_formats; cbn [parse_formats]; now rewrite Hb).
  destruct (strptime_date_only a ta Ha) as (A1 & A2 & A3).
  destruct (strptime_date_only b tb Hb) as (B1 & B2 & B3).
  assert (E : delta_seconds ta tb = 86400 * (toordinal ta - toordinal tb))
    by (unfold delta_seconds, wall_seconds; lia).
  eexists.
  split; [ exact (relative_time_parsed a b ta tb Pa (parsed_nonempty b tb Pb) Pb) | ].
  cbn [get String.eqb Ascii.eqb Bool.eqb]. rewrite E.
  split; [ | reflexivity ].
  do 2 f_equal. divlia.
Qed.

Lemma relative_time_whole_days_witness :
  exists d,
    relative_time "2024-03-01" (Some "2024-02-01") = ret d
    /\ get "days_difference" d = Some (VInt 29)
    /\ get "total_seconds" d = Some (VInt 2505600).
Proof.
  exact (relative_time_whole_days "2024-03-01" "2024-02-01"
           (mkdatetime 2024 3 1 0 0 0 0) (mkdatetime 2024 2 1 0 0 0 0)
           eq_refl eq_refl).
Defined.

Lemma datetime_sub_general a b :
  0 <= microsecond a <= 999999 -> 0 <= microsecond b <= 999999 ->
  let T := delta_seconds a b * 1000000 + (microsecond a - microsecond b) in
  total_seconds (datetime_sub a b) = int_truediv T 1000000
  /\ days (datetime_sub a b) = T / 86400000000.
Proof.
  intros Ha Hb. unfold datetime_sub, new_timedelta, total_seconds, delta_seconds,
    wall_seconds. cbn [days seconds microseconds].
  set (D := toordinal a - toordinal b).
  set (S1 := second a + minute a * 60 + hour a * 3600).
  set (S2 := second b + minute b * 60 + hour b * 3600).
  replace (toordinal a * 86400 + hour a * 3600 + minute a * 60 + second a
           - (toordinal b * 86400 + hour b * 3600 + minute b * 60 + second b))
    with (D * 86400 + (S1 - S2)) by (subst D S1 S2; lia).
  set (S := S1 - S2). set (u := microsecond a - microsecond b).
  assert (Hu : -999999 <= u <= 999999) by (subst u; lia).
  clearbody D S u. clear - Hu.
  split.
  - f_equal.
    pose proof (Z.div_mod u 1000000 ltac:(lia)) as E1.
    pose proof (Z.div_mod (S + u / 1000000) 86400 ltac:(lia)) as E2.
    lia.
  - replace 86400000000 with (1000000 * 86400) by reflexivity.
    rewrite <- Z.div_div by lia.
    replace ((D * 86400 + S) * 1000000 + u) with (u + (D * 86400 + S) * 1000000) by lia.
    rewrite Z.div_add by lia.
    replace (u / 1000000 + (D * 86400 + S)) with (S + u / 1000000 + D * 86400) by lia.
    rewrite Z.div_add by lia. lia.
Qed.

(** X8.  Without a reference [relative_time] reads the clock once and
    echoes the reference "now"; the fraction of the current second
    counts.  [days_difference] is the floor of the delta to the clock in
    days, microseconds included; a delta of less than one second gives
    "now" with [total_seconds] 0; and a target equal to the current second
    of a clock that is past the start of that second gives
    [days_difference] -1. *)
Theorem relative_time_clock_reference :
  forall c date_str target,
    valid_datetime (now_local c) = true ->
    parse_formats date_str relative_time_formats = Some target ->
    let T := delta_seconds target (now_local c) * 1000000
             - microsecond (now_local c) in
    exists d,
      run c (relative_time date_str None) = Returned d
      /\ clock_reads c (relative_time date_str None) = 1%nat
      /\ get "reference" d = Some (VStr "now")
      /\ get "days_difference" d = Some (VInt (T / 86400000000))
      /\ (Z.abs T < 1000000 ->
          get "relative" d = Some (VStr "now")
          /\ get "total_seconds" d = Some (VInt 0))
      /\ (delta_seconds target (now_local c) = 0 ->
          0 < microsecond (now_local c) ->
          get "days_difference" d = Some (VInt (-1))).
Proof.
  intros c date_str target Hv Hp T.
  destruct (parse_formats_valid _ _ _ Hp) as (_ & Hus).
  apply valid_datetime_spec in Hv. destruct Hv as [_ (_ & _ & _ & Hnow)].
  destruct (datetime_sub_general target (now_local c) ltac:(lia) Hnow)
    as (Htot & Hdays).
  rewrite Hus in Htot, Hdays.
  replace (delta_seconds target (now_local c) * 1000000
           + (0 - microsecond (now_local c))) with T in Htot, Hdays by (subst T; lia).
  exists (relative_result date_str None target (now_local c)).
  split; [ unfold relative_time; rewrite Hp; reflexivity | ].
  split; [ unfold relative_time; rewrite Hp; reflexivity | ].
  unfold relative_result. cbv zeta. rewrite Htot, Hdays.
  cbn [get String.eqb Ascii.eqb Bool.eqb].
  split; [ reflexivity | ]. split; [ reflexivity | ].
  split.
  - intros Habs. pose proof (int_truediv_small T Habs) as Hsmall.
    destruct (Z.ltb_spec (Z.abs (int_truediv T 1000000)) ONE); [ | lia ].
    split; [ reflexivity | ]. do 2 f_equal.
    unfold float_int. apply Z.quot_small_iff; [ pose proof ONE_pos; lia | ].
    exact Hsmall.
  - intros Hzero Hpos. do 2 f_equal. subst T. rewrite Hzero. divlia.
Qed.

Lemma relative_time_clock_reference_witness :
  exists d,
    run example_clock (relative_time "2026-11-04T09:30:15" None) = Returned d
    /\ get "relative" d = Some (VStr "now")
    /\ get "total_seconds" d = Some (VInt 0)
    /\ get "days_difference" d = Some (VInt (-1)).
Proof.
  destruct (relative_time_clock_reference example_clock "2026-11-04T09:30:15"
              (mkdatetime 2026 11 4 9 30 15 0) eq_refl eq_refl)
    as (d & H & _ & _ & _ & Hnow & Hday).
  exists d. split; [ exact H | ].
  destruct (Hnow ltac:(vm_compute; reflexivity)) as (H1 & H2).
  split; [ exact H1 | ]. split; [ exact H2 | ].
  apply Hday; reflexivity.
Defined.

(** With the clock as reference [total_seconds] is a rounded float while
    [days_difference] comes from the exact delta.  One microsecond short
    of 219000 days is nearer to the double 18921600000.0 than to any other,
    so the phrase counts 600 years of 365 days and [total_seconds] is
    18921600000, while [days_difference] is 218999. *)
Example total_seconds_rounded :
  run (mkclock (mkdatetime 2026 11 4 9 30 15 1) (-18000) "EST")
      (relative_time "2626-06-12T09:30:15" None)
  = Returned [ ("target", VStr "2626-06-12T09:30:15");
               ("target_day_of_week", VStr "Monday");
               ("reference", VStr "now");
               ("relative", VStr "in 600 years");
               ("days_difference", VInt 218999);
               ("total_seconds", VInt 18921600000) ].
Proof. vm_compute. reflexivity. Qed.

(** X9.  An empty text given for an optional argument is the same as no
    argument: the [reference] of [relative_time], the [date_str] of
    [get_week_year] and the [tz] of [get_datetime] fall back to the clock.
    An empty text for a required one is an error: the target of
    [relative_time] and the [time_str] of [convert_time], whatever the
    other arguments are. *)
Theorem empty_text_arguments :
  forall tzdata date_str reference format from_tz to_tz,
    relative_time date_str (Some "") = relative_time date_str None
    /\ get_week_year (Some "") = get_week_year None
    /\ get_datetime tzdata (Some "") format = get_datetime tzdata None format
    /\ relative_time "" reference
       = ret (error_mapping
                "Invalid date format: . Use YYYY-MM-DD or YYYY-MM-DDTHH:MM:SS.")
    /\ convert_time tzdata "" from_tz to_tz
       = ret (error_mapping "Invalid time format: ").
Proof.
  intros tzdata date_str reference format from_tz to_tz.
  split; [ | repeat split ].
  unfold relative_time.
  destruct (parse_formats date_str relative_time_formats); reflexivity.
Qed.

(** ** [days_in_month] *)

Lemma days_in_month_reads_once c y m :
  clock_reads c (days_in_month y m) = 1%nat.
Proof.
  unfold days_in_month, datetime_now. cbn [bind clock_reads].
  destruct (now_local c) as [ny nm nd nh nmi ns nus].
  destruct (negb _); [ reflexivity | ].
  destruct (monthrange _ _) as [first_weekday num_days].
  destruct (new_datetime _ _ 1 0 0 0 0); [ | reflexivity ].
  destruct (new_datetime _ _ num_days 0 0 0 0); reflexivity.
Qed.

(** X10.  The three outcomes of [days_in_month], by the year and month in
    effect after the defaults from the clock.  A month outside 1..12 gives
    the error mapping that shows the month, even when the year is out of
    range; a month in 1..12 with a year outside 1..9999 raises the
    exception of the [datetime] constructor, the [ValueError]
    ["year <year> is out of range"] when the year fits a C [int] and an
    [OverflowError] when it does not; otherwise the call returns a mapping
    without an [error] key that echoes year and month and names the
    month.  In every case the clock is read exactly once. *)
Theorem days_in_month_outcomes :
  forall c y m,
    let yy := int_or y (year (now_local c)) in
    let mm := int_or m (month (now_local c)) in
    (mm < 1 \/ 12 < mm ->
     run c (days_in_month y m)
     = Returned (error_mapping ("Invalid month: " ++ str mm ++ ". Must be 1-12.")))
    /\ (1 <= mm <= 12 -> yy < 1 \/ 9999 < yy ->
        exists e,
          run c (days_in_month y m) = Raised e
          /\ (- 2147483648 <= yy <= 2147483647 ->
              e = mkexn ValueError ("year " ++ str yy ++ " is out of range"))
          /\ (yy < - 2147483648 \/ 2147483647 < yy ->
              exn_class e = OverflowError))
    /\ (1 <= mm <= 12 -> 1 <= yy <= 9999 ->
        exists d,
          run c (days_in_month y m) = Returned d
          /\ has_key "error" d = false
          /\ get "year" d = Some (VInt yy)
          /\ get "month" d = Some (VInt mm)
          /\ get "month_name" d = Some (VStr (nth (Z.to_nat mm) MONTH_NAMES "")))
    /\ clock_reads c (days_in_month y m) = 1%nat.
Proof.
  intros c y m yy mm. rewrite days_in_month_run. cbv zeta. fold yy mm.
  split; [ | split; [ | split ] ].
  - intros Hm.
    destruct (Z.leb_spec 1 mm); destruct (Z.leb_spec mm 12);
      cbn [andb negb]; try reflexivity; lia.
  - intros Hm Hy.
    destruct (Z.leb_spec 1 mm); [ | lia ]. destruct (Z.leb_spec mm 12); [ | lia ].
    cbn [andb negb].
    rewrite (new_datetime_year_out_of_range yy mm 1 0 0 0 0 Hy).
    exists (year_error yy). split; [ reflexivity | ].
    unfold year_error. split.
    + intros Hint.
      destruct (Z.ltb_spec yy (- 9223372036854775808)); [ lia | ].
      destruct (Z.ltb_spec 9223372036854775807 yy); [ lia | ].
      destruct (Z.ltb_spec 2147483647 yy); [ lia | ].
      destruct (Z.ltb_spec yy (- 2147483648)); [ lia | ].
      reflexivity.
    + intros Hbig.
      destruct (Z.ltb_spec yy (- 9223372036854775808));
        [ reflexivity | ].
      destruct (Z.ltb_spec 9223372036854775807 yy); [ reflexivity | ].
      destruct (Z.ltb_spec 2147483647 yy); [ reflexivity | ].
      destruct (Z.ltb_spec yy (- 2147483648)); [ reflexivity | lia ].
  - intros Hm Hy.
    destruct (Z.leb_spec 1 mm); [ | lia ]. destruct (Z.leb_spec mm 12); [ | lia ].
    cbn [andb negb].
    destruct (monthrange_days yy mm Hm) as (Hdim & _ & Hrange).
    rewrite !new_datetime_in_range by (rewrite <- ?Hdim; lia).
    eexists. split; [ reflexivity | ]. repeat split.
  - apply days_in_month_reads_once.
Qed.

Lemma days_in_month_outcomes_witness :
  run example_clock (days_in_month (Some 10000) (Some 13))
  = Returned (error_mapping "Invalid month: 13. Must be 1-12.")
  /\ (exists e,
        run example_clock (days_in_month (Some 10000) None) = Raised e
        /\ e = mkexn ValueError "year 10000 is out of range")
  /\ (exists e,
        run example_clock (days_in_month (Some 2147483648) (Some 1)) = Raised e
        /\ exn_class e = OverflowError).
Proof.
  split; [ | split ].
  - apply (days_in_month_outcomes example_clock (Some 10000) (Some 13)).
    right. reflexivity.
  - destruct (days_in_month_outcomes example_clock (Some 10000) None)
      as (_ & Hraise & _).
    destruct (Hraise ltac:(split; discriminate) ltac:(right; reflexivity))
      as (e & H & Hvalue & _).
    exists e. split; [ exact H | ].
    apply Hvalue. split; discriminate.
  - destruct (days_in_month_outcomes example_clock (Some 2147483648) (Some 1))
      as (_ & Hraise & _).
    destruct (Hraise ltac:(split; discriminate) ltac:(right; reflexivity))
      as (e & H & _ & Hclass).
    exists e. split; [ exact H | ].
    apply Hclass. right. reflexivity.
Defined.

Lemma weekday_of_day y m d :
  weekday (mkdatetime y m d 0 0 0 0)
  = (weekday (mkdatetime y m 1 0 0 0 0) + d - 1) mod 7.
Proof. unfold weekday, toordinal, ymd2ord. cbn [year month day]. divlia. Qed.

(** X11.  For a year from 1000 to 9999 and a month from 1 to 12,
    [days_in_month] reports between 28 and 31 days, the first day as
    [YYYY-MM-01] and the last day as [YYYY-MM-<days>], both zero padded,
    and the weekday of the last day is the weekday of the first day moved
    forward by [days - 1]. *)
Theorem days_in_month_first_last :
  forall c y m,
    1000 <= y <= 9999 -> 1 <= m <= 12 ->
    exists d n w,
      run c (days_in_month (Some y) (Some m)) = Returned d
      /\ get "days_in_month" d = Some (VInt n)
      /\ 28 <= n <= 31
      /\ 0 <= w < 7
      /\ get "first_day" d
         = Some (VDict [ ("date", VStr (pad4 y ++ "-" ++ pad2 m ++ "-01"));
                         ("day_of_week", VStr (nth (Z.to_nat w) DAY_NAMES "")) ])
      /\ get "last_day" d
         = Some (VDict [ ("date", VStr (pad4 y ++ "-" ++ pad2 m ++ "-" ++ pad2 n));
                         ("day_of_week",
                          VStr (nth (Z.to_nat ((w + n - 1) mod 7)) DAY_NAMES "")) ]).
Proof.
  intros c y m Hy Hm. rewrite days_in_month_run. cbv zeta.
  assert (Ey : int_or (Some y) (year (now_local c)) = y)
    by (cbn; destruct (Z.eqb_spec y 0); [ lia | reflexivity ]).
  assert (Em : int_or (Some m) (month (now_local c)) = m)
    by (cbn; destruct (Z.eqb_spec m 0); [ lia | reflexivity ]).
  rewrite Ey, Em.
  destruct (Z.leb_spec 1 m); [ | lia ]. destruct (Z.leb_spec m 12); [ | lia ].
  cbn [andb negb].
  destruct (monthrange_days y m Hm) as (Hdim & _ & Hrange).
  rewrite !new_datetime_in_range by (rewrite <- ?Hdim; lia).
  eexists. exists (snd (monthrange y m)), (weekday (mkdatetime y m 1 0 0 0 0)).
  split; [ reflexivity | ].
  split; [ reflexivity | ].
  split; [ exact Hrange | ].
  split; [ apply weekday_range | ].
  cbn [get String.eqb Ascii.eqb Bool.eqb]. unfold strftime_date.
  rewrite !strftime_Y_four_digits by (cbn [year]; lia).
  split; [ reflexivity | ].
  unfold strftime_A.
  rewrite (weekday_of_day y m (snd (monthrange y m))). reflexivity.
Qed.

Lemma days_in_month_first_last_witness :
  exists d,
    run example_clock (days_in_month (Some 2024) (Some 2)) = Returned d
    /\ get "first_day" d
       = Some (VDict [ ("date", VStr "2024-02-01"); ("day_of_week", VStr "Thursday") ])
    /\ get "last_day" d
       = Some (VDict [ ("date", VStr "2024-02-29"); ("day_of_week", VStr "Thursday") ]).
Proof.
  destruct (days_in_month_first_last example_clock 2024 2 ltac:(lia) ltac:(lia))
    as (d & n & w & H & _).
  exists d. split; [ exact H | ].
  vm_compute in H. injection H as <-. split; reflexivity.
Defined.

Lemma days_in_month_in_range c y m :
  1 <= y <= 9999 -> 1 <= m <= 12 ->
  exists d,
    run c (days_in_month (Some y) (Some m)) = Returned d
    /\ get "days_in_month" d = Some (VInt (gregorian_days y m))
    /\ get "is_leap_year" d = Some (VBool (is_leap y)).
Proof.
  intros Hy Hm. rewrite days_in_month_run. cbv zeta.
  assert (Ey : int_or (Some y) (year (now_local c)) = y)
    by (cbn; destruct (Z.eqb_spec y 0); [ lia | reflexivity ]).
  assert (Em : int_or (Some m) (month (now_local c)) = m)
    by (cbn; destruct (Z.eqb_spec m 0); [ lia | reflexivity ]).
  rewrite Ey, Em.
  destruct (Z.leb_spec 1 m); [ | lia ]. destruct (Z.leb_spec m 12); [ | lia ].
  cbn [andb negb].
  destruct (monthrange_days y m Hm) as (Hdim & Hgreg & Hrange).
  rewrite !new_datetime_in_range by (rewrite <- ?Hdim; lia).
  eexists. split; [ reflexivity | ].
  split; [ cbn [get String.eqb Ascii.eqb Bool.eqb]; now rewrite Hgreg | reflexivity ].
Qed.

Lemma reported_days_in_range c y m :
  1 <= y <= 9999 -> 1 <= m <= 12 -> reported_days c y m = gregorian_days y m.
Proof.
  intros Hy Hm. unfold reported_days.
  destruct (days_in_month_in_range c y m Hy Hm) as (d & -> & -> & _). reflexivity.
Qed.

(** X12.  For a year from 1 to 9999 the twelve months that [days_in_month]
    reports add up to 366 days when the [is_leap_year] flag it reports
    for that year is set and to 365 when it is not; the flag is the same
    for every month of the year. *)
Theorem days_in_month_year_total :
  forall c y,
    1 <= y <= 9999 ->
    exists leap : bool,
      (forall m, 1 <= m <= 12 ->
         exists d,
           run c (days_in_month (Some y) (Some m)) = Returned d
           /\ get "is_leap_year" d = Some (VBool leap))
      /\ fold_right Z.add 0
           (map (reported_days c y) [1; 2; 3; 4; 5; 6; 7; 8; 9; 10; 11; 12])
         = (if leap then 366 else 365).
Proof.
  intros c y Hy. exists (is_leap y). split.
  - intros m Hm. destruct (days_in_month_in_range c y m Hy Hm) as (d & H & _ & L).
    exists d. split; assumption.
  - cbn [map fold_right].
    rewrite !reported_days_in_range by lia.
    cbn [gregorian_days]. rewrite gregorian_leap_is_leap.
    destruct (is_leap y); reflexivity.
Qed.

Lemma days_in_month_year_total_witness :
  fold_right Z.add 0
    (map (reported_days example_clock 2024) [1; 2; 3; 4; 5; 6; 7; 8; 9; 10; 11; 12])
  = 366.
Proof.
  destruct (days_in_month_year_total example_clock 2024 ltac:(lia))
    as (leap & Hflag & Hsum).
  destruct (Hflag 2 ltac:(lia)) as (d & H & L).
  vm_compute in H. injection H as <-. injection L as <-.
  exact Hsum.
Defined.

(** ** [get_week_year] *)

Lemma first_day_step y :
  ymd2ord (y + 1) 1 1 = ymd2ord y 1 1 + 365 + (if is_leap y then 1 else 0).
Proof.
  unfold ymd2ord. rewrite days_before_year_step.
  unfold days_before_month. eval_tables. cbn. lia.
Qed.

Lemma isoweek1monday_spec y :
  ymd2ord y 1 1 - 3 <= isoweek1monday y <= ymd2ord y 1 1 + 3
  /\ (isoweek1monday y + 6) mod 7 = 0.
Proof.
  unfold isoweek1monday. cbv zeta.
  destruct (Z.ltb_spec 3 ((ymd2ord y 1 1 + 6) mod 7)); divlia.
Qed.

(** The ordinal of the Thursday of the week (Monday to Sunday) of a day. *)
Lemma iso_thursday_rule dt :
  1 <= month dt <= 12 ->
  1 <= day dt <= Calendar.days_in_month (year dt) (month dt) ->
  let today := toordinal dt in
  let thursday := today - (today + 6) mod 7 + 3 in
  let iso_year := fst (fst (isocalendar dt)) in
  let iso_week := snd (fst (isocalendar dt)) in
  ymd2ord iso_year 1 1 <= thursday < ymd2ord (iso_year + 1) 1 1
  /\ iso_week = (thursday - ymd2ord iso_year 1 1) / 7 + 1
  /\ snd (isocalendar dt) = isoweekday dt
  /\ year dt - 1 <= iso_year <= year dt + 1.
Proof.
  intros Hm Hd.
  pose proof (day_of_year_range (year dt) (month dt) (day dt) Hm Hd) as Hdoy.
  pose proof (first_day_step (year dt - 1)) as S0.
  replace (year dt - 1 + 1) with (year dt) in S0 by lia.
  pose proof (first_day_step (year dt)) as S1.
  pose proof (first_day_step (year dt + 1)) as S2.
  replace (year dt + 1 + 1) with (year dt + 2) in S2 by lia.
  pose proof (isoweek1monday_spec (year dt - 1)) as (R0 & M0).
  pose proof (isoweek1monday_spec (year dt)) as (R1 & M1).
  pose proof (isoweek1monday_spec (year dt + 1)) as (R2 & M2).
  assert (Htoday : toordinal dt = ymd2ord (year dt) 1 1 - 1
                                  + (days_before_month (year dt) (month dt) + day dt)).
  { unfold toordinal, ymd2ord. unfold days_before_month at 2. eval_tables. cbn. lia. }
  unfold isocalendar, isoweekday. cbv zeta.
  set (today := toordinal dt) in *.
  set (doy := days_before_month (year dt) (month dt) + day dt) in *.
  set (f0 := ymd2ord (year dt - 1) 1 1) in *.
  set (f1 := ymd2ord (year dt) 1 1) in *.
  set (f2 := ymd2ord (year dt + 1) 1 1) in *.
  set (f3 := ymd2ord (year dt + 2) 1 1) in *.
  set (w0 := isoweek1monday (year dt - 1)) in *.
  set (w1 := isoweek1monday (year dt)) in *.
  set (w2 := isoweek1monday (year dt + 1)) in *.
  assert (L0 : 0 <= (if is_leap (year dt - 1) then 1 else 0) <= 1)
    by (destruct (is_leap (year dt - 1)); lia).
  assert (L1 : 0 <= (if is_leap (year dt) then 1 else 0) <= 1)
    by (destruct (is_leap (year dt)); lia).
  assert (L2 : 0 <= (if is_leap (year dt + 1) then 1 else 0) <= 1)
    by (destruct (is_leap (year dt + 1)); lia).
  set (l0 := if is_leap (year dt - 1) then 1 else 0) in *.
  set (l1 := if is_leap (year dt) then 1 else 0) in *.
  set (l2 := if is_leap (year dt + 1) then 1 else 0) in *.
  assert (G0 : ymd2ord (year dt - 1) 1 1 = f0) by reflexivity.
  assert (G1 : ymd2ord (year dt) 1 1 = f1) by reflexivity.
  assert (G2 : ymd2ord (year dt + 1) 1 1 = f2) by reflexivity.
  assert (E0 : ymd2ord (year dt - 1 + 1) 1 1 = f1) by (subst f1; f_equal; lia).
  assert (E2 : ymd2ord (year dt + 1 + 1) 1 1 = f3) by (subst f3; f_equal; lia).
  clearbody today doy f0 f1 f2 f3 w0 w1 w2 l0 l1 l2.
  destruct (Z.ltb_spec ((today - w1) / 7) 0) as [Hneg | Hpos].
  - cbn [fst snd].
    rewrite E0, G0. split; [ | split; [ | split; [ | lia ] ] ].
    + divlia.
    + divlia.
    + destruct (Z.eqb_spec (today mod 7) 0); divlia.
  - destruct (Z.leb_spec 52 ((today - w1) / 7)) as [H52 | H52];
      [ destruct (Z.leb_spec w2 today) as [Hw2 | Hw2] | ];
      cbn [andb fst snd].
    + rewrite E2, G2. split; [ | split; [ | split; [ | lia ] ] ].
      * divlia.
      * divlia.
      * destruct (Z.eqb_spec (today mod 7) 0); divlia.
    + rewrite G1, G2. split; [ | split; [ | split; [ | lia ] ] ].
      * divlia.
      * divlia.
      * destruct (Z.eqb_spec (today mod 7) 0); divlia.
    + rewrite G1, G2. split; [ | split; [ | split; [ | lia ] ] ].
      * divlia.
      * divlia.
      * destruct (Z.eqb_spec (today mod 7) 0); divlia.
Qed.

Lemma get_week_year_accepted s dt :
  strptime s "%Y-%m-%d" = Some dt ->
  get_week_year (Some s) = ret (week_year_result dt).
Proof.
  intros H. unfold get_week_year.
  assert (Hne : s <> "")
    by (intros ->; rewrite (strptime_empty _ eq_refl) in H; discriminate).
  rewrite (truthy_nonempty _ Hne), H. reflexivity.
Qed.

(** X13.  The ISO fields of [get_week_year] follow the Thursday rule of
    ISO 8601: [iso_year] is the calendar year that holds the Thursday of
    the week (Monday to Sunday) of the date, [iso_week] counts the weeks
    from the first Thursday of that year, so it lies between 1 and 53, and
    [iso_year] differs from the calendar year by at most one. *)
Theorem get_week_year_iso_thursday :
  forall date_str dt,
    strptime date_str "%Y-%m-%d" = Some dt ->
    let today := toordinal dt in
    let thursday := today - (today + 6) mod 7 + 3 in
    exists d iso_year iso_week,
      get_week_year (Some date_str) = ret d
      /\ get "iso_year" d = Some (VInt iso_year)
      /\ get "iso_week" d = Some (VInt iso_week)
      /\ ymd2ord iso_year 1 1 <= thursday < ymd2ord (iso_year + 1) 1 1
      /\ iso_week = (thursday - ymd2ord iso_year 1 1) / 7 + 1
      /\ 1 <= iso_week <= 53
      /\ year dt - 1 <= iso_year <= year dt + 1.
Proof.
  intros date_str dt H today thursday.
  destruct (strptime_valid _ _ _ H) as (Hv & _).
  apply valid_datetime_spec in Hv. destruct Hv as [(_ & Hm & Hd) _].
  destruct (iso_thursday_rule dt Hm Hd) as (Hrange & Hweek & _ & Hyear).
  fold today thursday in Hrange, Hweek.
  exists (week_year_result dt), (fst (fst (isocalendar dt))),
    (snd (fst (isocalendar dt))).
  split.
  { unfold get_week_year.
    assert (Hne : date_str <> "")
      by (intros ->; rewrite (strptime_empty _ eq_refl) in H; discriminate).
    rewrite (truthy_nonempty _ Hne), H. reflexivity. }
  split; [ reflexivity | ]. split; [ reflexivity | ].
  split; [ exact Hrange | ]. split; [ exact Hweek | ].
  split; [ | exact Hyear ].
  pose proof (first_day_step (fst (fst (isocalendar dt)))) as S.
  destruct (is_leap (fst (fst (isocalendar dt)))); rewrite Hweek; divlia.
Qed.

Lemma get_week_year_iso_thursday_witness :
  exists d,
    get_week_year (Some "2027-01-01") = ret d
    /\ get "iso_year" d = Some (VInt 2026)
    /\ get "iso_week" d = Some (VInt 53).
Proof.
  destruct (get_week_year_iso_thursday "2027-01-01" (mkdatetime 2027 1 1 0 0 0 0)
              eq_refl)
    as (d & iso_year & iso_week & H & _).
  exists d. split; [ exact H | ].
  vm_compute in H. injection H as <-. split; reflexivity.
Defined.

Lemma first_day_of_year y : ymd2ord y 1 1 = days_before_year y + 1.
Proof. unfold ymd2ord, days_before_month. eval_tables. cbn. lia. Qed.

Lemma last_day_of_year y :
  ymd2ord y 12 31 = ymd2ord y 1 1 + 364 + (if is_leap y then 1 else 0).
Proof.
  unfold ymd2ord, days_before_month. eval_tables.
  destruct (is_leap y); cbn; lia.
Qed.

(** X14.  For an accepted date, [day_of_year] plus
    [days_remaining_in_year] is the length of the year, 366 in a leap year
    and 365 otherwise; [day_of_year] is at least 1, [days_remaining_in_year]
    at least 0, [week_number] lies between 1 and 53 and [quarter] between 1
    and 4; [week_number] is 53 exactly on the last day of a common year
    and the last two days of a leap year. *)
Theorem get_week_year_year_length :
  forall date_str dt,
    strptime date_str "%Y-%m-%d" = Some dt ->
    exists d day_of_year remaining week quarter,
      get_week_year (Some date_str) = ret d
      /\ get "day_of_year" d = Some (VInt day_of_year)
      /\ get "days_remaining_in_year" d = Some (VInt remaining)
      /\ get "week_number" d = Some (VInt week)
      /\ get "quarter" d = Some (VInt quarter)
      /\ day_of_year + remaining = (if is_leap (year dt) then 366 else 365)
      /\ 1 <= day_of_year
      /\ 0 <= remaining
      /\ 1 <= week <= 53
      /\ 1 <= quarter <= 4
      /\ (week = 53 <-> remaining <= (if is_leap (year dt) then 1 else 0)).
Proof.
  intros date_str dt H.
  destruct (strptime_valid _ _ _ H) as (Hv & Hus).
  apply valid_datetime_spec in Hv. destruct Hv as [(_ & Hm & Hd) _].
  destruct (strptime_date_only _ _ H) as (Hh & Hmi & Hs).
  pose proof (day_of_year_range (year dt) (month dt) (day dt) Hm Hd) as Hdoy.
  exists (week_year_result dt), (tm_yday dt),
    (days (datetime_sub (mkdatetime (year dt) 12 31 0 0 0 0) dt)),
    ((tm_yday dt - 1) / 7 + 1), ((month dt - 1) / 3 + 1).
  split.
  { unfold get_week_year.
    assert (Hne : date_str <> "")
      by (intros ->; rewrite (strptime_empty _ eq_refl) in H; discriminate).
    rewrite (truthy_nonempty _ Hne), H. reflexivity. }
  do 4 (split; [ reflexivity | ]).
  rewrite (datetime_sub_whole_seconds (mkdatetime (year dt) 12 31 0 0 0 0) dt
             eq_refl Hus).
  cbn [days].
  assert (E : delta_seconds (mkdatetime (year dt) 12 31 0 0 0 0) dt
              = 86400 * (365 + (if is_leap (year dt) then 1 else 0) - tm_yday dt)).
  { unfold delta_seconds, wall_seconds, toordinal.
    cbn [year month day hour minute second].
    rewrite last_day_of_year, first_day_of_year, Hh, Hmi, Hs.
    unfold tm_yday, ymd2ord. lia. }
  rewrite E. unfold tm_yday in *.
  set (doy := days_before_month (year dt) (month dt) + day dt) in *.
  clearbody doy.
  destruct (is_leap (year dt)); repeat split; intros; divlia.
Qed.

Lemma get_week_year_year_length_witness :
  exists d,
    get_week_year (Some "2024-12-30") = ret d
    /\ get "day_of_year" d = Some (VInt 365)
    /\ get "days_remaining_in_year" d = Some (VInt 1)
    /\ get "week_number" d = Some (VInt 53).
Proof.
  destruct (get_week_year_year_length "2024-12-30" (mkdatetime 2024 12 30 0 0 0 0)
              eq_refl)
    as (d & n & r & w & q & H & _).
  exists d. split; [ exact H | ].
  vm_compute in H. injection H as <-. repeat split; reflexivity.
Defined.

(** ** The three formats *)

(** On a well-separated pattern the matcher finds the entire match of a
    prefix of the text and leaves the rest, when the rest does not start
    with a digit. *)
Lemma match_items_leftover p :
  well_separated p = true ->
  forall s g g' rest,
    matches_entirely p s g g' ->
    (forall x rest', rest = String x rest' -> is_digit x = false) ->
    match_items p (s ++ rest) g = Some (g', rest).
Proof.
  induction p as [ | i q IH]; intros Hp s g g' rest Hm Hrest0.
  - inversion Hm; subst. reflexivity.
  - destruct i as [d | c | ].
    + cbn [well_separated] in Hp. rewrite !andb_true_iff in Hp.
      destruct Hp as [[[Hdig Hord] Hfol] Hq].
      inversion Hm as [ | d' alt t items r g0 g0' Hin Halt Hrest | | ]; subst.
      pose proof (IH Hq _ _ _ rest Hrest Hrest0) as Hcont.
      pose proof (matches_entirely_first _ _ _ _ Hrest) as Hfirst.
      cbn [match_items]. rewrite append_assoc.
      destruct (in_split _ _ Hin) as (l1 & l2 & El).
      rewrite El. apply first_success_split;
        [ | rewrite (in_alt_complete _ _ _ Halt); exact Hcont ].
      intros a Ha.
      destruct (match_alt a (t ++ r ++ rest)) as [[t1 r1] | ] eqn:Ea;
        [ | left; reflexivity ].
      destruct (match_alt_sound _ _ _ _ Ea) as [Es Ha1].
      assert (Hain : In a (alternatives d))
        by (rewrite El; apply in_or_app; left; exact Ha).
      destruct (alternative_nonempty _ _ _ Hdig Hain Ha1) as (x1 & t1' & ->).
      destruct (alternative_nonempty _ _ _ Hdig Hin Halt) as (x & t' & ->).
      destruct (lt_eq_lt_dec (String.length (String x1 t1'))
                             (String.length (String x t')))
        as [[Hlt | Heq] | Hgt].
      * destruct (append_shorter _ _ _ _ (eq_sym Es) Hlt) as (y & u & Et & ->).
        assert (Hy : is_digit y = true).
        { apply (alternative_later_digit _ alt x1 t1' y u Hdig Hin).
          rewrite <- Et. exact Halt. }
        destruct q as [ | [d2 | c2 | ] q'].
        -- exfalso. cbn [String.append] in Et. injection Et as -> ->.
           pose proof (ordered_alternatives_sound _ Hord l1 alt l2 a x1 t1'
                         (t1' ++ String y u) El Ha Ha1 Halt) as L.
           clear - L. induction t1'; cbn in L; lia.
        -- discriminate Hfol.
        -- left. cbn [match_items String.append].
           cbn [follow_ok] in Hfol. apply negb_true_iff in Hfol.
           now rewrite (literal_not_digit _ _ Hfol Hy).
        -- left. cbn [match_items String.append space_rests].
           now rewrite (digit_not_space _ Hy).
      * right. destruct (append_same_length _ _ _ _ (eq_sym Es) Heq) as [E1 ->].
        rewrite E1. exact Hcont.
      * exfalso.
        destruct (append_shorter _ _ _ _ Es Hgt) as (y & u & Et & Er).
        assert (Hy : is_digit y = true).
        { apply (alternative_later_digit _ a x t' y u Hdig Hain).
          rewrite <- Et. exact Ha1. }
        cbn [String.append] in Er.
        destruct q as [ | [d2 | c2 | ] q'].
        -- rewrite Hfirst in Er. cbn [String.append] in Er.
           rewrite (Hrest0 _ _ Er) in Hy. discriminate Hy.
        -- discriminate Hfol.
        -- destruct Hfirst as (x' & r' & -> & Hc).
           cbn [String.append] in Er. injection Er as <- _.
           cbn [follow_ok] in Hfol. apply negb_true_iff in Hfol.
           pose proof (literal_not_digit _ _ Hfol Hy) as Hne.
           rewrite Hc, Ascii.eqb_refl in Hne. discriminate Hne.
        -- destruct Hfirst as (x' & r' & -> & Hsp).
           cbn [String.append] in Er. injection Er as <- _.
           rewrite (digit_not_space _ Hy) in Hsp. discriminate Hsp.
    + inversion Hm as [ | | c' x items r g0 g0' Hc Hrest | ]; subst.
      cbn [match_items String.append]. rewrite Hc, Ascii.eqb_refl.
      apply (IH Hp). exact Hrest. exact Hrest0.
    + cbn [well_separated] in Hp.
      destruct q as [ | [d | c | ] q']; try discriminate Hp.
      apply andb_true_iff in Hp. destruct Hp as [Hfirst Hq].
      inversion Hm as [ | | | sp items r g0 g0' Hsp Hrest ]; subst.
      pose proof (IH Hq _ _ _ rest Hrest Hrest0) as Hcont.
      inversion Hrest as [ | d' alt t items r' g0 g0' Hin Halt _ | | ]; subst.
      destruct (alternative_first_digit _ _ _ Hfirst Hin Halt) as (x & t' & -> & Hx).
      assert (Hnil : space_rests ((String x t' ++ r') ++ rest) = []).
      { cbn [String.append space_rests]. now rewrite (digit_not_space _ Hx). }
      destruct (space_rests_longest sp _ Hsp Hnil) as [l El].
      assert (G : first_success (fun r0 => match_items (Directive d :: q') r0 g)
                    (space_rests ((sp ++ String x t' ++ r') ++ rest))
                  = Some (g', rest)).
      { rewrite append_assoc, El. cbn [first_success]. now rewrite Hcont. }
      exact G.
Qed.

Lemma matches_entirely_app p q :
  forall s g g'',
    matches_entirely (p ++ q) s g g'' ->
    exists s1 s2 g',
      s = s1 ++ s2 /\ matches_entirely p s1 g g' /\ matches_entirely q s2 g' g''.
Proof.
  induction p as [ | i p IH]; intros s g g'' H.
  - exists "", s, g. split; [ reflexivity | ]. split; [ constructor | exact H ].
  - cbn [app] in H.
    inversion H as [ | d alt t items r g0 g0' Hin Halt Hrest
                     | c x items r g0 g0' Hc Hrest
                     | sp items r g0 g0' Hsp Hrest ]; subst.
    + destruct (IH _ _ _ Hrest) as (s1 & s2 & g' & -> & H1 & H2).
      exists (t ++ s1), s2, g'. split; [ now rewrite append_assoc | ].
      split; [ econstructor; eassumption | exact H2 ].
    + destruct (IH _ _ _ Hrest) as (s1 & s2 & g' & -> & H1 & H2).
      exists (String x s1), s2, g'. split; [ reflexivity | ].
      split; [ constructor; assumption | exact H2 ].
    + destruct (IH _ _ _ Hrest) as (s1 & s2 & g' & -> & H1 & H2).
      exists (sp ++ s1), s2, g'. split; [ now rewrite append_assoc | ].
      split; [ constructor; assumption | exact H2 ].
Qed.

Lemma space_not_digit x : is_space x = true -> is_digit x = false.
Proof.
  intros Hs. destruct (is_digit x) eqn:E; [ | reflexivity ].
  rewrite (digit_not_space x E) in Hs. discriminate Hs.
Qed.

Lemma letter_T_not_digit x : lower "T" = lower x -> is_digit x = false.
Proof.
  intros H. destruct (is_digit x) eqn:E; [ | reflexivity ].
  rewrite (digit_lower x E) in H. subst x. discriminate E.
Qed.

Lemma letter_T_not_space x : lower "T" = lower x -> is_space x = true -> False.
Proof.
  destruct x as [[] [] [] [] [] [] [] []]; vm_compute; intros H1 H2;
    discriminate H1 || discriminate H2.
Qed.

(** A text that a format with a time part accepts: the date pattern
    matches a proper prefix of it and leaves the separator. *)
Lemma date_prefix_T s g :
  matches_entirely (date_pattern ++ time_pattern (Literal "T")) s no_groups g ->
  exists g' x r,
    lower "T" = lower x
    /\ match_items date_pattern s no_groups = Some (g', String x r).
Proof.
  intros H.
  destruct (matches_entirely_app _ _ _ _ _ H) as (s1 & s2 & g' & -> & H1 & H2).
  inversion H2 as [ | | c' x items r g0 g0' Hc Hrest | ]; subst.
  exists g', x, r. split; [ exact Hc | ].
  apply (match_items_leftover date_pattern eq_refl); [ exact H1 | ].
  intros y r' [= <- _]. apply letter_T_not_digit. exact Hc.
Qed.

Lemma date_prefix_space s g :
  matches_entirely (date_pattern ++ time_pattern Spaces) s no_groups g ->
  exists g' x r,
    is_space x = true
    /\ match_items date_pattern s no_groups = Some (g', String x r).
Proof.
  intros H.
  destruct (matches_entirely_app _ _ _ _ _ H) as (s1 & s2 & g' & -> & H1 & H2).
  pose proof (matches_entirely_first _ _ _ _ H2) as (x & r & -> & Hx).
  exists g', x, r. split; [ exact Hx | ].
  apply (match_items_leftover date_pattern eq_refl); [ exact H1 | ].
  intros y r' [= <- _]. apply space_not_digit. exact Hx.
Qed.

Lemma strptime_T_entire s dt :
  strptime s "%Y-%m-%dT%H:%M:%S" = Some dt ->
  exists g, matches_entirely (date_pattern ++ time_pattern (Literal "T")) s no_groups g.
Proof.
  intros H. destruct (strptime_entire _ _ _ H) as (p & g & Hp & Hm & _).
  vm_compute in Hp. injection Hp as <-. exists g. exact Hm.
Qed.

Lemma strptime_space_entire s dt :
  strptime s "%Y-%m-%d %H:%M:%S" = Some dt ->
  exists g, matches_entirely (date_pattern ++ time_pattern Spaces) s no_groups g.
Proof.
  intros H. destruct (strptime_entire _ _ _ H) as (p & g & Hp & Hm & _).
  vm_compute in Hp. injection Hp as <-. exists g. exact Hm.
Qed.

Lemma strptime_date_leftover s g x r :
  match_items date_pattern s no_groups = Some (g, String x r) ->
  strptime s "%Y-%m-%d" = None.
Proof.
  intros H. unfold strptime.
  change (pattern false "%Y-%m-%d") with (Some date_pattern).
  cbv beta iota. rewrite H. reflexivity.
Qed.

(** At most one of the three formats accepts a text. *)
Lemma formats_exclusive s :
  (strptime s "%Y-%m-%dT%H:%M:%S" <> None -> strptime s "%Y-%m-%d" = None)
  /\ (strptime s "%Y-%m-%d %H:%M:%S" <> None -> strptime s "%Y-%m-%d" = None)
  /\ (strptime s "%Y-%m-%dT%H:%M:%S" <> None ->
      strptime s "%Y-%m-%d %H:%M:%S" = None).
Proof.
  split; [ | split ].
  - destruct (strptime s "%Y-%m-%dT%H:%M:%S") as [dt | ] eqn:E;
      [ intros _ | congruence ].
    destruct (strptime_T_entire s dt E) as (g & Hm).
    destruct (date_prefix_T s g Hm) as (g' & x & r & _ & H).
    exact (strptime_date_leftover s g' x r H).
  - destruct (strptime s "%Y-%m-%d %H:%M:%S") as [dt | ] eqn:E;
      [ intros _ | congruence ].
    destruct (strptime_space_entire s dt E) as (g & Hm).
    destruct (date_prefix_space s g Hm) as (g' & x & r & _ & H).
    exact (strptime_date_leftover s g' x r H).
  - destruct (strptime s "%Y-%m-%dT%H:%M:%S") as [dt | ] eqn:E;
      [ intros _ | congruence ].
    destruct (strptime s "%Y-%m-%d %H:%M:%S") as [dt' | ] eqn:E';
      [ exfalso | reflexivity ].
    destruct (strptime_T_entire s dt E) as (g & Hm).
    destruct (date_prefix_T s g Hm) as (g1 & x & r & Hx & H).
    destruct (strptime_space_entire s dt' E') as (g' & Hm').
    destruct (date_prefix_space s g' Hm') as (g2 & x' & r' & Hx' & H').
    rewrite H in H'. injection H' as _ <- _.
    exact (letter_T_not_space x Hx Hx').
Qed.

(** X15.  At most one of the three formats accepts a given text, so the
    order of the formats does not matter: the parsing loops of
    [relative_time] and [convert_time], which try them in different
    orders, read every text alike.  A text with a time part that they
    accept is rejected by [get_week_year], which returns the error mapping
    carrying the text. *)
Theorem formats_order_irrelevant :
  forall s,
    parse_formats s relative_time_formats = parse_formats s convert_time_formats
    /\ (forall dt,
           strptime s "%Y-%m-%dT%H:%M:%S" = Some dt
           \/ strptime s "%Y-%m-%d %H:%M:%S" = Some dt ->
           parse_formats s relative_time_formats = Some dt
           /\ exists message,
                get_week_year (Some s) = ret (error_mapping message)
                /\ carries message s).
Proof.
  intros s. destruct (formats_exclusive s) as (H1 & H2 & H3).
  unfold relative_time_formats, convert_time_formats. cbn [parse_formats].
  split.
  - destruct (strptime s "%Y-%m-%dT%H:%M:%S") as [d2 | ] eqn:E2.
    + rewrite (H1 ltac:(discriminate)), (H3 ltac:(discriminate)). reflexivity.
    + destruct (strptime s "%Y-%m-%d %H:%M:%S") as [d3 | ] eqn:E3.
      * rewrite (H2 ltac:(discriminate)). reflexivity.
      * destruct (strptime s "%Y-%m-%d"); reflexivity.
  - intros dt H.
    assert (Hdate : strptime s "%Y-%m-%d" = None).
    { destruct H as [H | H]; [ apply H1 | apply H2 ]; rewrite H; discriminate. }
    assert (Hne : s <> "").
    { intros ->. destruct H as [H | H]; vm_compute in H; discriminate H. }
    rewrite Hdate. split.
    + destruct H as [H | H]; [ now rewrite H | ].
      destruct (strptime s "%Y-%m-%dT%H:%M:%S") as [d2 | ] eqn:E2;
        [ rewrite (H3 ltac:(discriminate)) in H; discriminate H | ].
      now rewrite H.
    + eexists. split.
      * unfold get_week_year. rewrite (truthy_nonempty s Hne), Hdate. reflexivity.
      * apply carries_middle.
Qed.

Lemma formats_order_irrelevant_witness :
  parse_formats "2024-01-05t10:00:00" relative_time_formats
  = Some (mkdatetime 2024 1 5 10 0 0 0)
  /\ exists message,
       get_week_year (Some "2024-01-05t10:00:00") = ret (error_mapping message)
       /\ carries message "2024-01-05t10:00:00".
Proof.
  apply (formats_order_irrelevant "2024-01-05t10:00:00").
  left. reflexivity.
Defined.

Lemma strptime_strftime_date dt :
  valid_datetime dt = true ->
  hour dt = 0 -> minute dt = 0 -> second dt = 0 -> microsecond dt = 0 ->
  1000 <= year dt ->
  strptime (strftime_date dt) "%Y-%m-%d" = Some dt.
Proof.
  intros Hv Hh Hmi Hs Hus Hy1000. pose proof Hv as Hv'.
  apply valid_datetime_spec in Hv'.
  destruct Hv' as [(Hy & Hm & Hd) _].
  assert (Hd31 : 1 <= day dt <= 31).
  { pose proof (monthrange_days (year dt) (month dt) Hm) as (E & _ & R).
    rewrite E in R. lia. }
  unfold strptime.
  change (pattern false "%Y-%m-%d") with (Some date_pattern).
  cbv iota beta.
  assert (E : match_items date_pattern (strftime_date dt) no_groups
              = Some (mkgroups (year dt) (month dt) (day dt) 0 0 0, "")).
  { unfold strftime_date, date_pattern.
    rewrite strftime_Y_four_digits by lia. cbn [String.append].
    rewrite match_year by lia. rewrite match_literal.
    apply match_month; [ lia | ]. rewrite match_literal.
    rewrite <- (append_nil_r (pad2 (day dt))).
    apply match_day; [ lia | ].
    reflexivity. }
  rewrite E. cbn [gY gm gd gH gM gS].
  unfold new_datetime. unfold valid_datetime in Hv. rewrite Hh, Hmi, Hs, Hus in Hv.
  rewrite Hv. destruct dt; cbn in *; subst; reflexivity.
Qed.

(** X16.  [get_week_year] normalises the date it accepts: for a year of
    four digits the [date] it returns is a text of ten characters
    ([YYYY-MM-DD], zero padded) that [strptime] reads back as the same
    date, and feeding that text to [get_week_year] returns the identical
    mapping. *)
Theorem get_week_year_canonical_date :
  forall date_str dt,
    strptime date_str "%Y-%m-%d" = Some dt ->
    1000 <= year dt ->
    exists d text,
      get_week_year (Some date_str) = ret d
      /\ get "date" d = Some (VStr text)
      /\ String.length text = 10%nat
      /\ strptime text "%Y-%m-%d" = Some dt
      /\ get_week_year (Some text) = ret d.
Proof.
  intros date_str dt H Hy.
  destruct (strptime_valid _ _ _ H) as (Hv & Hus).
  destruct (strptime_date_only _ _ H) as (Hh & Hmi & Hs).
  pose proof (strptime_strftime_date dt Hv Hh Hmi Hs Hus Hy) as Hback.
  exists (week_year_result dt), (strftime_date dt).
  split; [ exact (get_week_year_accepted _ _ H) | ].
  split; [ reflexivity | ].
  split; [ | split; [ exact Hback | exact (get_week_year_accepted _ _ Hback) ] ].
  apply valid_datetime_spec in Hv. destruct Hv as [(Hy' & Hm & Hd) _].
  assert (Hd31 : 1 <= day dt <= 31).
  { pose proof (monthrange_days (year dt) (month dt) Hm) as (E & _ & R).
    rewrite E in R. lia. }
  unfold strftime_date.
  rewrite strftime_Y_four_digits, pad4_digits, !pad2_digits by lia. reflexivity.
Qed.

Lemma get_week_year_canonical_date_witness :
  exists d,
    get_week_year (Some "2024-1-5") = ret d
    /\ get "date" d = Some (VStr "2024-01-05")
    /\ get_week_year (Some "2024-01-05") = ret d.
Proof.
  destruct (get_week_year_canonical_date "2024-1-5" (mkdatetime 2024 1 5 0 0 0 0)
              eq_refl ltac:(cbn; lia))
    as (d & text & H & Hdate & _ & _ & Hback).
  exists d. split; [ exact H | ].
  vm_compute in H. injection H as <-.
  split; [ reflexivity | ].
  vm_compute in Hdate. injection Hdate as <-. exact Hback.
Defined.

(** X17.  The tools compose.  For a year from 1000 to 9999 and a month
    from 1 to 12, the date texts that [days_in_month] returns for the first
    and the last day are accepted by [get_week_year], which echoes each
    text and reports the same day name for it, and [relative_time] from
    the first to the last day reports a [days_difference] of the number of
    days of the month minus one. *)
Theorem days_in_month_dates_compose :
  forall c y m,
    1000 <= y <= 9999 -> 1 <= m <= 12 ->
    exists d n first last first_name last_name w1 w2 r,
      run c (days_in_month (Some y) (Some m)) = Returned d
      /\ get "days_in_month" d = Some (VInt n)
      /\ get "first_day" d
         = Some (VDict [ ("date", VStr first); ("day_of_week", VStr first_name) ])
      /\ get "last_day" d
         = Some (VDict [ ("date", VStr last); ("day_of_week", VStr last_name) ])
      /\ get_week_year (Some first) = ret w1
      /\ get_week_year (Some last) = ret w2
      /\ get "date" w1 = Some (VStr first)
      /\ get "date" w2 = Some (VStr last)
      /\ get "day_of_week" w1 = Some (VStr first_name)
      /\ get "day_of_week" w2 = Some (VStr last_name)
      /\ relative_time last (Some first) = ret r
      /\ get "days_difference" r = Some (VInt (n - 1)).
Proof.
  intros c y m Hy Hm. rewrite days_in_month_run. cbv zeta.
  assert (Ey : int_or (Some y) (year (now_local c)) = y)
    by (cbn; destruct (Z.eqb_spec y 0); [ lia | reflexivity ]).
  assert (Em : int_or (Some m) (month (now_local c)) = m)
    by (cbn; destruct (Z.eqb_spec m 0); [ lia | reflexivity ]).
  rewrite Ey, Em.
  destruct (Z.leb_spec 1 m); [ | lia ]. destruct (Z.leb_spec m 12); [ | lia ].
  cbn [andb negb].
  destruct (monthrange_days y m Hm) as (Hdim & _ & Hrange).
  set (n := snd (monthrange y m)) in *.
  assert (N1 : new_datetime y m 1 0 0 0 0 = Some (mkdatetime y m 1 0 0 0 0))
    by (apply new_datetime_in_range; rewrite <- ?Hdim; lia).
  assert (N2 : new_datetime y m n 0 0 0 0 = Some (mkdatetime y m n 0 0 0 0))
    by (apply new_datetime_in_range; rewrite <- ?Hdim; lia).
  rewrite N1, N2.
  destruct (new_datetime_valid _ _ _ _ _ _ _ _ N1) as (_ & V1).
  destruct (new_datetime_valid _ _ _ _ _ _ _ _ N2) as (_ & V2).
  assert (Hy1000 : 1000 <= y) by lia.
  pose proof (strptime_strftime_date _ V1 eq_refl eq_refl eq_refl eq_refl Hy1000)
    as S1.
  pose proof (strptime_strftime_date _ V2 eq_refl eq_refl eq_refl eq_refl Hy1000)
    as S2.
  destruct (relative_time_dates _ _ _ _ S2 S1) as (r & Hr & Hdiff).
  eexists. exists n.
  exists (strftime_date (mkdatetime y m 1 0 0 0 0)),
    (strftime_date (mkdatetime y m n 0 0 0 0)),
    (strftime_A (mkdatetime y m 1 0 0 0 0)),
    (strftime_A (mkdatetime y m n 0 0 0 0)),
    (week_year_result (mkdatetime y m 1 0 0 0 0)),
    (week_year_result (mkdatetime y m n 0 0 0 0)), r.
  split; [ reflexivity | ].
  do 3 (split; [ reflexivity | ]).
  split; [ exact (get_week_year_accepted _ _ S1) | ].
  split; [ exact (get_week_year_accepted _ _ S2) | ].
  do 4 (split; [ reflexivity | ]).
  split; [ exact Hr | ].
  rewrite Hdiff. do 2 f_equal. unfold toordinal, ymd2ord. cbn [year month day]. lia.
Qed.

Lemma days_in_month_dates_compose_witness :
  exists d r,
    run example_clock (days_in_month (Some 2024) (Some 2)) = Returned d
    /\ get "days_in_month" d = Some (VInt 29)
    /\ relative_time "2024-02-29" (Some "2024-02-01") = ret r
    /\ get "days_difference" r = Some (VInt 28).
Proof.
  destruct (days_in_month_dates_compose example_clock 2024 2 ltac:(lia) ltac:(lia))
    as (d & n & first & last & first_name & last_name & w1 & w2 & r
        & H & Hn & Hfirst & Hlast & _ & _ & _ & _ & _ & _ & Hr & Hdiff).
  exists d, r. split; [ exact H | ].
  vm_compute in H. injection H as <-.
  injection Hn as <-. injection Hfirst as <- _. injection Hlast as <- _.
  split; [ reflexivity | ]. split; [ exact Hr | exact Hdiff ].
Defined.

(** ** [convert_time] *)

Lemma zone_of_same_object tzdata name zone :
  zone_of tzdata name = ret zone -> same_object zone zone = true.
Proof.
  destruct (zone_of_cases tzdata name)
    as [(_ & ->) | [(_ & z & _ & ->) | (_ & e & _ & ->)]];
    intros H; inversion H; subst; cbn; [ reflexivity | apply String.eqb_refl ].
Qed.

(** X18.  [convert_time] from a zone to the same zone ("UTC", or a key of
    the database) succeeds and changes nothing: the [to] side equals the
    [from] side, also for a local time that does not exist in the zone.
    For a year of four digits the wall-clock text of both sides is the
    canonical text of the parsed time, which parses back to it. *)
Theorem convert_time_same_zone :
  forall tzdata time_str A dt,
    parse_formats time_str convert_time_formats = Some dt ->
    A = "UTC" \/ (exists z, tzdata A = inl z) ->
    exists d,
      convert_time tzdata time_str A A = ret d
      /\ has_key "error" d = false
      /\ get "to" d = get "from" d
      /\ (1000 <= year dt ->
          wall_clock "to" d = Some (strftime_datetime dt, strftime_A dt)
          /\ parse_formats (strftime_datetime dt) convert_time_formats = Some dt).
Proof.
  intros tzdata time_str A dt Hp HA.
  assert (Hz : exists za, zone_of tzdata A = ret za).
  { destruct (zone_of_cases tzdata A)
      as [(_ & Hz) | [(_ & z & _ & Hz) | (Hne & e & He & _)]];
      [ eexists; exact Hz | eexists; exact Hz | ].
    destruct HA as [-> | (z & Hz)]; [ contradiction | congruence ]. }
  destruct Hz as (za & Hz).
  rewrite (convert_time_resolved tzdata time_str A A dt za za Hp Hz Hz).
  unfold astimezone. cbn [tz]. rewrite (zone_of_same_object tzdata A za Hz).
  destruct (parse_formats_valid _ _ _ Hp) as (Hv & Hus).
  eexists. split; [ reflexivity | ].
  split; [ reflexivity | ]. split; [ reflexivity | ].
  intros Hy. split; [ reflexivity | exact (parse_strftime_datetime dt Hv Hus Hy) ].
Qed.

Lemma convert_time_same_zone_witness :
  exists d,
    convert_time example_tzdata "2024-03-10 02:30:00" "America/New_York"
      "America/New_York" = ret d
    /\ wall_clock "to" d = Some ("2024-03-10 02:30:00", "Sunday").
Proof.
  destruct (convert_time_same_zone example_tzdata "2024-03-10 02:30:00"
              "America/New_York" (mkdatetime 2024 3 10 2 30 0 0) eq_refl
              (or_intror (ex_intro _ America_New_York eq_refl)))
    as (d & H & _ & _ & Hto).
  exists d. split; [ exact H | ].
  apply Hto. cbn. lia.
Defined.

(** X19.  [convert_time] depends on the accepted text only through the
    datetime it denotes: for a year of four digits, the canonical text
    [YYYY-MM-DD HH:MM:SS] of that datetime gives the same result, the
    [from] side of a successful result shows that canonical text, and a
    date without a time is taken as midnight. *)
Theorem convert_time_canonical_text :
  forall tzdata time_str A B dt,
    parse_formats time_str convert_time_formats = Some dt ->
    1000 <= year dt ->
    convert_time tzdata (strftime_datetime dt) A B
    = convert_time tzdata time_str A B
    /\ (forall d,
           convert_time tzdata time_str A B = ret d ->
           has_key "error" d = false ->
           wall_clock "from" d = Some (strftime_datetime dt, strftime_A dt))
    /\ (strptime time_str "%Y-%m-%d" = Some dt ->
        strftime_datetime dt = strftime_date dt ++ " 00:00:00").
Proof.
  intros tzdata time_str A B dt Hp Hy.
  destruct (parse_formats_valid _ _ _ Hp) as (Hv & Hus).
  split; [ | split ].
  - unfold convert_time. rewrite Hp, (parse_strftime_datetime dt Hv Hus Hy).
    reflexivity.
  - intros d. unfold convert_time. rewrite Hp.
    destruct (zone_of_cases tzdata A)
      as [(_ & HA) | [(_ & za & _ & HA) | (_ & e & _ & HA)]]; rewrite HA;
      cbn [bind try_except];
      try (intros [= <-]; discriminate);
      (destruct (zone_of_cases tzdata B)
        as [(_ & HB) | [(_ & zb & _ & HB) | (_ & e & _ & HB)]]; rewrite HB;
       cbn [bind try_except];
       try (intros [= <-]; discriminate));
      (destruct (astimezone _ _); cbn [bind or_raise];
       [ intros [= <-] _; reflexivity | discriminate ]).
  - intros Hd. destruct (strptime_date_only _ _ Hd) as (Hh & Hmi & Hs).
    unfold strftime_datetime, strftime_time. rewrite Hh, Hmi, Hs. reflexivity.
Qed.

Lemma convert_time_canonical_text_witness :
  convert_time example_tzdata "2024-07-01 00:00:00" "UTC" "America/New_York"
  = convert_time example_tzdata "2024-7-1" "UTC" "America/New_York".
Proof.
  apply (convert_time_canonical_text example_tzdata "2024-7-1" "UTC"
           "America/New_York" (mkdatetime 2024 7 1 0 0 0 0) eq_refl).
  cbn. lia.
Defined.

(** X20.  [convert_time] keeps the instant.  Over a database whose zones
    have ordered transitions, a conversion between two resolved zones
    either raises [OverflowError] or returns the two sides with their UTC
    offsets, such that the target wall-clock time minus the target offset
    equals the source wall-clock time minus the source offset; the target
    is a valid datetime of whole seconds, its day name is the one
    returned, and for a target year of four digits its canonical text is
    the one returned. *)
Theorem convert_time_same_instant :
  forall tzdata time_str A B dt za zb,
    ordered_tzdata tzdata ->
    parse_formats time_str convert_time_formats = Some dt ->
    zone_of tzdata A = ret za ->
    zone_of tzdata B = ret zb ->
    convert_time tzdata time_str A B = raise overflow_error
    \/ exists target d from_side to_side,
         convert_time tzdata time_str A B = ret d
         /\ get "from" d = Some (VDict from_side)
         /\ get "to" d = Some (VDict to_side)
         /\ get "utc_offset" from_side
            = Some (VStr (strftime_z (utcoffset (mkaware dt false za))))
         /\ get "utc_offset" to_side = Some (VStr (strftime_z (utcoffset target)))
         /\ get "day_of_week" to_side = Some (VStr (strftime_A (naive target)))
         /\ wall_seconds (naive target) - utcoffset target
            = wall_seconds dt - utcoffset (mkaware dt false za)
         /\ microsecond (naive target) = 0
         /\ valid_datetime (naive target) = true
         /\ (1000 <= year (naive target) ->
             get "datetime" to_side
             = Some (VStr (strftime_datetime (naive target)))).
Proof.
  intros tzdata time_str A B dt za zb Hdb Hp HA HB.
  destruct (parse_formats_valid _ _ _ Hp) as (Hv & Hus).
  rewrite (convert_time_resolved tzdata time_str A B dt za zb Hp HA HB).
  assert (Hshape : forall target,
             get "from" [ ("from", zone_mapping (mkaware dt false za) A);
                          ("to", zone_mapping target B) ]
             = Some (zone_mapping (mkaware dt false za) A)
             /\ get "to" [ ("from", zone_mapping (mkaware dt false za) A);
                           ("to", zone_mapping target B) ]
                = Some (zone_mapping target B))
    by (intros target; split; reflexivity).
  unfold astimezone. cbn [tz naive].
  destruct (same_object zb za).
  - right. exists (mkaware dt false za). do 3 eexists.
    split; [ reflexivity | ].
    split; [ apply Hshape | ]. split; [ apply Hshape | ].
    do 3 (split; [ reflexivity | ]).
    split; [ reflexivity | ]. split; [ exact Hus | ]. split; [ exact Hv | ].
    intros _. reflexivity.
  - destruct (datetime_add_seconds dt _) as [utc | ] eqn:U; [ | left; reflexivity ].
    unfold datetime_add_seconds in U.
    destruct (datetime_of_seconds_wall _ _ _ U) as (Hw & Hus' & _).
    destruct (fromutc zb utc) as [target | ] eqn:F; [ right | left; reflexivity ].
    exists target. do 3 eexists.
    split; [ reflexivity | ].
    split; [ apply Hshape | ]. split; [ apply Hshape | ].
    do 3 (split; [ reflexivity | ]).
    rewrite (utcoffset_fromutc zb utc target (zone_of_ordered tzdata B zb Hdb HB) F).
    destruct (fromutc_fields zb utc target F) as (Hwt & Hust & _).
    split; [ lia | ]. split; [ congruence | ].
    split; [ | intros _; reflexivity ].
    unfold fromutc, datetime_add_seconds in F.
    destruct (datetime_of_seconds (wall_seconds utc + fromutc_offset zb utc)
                                  (microsecond utc)) as [t | ] eqn:T;
      [ | discriminate ].
    cbn [option_map] in F. injection F as <-. cbn [naive].
    destruct (datetime_of_seconds_wall _ _ _ T) as (_ & _ & Hvt).
    apply Hvt. rewrite Hus', Hus. lia.
Qed.

Lemma convert_time_same_instant_witness :
  exists target d to_side,
    convert_time example_tzdata "2024-07-01 12:00:00" "America/New_York" "UTC"
    = ret d
    /\ get "to" d = Some (VDict to_side)
    /\ get "utc_offset" to_side = Some (VStr (strftime_z (utcoffset target)))
    /\ wall_seconds (naive target) - utcoffset target
       = wall_seconds (mkdatetime 2024 7 1 12 0 0 0) - (-14400).
Proof.
  destruct (convert_time_same_instant example_tzdata "2024-07-01 12:00:00"
              "America/New_York" "UTC" (mkdatetime 2024 7 1 12 0 0 0)
              (ZoneInfoObj "America/New_York" America_New_York) timezone_utc
              example_tzdata_ordered eq_refl eq_refl eq_refl)
    as [H | (target & d & from_side & to_side & H & _ & Hto & _ & Hoff & _
             & Hinstant & _)].
  - vm_compute in H. discriminate H.
  - exists target, d, to_side.
    split; [ exact H | ]. split; [ exact Hto | ].
    split; [ exact Hoff | exact Hinstant ].
Defined.

Lemma convert_time_reads c tzdata time_str A B :
  clock_reads c (convert_time tzdata time_str A B) = 0%nat.
Proof.
  unfold convert_time.
  destruct (parse_formats time_str convert_time_formats) as [dt | ]; [ | reflexivity ].
  destruct (zone_of_cases tzdata A)
    as [(_ & HA) | [(_ & za & _ & HA) | (_ & e & _ & HA)]]; rewrite HA;
    cbn [bind try_except]; try reflexivity;
    (destruct (zone_of_cases tzdata B)
      as [(_ & HB) | [(_ & zb & _ & HB) | (_ & e & _ & HB)]]; rewrite HB;
     cbn [bind try_except]; try reflexivity);
    (destruct (astimezone _ _); reflexivity).
Qed.

(** X21.  [convert_time] never reads the clock.  When the text is accepted
    and the source zone is rejected by the database, the result is the
    error mapping with the text of that exception, whatever the target
    zone is; when the source zone resolves and the target zone is
    rejected, it is the error mapping with the text of the exception of
    the target zone. *)
Theorem convert_time_zone_errors :
  forall tzdata c time_str A B,
    clock_reads c (convert_time tzdata time_str A B) = 0%nat
    /\ (forall dt e,
           parse_formats time_str convert_time_formats = Some dt ->
           A <> "UTC" -> tzdata A = inr e ->
           run c (convert_time tzdata time_str A B)
           = Returned (error_mapping ("Invalid timezone: " ++ exn_text e)))
    /\ (forall dt e,
           parse_formats time_str convert_time_formats = Some dt ->
           A = "UTC" \/ (exists z, tzdata A = inl z) ->
           B <> "UTC" -> tzdata B = inr e ->
           run c (convert_time tzdata time_str A B)
           = Returned (error_mapping ("Invalid timezone: " ++ exn_text e))).
Proof.
  intros tzdata c time_str A B.
  split; [ apply convert_time_reads | split ].
  - intros dt e Hp HA He. unfold convert_time, zone_of, ZoneInfo. rewrite Hp.
    destruct (String.eqb_spec A "UTC") as [E | _]; [ contradiction | ].
    cbn [negb]. rewrite He. reflexivity.
  - intros dt e Hp HA HB He. unfold convert_time. rewrite Hp.
    assert (Hz : exists za, zone_of tzdata A = ret za).
    { destruct (zone_of_cases tzdata A)
        as [(_ & Hz) | [(_ & z & _ & Hz) | (Hne & e' & He' & _)]];
        [ eexists; exact Hz | eexists; exact Hz | ].
      destruct HA as [-> | (z & Hz)]; [ contradiction | congruence ]. }
    destruct Hz as (za & ->). cbn [bind].
    unfold zone_of, ZoneInfo.
    destruct (String.eqb_spec B "UTC") as [E | _]; [ contradiction | ].
    cbn [negb]. rewrite He. reflexivity.
Qed.

Lemma convert_time_zone_errors_witness :
  run example_clock
    (convert_time example_tzdata "2024-07-01" "Mars/Olympus" "Venus/Maxwell")
  = Returned (error_mapping
                "Invalid timezone: 'No time zone found with key Mars/Olympus'").
Proof.
  destruct (convert_time_zone_errors example_tzdata example_clock "2024-07-01"
              "Mars/Olympus" "Venus/Maxwell") as (_ & H & _).
  apply (H (mkdatetime 2024 7 1 0 0 0 0)
           (mkexn ZoneInfoNotFoundError
                  "'No time zone found with key Mars/Olympus'")).
  - reflexivity.
  - discriminate.
  - reflexivity.
Defined.
